(** * deepdrive: the gym environment's reward engine, stuck and lap
      detection, benchmark recording and connection retries

    A shallow embedding of [gym_deepdrive/envs/deepdrive_gym_env.py].

    Numbers.  Python floats are modelled by the rationals [Q]: every
    arithmetic operation of the source is exact here, and the float
    specials (infinities, NaN, rounding) are outside the model.  Python
    integers that only count are [Z] or [nat].

    Exceptions.  A Python call either returns a value or raises; the
    type [result] keeps both outcomes, with one constructor of [exn] per
    exception class the source can raise on the modelled paths. *)

From Stdlib Require Import QArith Qpower ZArith Bool Lia Lqa.
From stdpp Require Import base list strings.

Local Open Scope Q_scope.

(** ** Exceptions and results *)

Inductive exn : Type :=
| ValueError (msg : string)
| KeyError (key : string)
| TypeError
| ZeroDivisionError
| OverflowError
| RuntimeError (msg : string)
| PyException (msg : string).

Inductive result (A : Type) : Type :=
| Ok (a : A)
| Raise (e : exn).

Arguments Ok {A} a.
Arguments Raise {A} e.

(** Comparisons of the source as booleans. *)
Definition Qltb (x y : Q) : bool := negb (Qle_bool y x).
Definition Qgtb (x y : Q) : bool := Qltb y x.

(** [x / y] on Python floats raises when the divisor is zero. *)
Definition py_div (x y : Q) : result Q :=
  if Qeq_bool y 0 then Raise ZeroDivisionError else Ok (x / y).

(** Python's two-argument [max] and [min] keep the first argument unless
    the second is strictly greater (resp. smaller). *)
Definition py_max (a b : Q) : Q := if Qgtb b a then b else a.
Definition py_min (a b : Q) : Q := if Qltb b a then b else a.

(** [x ** 2] on a Python float raises [OverflowError] when the square
    is too large for a float, that is when it rounds to infinity: from
    [2^1024 - 2^970] on, the midpoint between the largest float and
    [2^1024].  It is the one operation of the calculator that raises on
    overflow: a product or a quotient that overflows gives an infinity
    instead, which [clip] brings back to a limit as it does the large
    rational computed here.  Rounding is not modelled, and neither are
    infinite and NaN values: the model stands for the code on finite
    inputs whose products before the square are finite (a square of
    infinity does not raise). *)
Definition FLOAT_OVERFLOW : Q := inject_Z (2 ^ 1024 - 2 ^ 970).

Definition py_square (x : Q) : result Q :=
  if Qltb (x ^ 2) FLOAT_OVERFLOW then Ok (x ^ 2) else Raise OverflowError.

Definition SPEED_LIMIT_KPH : Q := 64.

(** ** [class DeepDriveRewardCalculator] *)

Module DeepDriveRewardCalculator.

(** [min(max(reward, -1e2), 1e2)] *)
Definition clip (reward : Q) : Q := py_min (py_max reward (-100)) 100.

(** [time_passed] is [None] when the caller has no previous step; the
    products [... * time_passed] then raise [TypeError]. *)
Definition get_speed_reward (cmps : Q) (time_passed : option Q) : result Q :=
  let speed_kph := cmps * 3600 / 100 / 1000 in
  let balance_coeff := 2 / 10 in
  let speed_delta := speed_kph - SPEED_LIMIT_KPH in
  if Qgtb speed_delta 4 then
    match time_passed with
    | None => Raise TypeError
    | Some t =>
        match py_square speed_delta with
        | Raise e => Raise e
        | Ok squared =>
            Ok (clip (-1 * balance_coeff * speed_kph * t * squared))
        end
    end
  else
    match time_passed with
    | None => Raise TypeError
    | Some t => Ok (clip (balance_coeff * t * speed_kph))
    end.

Definition get_lane_deviation_penalty (lane_deviation : Q)
    (time_passed : option Q) : result Q :=
  let lane_deviation_penalty := 0 in
  if Qltb lane_deviation 0 then
    Raise (ValueError "Lane deviation should be positive")
  else
    match time_passed with
    | Some t =>
        if Qgtb lane_deviation 200 then
          let lane_deviation_coeff := 1 / 10 in
          match py_square lane_deviation with
          | Raise e => Raise e
          | Ok squared =>
              let lane_deviation_penalty :=
                lane_deviation_coeff * t * squared / 100 in
              Ok (clip lane_deviation_penalty)
          end
        else Ok (clip lane_deviation_penalty)
    | None => Ok (clip lane_deviation_penalty)
    end.

Definition get_gforce_penalty (gforces : Q) (time_passed : option Q)
    : result Q :=
  let gforce_penalty := 0 in
  if Qltb gforces 0 then
    Raise (ValueError "G-Force should be positive")
  else if Qgtb gforces 0.5 then
    match time_passed with
    | None => Raise TypeError
    | Some t =>
        let time_weighted_gs := t * gforces in
        let time_weighted_gs := py_min time_weighted_gs 5 in
        let balance_coeff := 24 in
        let gforce_penalty := time_weighted_gs * balance_coeff in
        Ok (clip gforce_penalty)
    end
  else Ok (clip gforce_penalty).

Definition get_progress_reward (progress : Q) (time_passed : option Q)
    : result Q :=
  let finish (progress : Q) : result Q :=
    let progress_reward := progress / 100 in
    let balance_coeff := 1 in
    let progress_reward := progress_reward * balance_coeff in
    Ok (clip progress_reward) in
  match time_passed with
  | Some t =>
      match py_div progress t with
      | Raise e => Raise e
      | Ok step_velocity =>
          if Qltb step_velocity (-400 * 100) then finish 0
          else finish progress
      end
  | None => finish progress
  end.

End DeepDriveRewardCalculator.

(** The hard limits on a reward term. *)
Definition clipped (r : Q) : Prop := -100 <= r /\ r <= 100.

(** ** A state-and-exception monad

    A method of the environment reads and mutates [self] and may raise.
    A raised exception keeps the mutations made before it, as in Python. *)

Definition M (S A : Type) : Type := S -> result A * S.

#[global] Instance M_ret {S : Type} : MRet (M S) :=
  fun A (a : A) s => (Ok a, s).

#[global] Instance M_bind {S : Type} : MBind (M S) :=
  fun A B (f : A -> M S B) (m : M S A) s =>
    match m s with
    | (Ok a, s') => f a s'
    | (Raise e, s') => (Raise e, s')
    end.

Definition raise {S A : Type} (e : exn) : M S A := fun s => (Raise e, s).

Definition lift {S A : Type} (r : result A) : M S A := fun s => (r, s).

Definition gets {S A : Type} (f : S -> A) : M S A := fun s => (Ok (f s), s).

Definition modify {S : Type} (f : S -> S) : M S unit := fun s => (Ok tt, f s).

(** [when b m]: an [if] without [else]. *)
Definition when {S : Type} (b : bool) (m : M S unit) : M S unit :=
  if b then m else mret tt.

(** ** [class Score] *)

Module Score.

Record t : Type := mk {
  total : Q;
  gforce_penalty : Q;
  speed_reward : Q;
  lane_deviation_penalty : Q;
  progress_reward : Q;
  got_stuck : bool;
  start_time : Q;
  end_time : option Q
}.

(** [Score()]: the class-level defaults and the two attributes set by
    [__init__]. *)
Definition new (now : Q) : t :=
  {| total := 0; gforce_penalty := 0; speed_reward := 0;
     lane_deviation_penalty := 0; progress_reward := 0;
     got_stuck := false; start_time := now; end_time := None |}.

Definition add_total (r : Q) (s : t) : t :=
  {| total := total s + r; gforce_penalty := gforce_penalty s;
     speed_reward := speed_reward s;
     lane_deviation_penalty := lane_deviation_penalty s;
     progress_reward := progress_reward s; got_stuck := got_stuck s;
     start_time := start_time s; end_time := end_time s |}.

Definition add_gforce_penalty (r : Q) (s : t) : t :=
  {| total := total s; gforce_penalty := gforce_penalty s + r;
     speed_reward := speed_reward s;
     lane_deviation_penalty := lane_deviation_penalty s;
     progress_reward := progress_reward s; got_stuck := got_stuck s;
     start_time := start_time s; end_time := end_time s |}.

Definition add_speed_reward (r : Q) (s : t) : t :=
  {| total := total s; gforce_penalty := gforce_penalty s;
     speed_reward := speed_reward s + r;
     lane_deviation_penalty := lane_deviation_penalty s;
     progress_reward := progress_reward s; got_stuck := got_stuck s;
     start_time := start_time s; end_time := end_time s |}.

Definition add_lane_deviation_penalty (r : Q) (s : t) : t :=
  {| total := total s; gforce_penalty := gforce_penalty s;
     speed_reward := speed_reward s;
     lane_deviation_penalty := lane_deviation_penalty s + r;
     progress_reward := progress_reward s; got_stuck := got_stuck s;
     start_time := start_time s; end_time := end_time s |}.

Definition add_progress_reward (r : Q) (s : t) : t :=
  {| total := total s; gforce_penalty := gforce_penalty s;
     speed_reward := speed_reward s;
     lane_deviation_penalty := lane_deviation_penalty s;
     progress_reward := progress_reward s + r; got_stuck := got_stuck s;
     start_time := start_time s; end_time := end_time s |}.

Definition set_got_stuck (b : bool) (s : t) : t :=
  {| total := total s; gforce_penalty := gforce_penalty s;
     speed_reward := speed_reward s;
     lane_deviation_penalty := lane_deviation_penalty s;
     progress_reward := progress_reward s; got_stuck := b;
     start_time := start_time s; end_time := end_time s |}.

Definition set_end_time (e : option Q) (s : t) : t :=
  {| total := total s; gforce_penalty := gforce_penalty s;
     speed_reward := speed_reward s;
     lane_deviation_penalty := lane_deviation_penalty s;
     progress_reward := progress_reward s; got_stuck := got_stuck s;
     start_time := start_time s; end_time := e |}.

End Score.

(** ** The telemetry snapshot

    [obz] is the dict that [preprocess_observation] builds from the
    capture object.  The keys the environment looks at are optional
    fields here: [None] is an absent key.  [cameras] says whether the
    key ['cameras'] is there ([preprocess_observation] always sets it). *)

Module Obz.

Record t : Type := mk {
  speed : option Q;
  acceleration : option (list Q);
  distance_to_center_of_lane : option Q;
  distance_along_route : option Q;
  lap_number : option Z;
  throttle : option Q;
  cameras : bool
}.

(** Truth value of the dict: it has a key. *)
Definition nonempty (o : t) : bool :=
  cameras o || bool_decide (is_Some (speed o))
  || bool_decide (is_Some (acceleration o))
  || bool_decide (is_Some (distance_to_center_of_lane o))
  || bool_decide (is_Some (distance_along_route o))
  || bool_decide (is_Some (lap_number o))
  || bool_decide (is_Some (throttle o)).

Definition with_cameras (o : t) : t :=
  {| speed := speed o; acceleration := acceleration o;
     distance_to_center_of_lane := distance_to_center_of_lane o;
     distance_along_route := distance_along_route o;
     lap_number := lap_number o; throttle := throttle o;
     cameras := true |}.

End Obz.

(** [obz[key]] *)
Definition subscript {S A : Type} (key : string) (field : option A) : M S A :=
  match field with
  | Some v => mret v
  | None => raise (KeyError key)
  end.

(** [a.dot(a)] on a vector. *)
Definition dot (a b : list Q) : Q :=
  foldr Qplus 0 (zip_with Qmult a b).

(** ** [class DeepDriveEnv]: the episode loop

    [State] holds the attributes of [self] that the step loop reads or
    writes, and around them the two pieces of the world the loop shares
    with it: the [Score] objects, kept in [heap] and named by their index
    there ([self.score] and the entries of [self.trial_scores] are such
    names, so an entry of the trial list and the current score can be the
    same object), and [ticks], the number of readings of the clock taken
    so far.

    Not in the model, being written and never read by the code below: the
    log, [display_stats] and the dashboard queue, and the benchmark CSV
    file with its summary statistics.  The control boundary driven by
    [send_control] does not bear on the loop either; it is modelled on
    its own, in [Control].  Camera images are not modelled, nor the two
    readings of the clock that time their preprocessing. *)

Module DeepDriveEnv.

Record State : Type := mkState {
  start_time : Q;
  step_num : Z;
  prev_step_time : option Q;
  distance_along_route : Q;
  start_distance_along_route : Q;
  score : nat;
  lap_number : option Z;
  prev_lap_score : Q;
  should_end_on_lap : bool;
  should_benchmark : bool;
  done_benchmarking : bool;
  trial_scores : list nat;
  last_forward_progress_time : Q;
  steps_crawling_with_throttle_on : nat;
  steps_crawling : nat;
  heap : list Score.t;
  ticks : nat
}.

Definition set_start_time (v : Q) (s : State) : State :=
  {| start_time := v; step_num := step_num s;
     prev_step_time := prev_step_time s;
     distance_along_route := distance_along_route s;
     start_distance_along_route := start_distance_along_route s;
     score := score s; lap_number := lap_number s;
     prev_lap_score := prev_lap_score s;
     should_end_on_lap := should_end_on_lap s;
     should_benchmark := should_benchmark s;
     done_benchmarking := done_benchmarking s;
     trial_scores := trial_scores s;
     last_forward_progress_time := last_forward_progress_time s;
     steps_crawling_with_throttle_on := steps_crawling_with_throttle_on s;
     steps_crawling := steps_crawling s; heap := heap s;
     ticks := ticks s |}.

Definition set_step_num (v : Z) (s : State) : State :=
  {| start_time := start_time s; step_num := v;
     prev_step_time := prev_step_time s;
     distance_along_route := distance_along_route s;
     start_distance_along_route := start_distance_along_route s;
     score := score s; lap_number := lap_number s;
     prev_lap_score := prev_lap_score s;
     should_end_on_lap := should_end_on_lap s;
     should_benchmark := should_benchmark s;
     done_benchmarking := done_benchmarking s;
     trial_scores := trial_scores s;
     last_forward_progress_time := last_forward_progress_time s;
     steps_crawling_with_throttle_on := steps_crawling_with_throttle_on s;
     steps_crawling := steps_crawling s; heap := heap s;
     ticks := ticks s |}.

Definition set_prev_step_time (v : option Q) (s : State) : State :=
  {| start_time := start_time s; step_num := step_num s;
     prev_step_time := v; distance_along_route := distance_along_route s;
     start_distance_along_route := start_distance_along_route s;
     score := score s; lap_number := lap_number s;
     prev_lap_score := prev_lap_score s;
     should_end_on_lap := should_end_on_lap s;
     should_benchmark := should_benchmark s;
     done_benchmarking := done_benchmarking s;
     trial_scores := trial_scores s;
     last_forward_progress_time := last_forward_progress_time s;
     steps_crawling_with_throttle_on := steps_crawling_with_throttle_on s;
     steps_crawling := steps_crawling s; heap := heap s;
     ticks := ticks s |}.

Definition set_distance_along_route (v : Q) (s : State) : State :=
  {| start_time := start_time s; step_num := step_num s;
     prev_step_time := prev_step_time s; distance_along_route := v;
     start_distance_along_route := start_distance_along_route s;
     score := score s; lap_number := lap_number s;
     prev_lap_score := prev_lap_score s;
     should_end_on_lap := should_end_on_lap s;
     should_benchmark := should_benchmark s;
     done_benchmarking := done_benchmarking s;
     trial_scores := trial_scores s;
     last_forward_progress_time := last_forward_progress_time s;
     steps_crawling_with_throttle_on := steps_crawling_with_throttle_on s;
     steps_crawling := steps_crawling s; heap := heap s;
     ticks := ticks s |}.

Definition set_start_distance_along_route (v : Q) (s : State) : State :=
  {| start_time := start_time s; step_num := step_num s;
     prev_step_time := prev_step_time s;
     distance_along_route := distance_along_route s;
     start_distance_along_route := v; score := score s;
     lap_number := lap_number s; prev_lap_score := prev_lap_score s;
     should_end_on_lap := should_end_on_lap s;
     should_benchmark := should_benchmark s;
     done_benchmarking := done_benchmarking s;
     trial_scores := trial_scores s;
     last_forward_progress_time := last_forward_progress_time s;
     steps_crawling_with_throttle_on := steps_crawling_with_throttle_on s;
     steps_crawling := steps_crawling s; heap := heap s;
     ticks := ticks s |}.

Definition set_score (v : nat) (s : State) : State :=
  {| start_time := start_time s; step_num := step_num s;
     prev_step_time := prev_step_time s;
     distance_along_route := distance_along_route s;
     start_distance_along_route := start_distance_along_route s;
     score := v; lap_number := lap_number s;
     prev_lap_score := prev_lap_score s;
     should_end_on_lap := should_end_on_lap s;
     should_benchmark := should_benchmark s;
     done_benchmarking := done_benchmarking s;
     trial_scores := trial_scores s;
     last_forward_progress_time := last_forward_progress_time s;
     steps_crawling_with_throttle_on := steps_crawling_with_throttle_on s;
     steps_crawling := steps_crawling s; heap := heap s;
     ticks := ticks s |}.

Definition set_lap_number (v : option Z) (s : State) : State :=
  {| start_time := start_time s; step_num := step_num s;
     prev_step_time := prev_step_time s;
     distance_along_route := distance_along_route s;
     start_distance_along_route := start_distance_along_route s;
     score := score s; lap_number := v; prev_lap_score := prev_lap_score s;
     should_end_on_lap := should_end_on_lap s;
     should_benchmark := should_benchmark s;
     done_benchmarking := done_benchmarking s;
     trial_scores := trial_scores s;
     last_forward_progress_time := last_forward_progress_time s;
     steps_crawling_with_throttle_on := steps_crawling_with_throttle_on s;
     steps_crawling := steps_crawling s; heap := heap s;
     ticks := ticks s |}.

Definition set_prev_lap_score (v : Q) (s : State) : State :=
  {| start_time := start_time s; step_num := step_num s;
     prev_step_time := prev_step_time s;
     distance_along_route := distance_along_route s;
     start_distance_along_route := start_distance_along_route s;
     score := score s; lap_number := lap_number s; prev_lap_score := v;
     should_end_on_lap := should_end_on_lap s;
     should_benchmark := should_benchmark s;
     done_benchmarking := done_benchmarking s;
     trial_scores := trial_scores s;
     last_forward_progress_time := last_forward_progress_time s;
     steps_crawling_with_throttle_on := steps_crawling_with_throttle_on s;
     steps_crawling := steps_crawling s; heap := heap s;
     ticks := ticks s |}.

Definition set_should_end_on_lap (v : bool) (s : State) : State :=
  {| start_time := start_time s; step_num := step_num s;
     prev_step_time := prev_step_time s;
     distance_along_route := distance_along_route s;
     start_distance_along_route := start_distance_along_route s;
     score := score s; lap_number := lap_number s;
     prev_lap_score := prev_lap_score s; should_end_on_lap := v;
     should_benchmark := should_benchmark s;
     done_benchmarking := done_benchmarking s;
     trial_scores := trial_scores s;
     last_forward_progress_time := last_forward_progress_time s;
     steps_crawling_with_throttle_on := steps_crawling_with_throttle_on s;
     steps_crawling := steps_crawling s; heap := heap s;
     ticks := ticks s |}.

Definition set_should_benchmark (v : bool) (s : State) : State :=
  {| start_time := start_time s; step_num := step_num s;
     prev_step_time := prev_step_time s;
     distance_along_route := distance_along_route s;
     start_distance_along_route := start_distance_along_route s;
     score := score s; lap_number := lap_number s;
     prev_lap_score := prev_lap_score s;
     should_end_on_lap := should_end_on_lap s; should_benchmark := v;
     done_benchmarking := done_benchmarking s;
     trial_scores := trial_scores s;
     last_forward_progress_time := last_forward_progress_time s;
     steps_crawling_with_throttle_on := steps_crawling_with_throttle_on s;
     steps_crawling := steps_crawling s; heap := heap s;
     ticks := ticks s |}.

Definition set_done_benchmarking (v : bool) (s : State) : State :=
  {| start_time := start_time s; step_num := step_num s;
     prev_step_time := prev_step_time s;
     distance_along_route := distance_along_route s;
     start_distance_along_route := start_distance_along_route s;
     score := score s; lap_number := lap_number s;
     prev_lap_score := prev_lap_score s;
     should_end_on_lap := should_end_on_lap s;
     should_benchmark := should_benchmark s; done_benchmarking := v;
     trial_scores := trial_scores s;
     last_forward_progress_time := last_forward_progress_time s;
     steps_crawling_with_throttle_on := steps_crawling_with_throttle_on s;
     steps_crawling := steps_crawling s; heap := heap s;
     ticks := ticks s |}.

Definition set_trial_scores (v : list nat) (s : State) : State :=
  {| start_time := start_time s; step_num := step_num s;
     prev_step_time := prev_step_time s;
     distance_along_route := distance_along_route s;
     start_distance_along_route := start_distance_along_route s;
     score := score s; lap_number := lap_number s;
     prev_lap_score := prev_lap_score s;
     should_end_on_lap := should_end_on_lap s;
     should_benchmark := should_benchmark s;
     done_benchmarking := done_benchmarking s; trial_scores := v;
     last_forward_progress_time := last_forward_progress_time s;
     steps_crawling_with_throttle_on := steps_crawling_with_throttle_on s;
     steps_crawling := steps_crawling s; heap := heap s;
     ticks := ticks s |}.

Definition set_last_forward_progress_time (v : Q) (s : State) : State :=
  {| start_time := start_time s; step_num := step_num s;
     prev_step_time := prev_step_time s;
     distance_along_route := distance_along_route s;
     start_distance_along_route := start_distance_along_route s;
     score := score s; lap_number := lap_number s;
     prev_lap_score := prev_lap_score s;
     should_end_on_lap := should_end_on_lap s;
     should_benchmark := should_benchmark s;
     done_benchmarking := done_benchmarking s;
     trial_scores := trial_scores s; last_forward_progress_time := v;
     steps_crawling_with_throttle_on := steps_crawling_with_throttle_on s;
     steps_crawling := steps_crawling s; heap := heap s;
     ticks := ticks s |}.

Definition set_steps_crawling_with_throttle_on (v : nat) (s : State) : State :=
  {| start_time := start_time s; step_num := step_num s;
     prev_step_time := prev_step_time s;
     distance_along_route := distance_along_route s;
     start_distance_along_route := start_distance_along_route s;
     score := score s; lap_number := lap_number s;
     prev_lap_score := prev_lap_score s;
     should_end_on_lap := should_end_on_lap s;
     should_benchmark := should_benchmark s;
     done_benchmarking := done_benchmarking s;
     trial_scores := trial_scores s;
     last_forward_progress_time := last_forward_progress_time s;
     steps_crawling_with_throttle_on := v;
     steps_crawling := steps_crawling s; heap := heap s;
     ticks := ticks s |}.

Definition set_steps_crawling (v : nat) (s : State) : State :=
  {| start_time := start_time s; step_num := step_num s;
     prev_step_time := prev_step_time s;
     distance_along_route := distance_along_route s;
     start_distance_along_route := start_distance_along_route s;
     score := score s; lap_number := lap_number s;
     prev_lap_score := prev_lap_score s;
     should_end_on_lap := should_end_on_lap s;
     should_benchmark := should_benchmark s;
     done_benchmarking := done_benchmarking s;
     trial_scores := trial_scores s;
     last_forward_progress_time := last_forward_progress_time s;
     steps_crawling_with_throttle_on := steps_crawling_with_throttle_on s;
     steps_crawling := v; heap := heap s; ticks := ticks s |}.

Definition set_heap (v : list Score.t) (s : State) : State :=
  {| start_time := start_time s; step_num := step_num s;
     prev_step_time := prev_step_time s;
     distance_along_route := distance_along_route s;
     start_distance_along_route := start_distance_along_route s;
     score := score s; lap_number := lap_number s;
     prev_lap_score := prev_lap_score s;
     should_end_on_lap := should_end_on_lap s;
     should_benchmark := should_benchmark s;
     done_benchmarking := done_benchmarking s;
     trial_scores := trial_scores s;
     last_forward_progress_time := last_forward_progress_time s;
     steps_crawling_with_throttle_on := steps_crawling_with_throttle_on s;
     steps_crawling := steps_crawling s; heap := v; ticks := ticks s |}.

Definition set_ticks (v : nat) (s : State) : State :=
  {| start_time := start_time s; step_num := step_num s;
     prev_step_time := prev_step_time s;
     distance_along_route := distance_along_route s;
     start_distance_along_route := start_distance_along_route s;
     score := score s; lap_number := lap_number s;
     prev_lap_score := prev_lap_score s;
     should_end_on_lap := should_end_on_lap s;
     should_benchmark := should_benchmark s;
     done_benchmarking := done_benchmarking s;
     trial_scores := trial_scores s;
     last_forward_progress_time := last_forward_progress_time s;
     steps_crawling_with_throttle_on := steps_crawling_with_throttle_on s;
     steps_crawling := steps_crawling s; heap := heap s; ticks := v |}.

(** What [deepdrive_capture.step()] did: raised [SystemError], or
    returned an observation ([None] when there is none). *)
Inductive capture_step : Type :=
| CaptureSystemError
| Captured (observation : option Obz.t).

(** The object [self.score] names. *)
Definition the_score (s : State) : Score.t :=
  default (Score.new 0) (heap s !! score s).

(** [self.score.<field> = ...] *)
Definition modify_score (f : Score.t -> Score.t) : M State unit :=
  modify (fun s => set_heap (alter f (score s) (heap s)) s).

Section Episode.

(** [np.sqrt], the wall clock read by [time.time()] (its successive
    readings), and whether [TEST_BENCHMARK_WRITE] is in the process
    environment. *)
Variable np_sqrt : Q -> Q.
Variable clock : nat -> Q.
Variable TEST_BENCHMARK_WRITE : bool.

Definition time_time : M State Q :=
  fun s => (Ok (clock (ticks s)), set_ticks (S (ticks s)) s).

(** [Score()] allocates a fresh object. *)
Definition new_Score : M State nat :=
  now ← time_time;
  r ← gets (fun s => length (heap s));
  modify (fun s => set_heap (heap s ++ [Score.new now]) s);;
  mret r.

(** [__init__], for the attributes above: three readings of the
    clock, for [start_time], [reset_forward_progress()] and
    [Score()]. *)
Definition __init__ : State :=
  {| start_time := clock 0; step_num := 0; prev_step_time := None;
     distance_along_route := 0; start_distance_along_route := 0;
     score := 0; lap_number := None; prev_lap_score := 0;
     should_end_on_lap := false; should_benchmark := false;
     done_benchmarking := false; trial_scores := [];
     last_forward_progress_time := clock 1;
     steps_crawling_with_throttle_on := 0; steps_crawling := 0;
     heap := [Score.new (clock 2)]; ticks := 3 |}.

Definition reset_forward_progress : M State unit :=
  now ← time_time;
  modify (set_last_forward_progress_time now);;
  modify (set_steps_crawling_with_throttle_on 0%nat);;
  modify (set_steps_crawling 0%nat).

Definition init_benchmarking : M State unit :=
  modify (set_should_benchmark true).

Definition set_to_end_on_lap (should_end_on_lap : bool) : M State unit :=
  modify (set_should_end_on_lap should_end_on_lap).

Definition log_up_time : M State unit :=
  _ ← time_time; mret tt.

Definition log_benchmark_trial : M State unit :=
  now ← time_time;
  modify_score (Score.set_end_time (Some now));;
  modify (fun s => set_trial_scores (trial_scores s ++ [score s]) s).

Definition get_speed_reward (obz : Obz.t) (time_passed : option Q)
    : M State Q :=
  let speed_reward := 0 in
  speed_reward ←
    match Obz.speed obz with
    | Some speed =>
        match time_passed with
        | Some _ =>
            lift (DeepDriveRewardCalculator.get_speed_reward
                    speed time_passed)
        | None => mret speed_reward
        end
    | None => mret speed_reward
    end;
  modify_score (Score.add_speed_reward speed_reward);;
  mret speed_reward.

Definition get_lane_deviation_penalty (obz : Obz.t)
    (time_passed : option Q) : M State Q :=
  let lane_deviation_penalty := 0 in
  lane_deviation_penalty ←
    match Obz.distance_to_center_of_lane obz with
    | Some d =>
        lift (DeepDriveRewardCalculator.get_lane_deviation_penalty
                d time_passed)
    | None => mret lane_deviation_penalty
    end;
  modify_score (Score.add_lane_deviation_penalty lane_deviation_penalty);;
  mret lane_deviation_penalty.

Definition get_gforce_penalty (obz : Obz.t) (time_passed : option Q)
    : M State Q :=
  let gforce_penalty := 0 in
  gforce_penalty ←
    match Obz.acceleration obz with
    | Some a =>
        match time_passed with
        | Some _ =>
            let gforces := np_sqrt (dot a a) / 980 in
            lift (DeepDriveRewardCalculator.get_gforce_penalty
                    gforces time_passed)
        | None => mret gforce_penalty
        end
    | None => mret gforce_penalty
    end;
  modify_score (Score.add_gforce_penalty gforce_penalty);;
  mret gforce_penalty.

(** The value of [DeepDriveRewardCalculator.get_progress_reward] is
    computed and dropped: the source does not assign it. *)
Definition get_progress_reward (obz : Obz.t) (time_passed : option Q)
    : M State Q :=
  let progress_reward := 0 in
  match Obz.distance_along_route obz with
  | Some d =>
      start ← gets start_distance_along_route;
      let dist := d - start in
      previous ← gets distance_along_route;
      let progress := dist - previous in
      modify (set_distance_along_route dist);;
      _ ← lift (DeepDriveRewardCalculator.get_progress_reward
                  progress time_passed);
      mret tt
  | None => mret tt
  end;;
  modify_score (Score.add_progress_reward progress_reward);;
  mret progress_reward.

Definition get_reward (obz : option Obz.t) (now : Q) : M State Q :=
  let reward := 0 in
  match obz with
  | Some o =>
      if Obz.nonempty o then
        previous ← gets prev_step_time;
        let time_passed :=
          match previous with
          | Some p => Some (now - p)
          | None => None
          end in
        t ← time_time;
        started ← gets start_time;
        reward ←
          (if Qltb (t - started) 2.5 then
             (* Give time to get on track after spawn *)
             mret 0
           else
             progress_reward ← get_progress_reward o time_passed;
             gforce_penalty ← get_gforce_penalty o time_passed;
             lane_deviation_penalty ←
               get_lane_deviation_penalty o time_passed;
             speed_reward ← get_speed_reward o time_passed;
             mret (reward + (progress_reward + speed_reward
                             - gforce_penalty - lane_deviation_penalty)));
        modify_score (Score.add_total reward);;
        mret reward
      else mret reward
  | None => mret reward
  end.

Definition compute_lap_statistics (done : bool) (obz : option Obz.t)
    : M State bool :=
  match obz with
  | Some o =>
      if Obz.nonempty o then
        let lap_number' := Obz.lap_number o in
        self_lap_number ← gets lap_number;
        done ←
          match lap_number', self_lap_number with
          | Some new_lap, Some old_lap =>
              if (old_lap <? new_lap)%Z then
                total ← gets (fun s => Score.total (the_score s));
                modify (set_prev_lap_score total);;
                benchmark ← gets should_benchmark;
                done ←
                  (if benchmark : bool then
                     log_benchmark_trial;;
                     n ← gets (fun s => length (trial_scores s));
                     when (n =? 1000)%nat
                       (modify (set_done_benchmarking true));;
                     mret true
                   else mret done);
                end_on_lap ← gets should_end_on_lap;
                let done := if end_on_lap : bool then true else done in
                log_up_time;;
                mret done
              else mret done
          | _, _ => mret done
          end;
        modify (set_lap_number lap_number');;
        mret done
      else mret done
  | None => mret done
  end.

Definition is_stuck (obz : option Obz.t) : M State bool :=
  if TEST_BENCHMARK_WRITE then
    modify_score (Score.set_got_stuck true);;
    log_benchmark_trial;;
    mret true
  else
    match obz with
    | None => mret false
    | Some o =>
        speed ← subscript "speed" (Obz.speed o);
        if Qltb speed 100 then
          modify (fun s => set_steps_crawling (steps_crawling s + 1)%nat s);;
          throttle ← subscript "throttle" (Obz.throttle o);
          when (Qgtb throttle 0)
            (modify (fun s =>
               set_steps_crawling_with_throttle_on
                 (steps_crawling_with_throttle_on s + 1)%nat s));;
          t ← time_time;
          last ← gets last_forward_progress_time;
          stuck ←
            (if Qgtb (t - last) 1 then
               on ← gets steps_crawling_with_throttle_on;
               crawling ← gets steps_crawling;
               ratio ← lift (py_div (inject_Z (Z.of_nat on))
                                    (inject_Z (Z.of_nat crawling)));
               mret (Qgtb ratio 0.8)
             else mret false);
          if stuck : bool then
            reset_forward_progress;;
            benchmark ← gets should_benchmark;
            when benchmark
              (modify_score (Score.set_got_stuck true);;
               log_benchmark_trial);;
            mret true
          else mret false
        else
          reset_forward_progress;;
          mret false
    end.

Definition preprocess_observation (observation : option Obz.t)
    : option Obz.t :=
  match observation with
  | Some o => Some (Obz.with_cameras o)
  | None => None
  end.

Definition get_observation (capture : capture_step) : option Obz.t :=
  match capture with
  | CaptureSystemError => None
  | Captured obz => preprocess_observation obz
  end.

(** [_step]: [capture] is what the capture boundary does on this
    step.  The value is the tuple [(obz, reward, done)]; [info] is
    always the empty dict. *)
Definition _step (capture : capture_step)
    : M State (option Obz.t * Q * bool) :=
  let obz := get_observation capture in
  now ← time_time;
  let done := false in
  reward ← get_reward obz now;
  done ← compute_lap_statistics done obz;
  modify (set_prev_step_time (Some now));;
  stuck ← is_stuck obz;
  let done := if stuck : bool then true else done in
  let reward := if stuck : bool then reward - -10000 else reward in
  modify (fun s => set_step_num (step_num s + 1)%Z s);;
  mret (obz, reward, done).

Definition _reset : M State unit :=
  modify (set_step_num 0%Z);;
  modify (set_distance_along_route 0);;
  modify (set_start_distance_along_route 0);;
  modify (set_prev_step_time None);;
  modify (set_lap_number None);;
  modify (set_prev_lap_score 0);;
  fresh ← new_Score;
  modify (set_score fresh);;
  now ← time_time;
  modify (set_start_time now).

End Episode.

End DeepDriveEnv.

(** ** [class DeepDriveEnv]: connecting

    [Conn] holds the attributes of [self] that [connect] and
    [reset_capture] use, and the trace of the calls made across the
    boundary: how many times each outside function was called so far, and
    the arguments of [time.sleep] in order, oldest first. *)

Module Connection.

(** The dict that [deepdrive_client.create] returns.  A key that the
    dict lacks is [None]. *)
Module Props.
Record t : Type := mk {
  max_capture_resolution : option Z;
  client_id : Z;
  server_protocol_version : string
}.
End Props.

(** What [deepdrive_client.create] returns: an [int] (an old client
    library), a falsy value ([None] or an empty dict), or a dict with
    keys. *)
Inductive create_reply : Type :=
| ReplyInt (n : Z)
| ReplyFalsy
| ReplyProps (p : Props.t).

Definition reply_truthy (r : create_reply) : bool :=
  match r with
  | ReplyInt n => negb (n =? 0)%Z
  | ReplyFalsy => false
  | ReplyProps _ => true
  end.

(** A camera is an instance of [class Camera] (as [default_cam] is),
    which cannot be subscripted, or a dict with the keys that
    registration reads and the key ['cxn_id'] that it writes. *)
Inductive camera : Type :=
| CameraObject
| CameraDict (cxn_id : option Z).

Definition default_cam : camera := CameraObject.

(** A reply that [_connect] accepts for a client of version [version]:
    a capture resolution that is there and not zero, and the same
    protocol version. *)
Definition complete (version : string) (p : Props.t) : Prop :=
  (exists r, Props.max_capture_resolution p = Some r /\ r <> 0%Z)
  /\ Props.server_protocol_version p = version.

(** [sleep] doubled once, twice, ... [k] times. *)
Definition doubling (sleep : Q) (k : nat) : list Q :=
  map (fun i => sleep * 2 ^ Z.of_nat i) (seq 1 k).

Record Conn : Type := mkConn {
  connection_props : create_reply;
  client_id : option Z;
  client_version : string;
  cameras : option (list camera);
  has_control : option bool;
  create_calls : nat;
  random_calls : nat;
  register_calls : nat;
  reset_calls : nat;
  slept : list Q
}.

Definition set_connection_props (v : create_reply) (s : Conn) : Conn :=
  {| connection_props := v; client_id := client_id s;
     client_version := client_version s; cameras := cameras s;
     has_control := has_control s; create_calls := create_calls s;
     random_calls := random_calls s; register_calls := register_calls s;
     reset_calls := reset_calls s; slept := slept s |}.

Definition set_client_id (v : option Z) (s : Conn) : Conn :=
  {| connection_props := connection_props s; client_id := v;
     client_version := client_version s; cameras := cameras s;
     has_control := has_control s; create_calls := create_calls s;
     random_calls := random_calls s; register_calls := register_calls s;
     reset_calls := reset_calls s; slept := slept s |}.

Definition set_cameras (v : option (list camera)) (s : Conn) : Conn :=
  {| connection_props := connection_props s; client_id := client_id s;
     client_version := client_version s; cameras := v;
     has_control := has_control s; create_calls := create_calls s;
     random_calls := random_calls s; register_calls := register_calls s;
     reset_calls := reset_calls s; slept := slept s |}.

Definition set_has_control (v : option bool) (s : Conn) : Conn :=
  {| connection_props := connection_props s; client_id := client_id s;
     client_version := client_version s; cameras := cameras s;
     has_control := v; create_calls := create_calls s;
     random_calls := random_calls s; register_calls := register_calls s;
     reset_calls := reset_calls s; slept := slept s |}.

Definition set_create_calls (v : nat) (s : Conn) : Conn :=
  {| connection_props := connection_props s; client_id := client_id s;
     client_version := client_version s; cameras := cameras s;
     has_control := has_control s; create_calls := v;
     random_calls := random_calls s; register_calls := register_calls s;
     reset_calls := reset_calls s; slept := slept s |}.

Definition set_random_calls (v : nat) (s : Conn) : Conn :=
  {| connection_props := connection_props s; client_id := client_id s;
     client_version := client_version s; cameras := cameras s;
     has_control := has_control s; create_calls := create_calls s;
     random_calls := v; register_calls := register_calls s;
     reset_calls := reset_calls s; slept := slept s |}.

Definition set_register_calls (v : nat) (s : Conn) : Conn :=
  {| connection_props := connection_props s; client_id := client_id s;
     client_version := client_version s; cameras := cameras s;
     has_control := has_control s; create_calls := create_calls s;
     random_calls := random_calls s; register_calls := v;
     reset_calls := reset_calls s; slept := slept s |}.

Definition set_reset_calls (v : nat) (s : Conn) : Conn :=
  {| connection_props := connection_props s; client_id := client_id s;
     client_version := client_version s; cameras := cameras s;
     has_control := has_control s; create_calls := create_calls s;
     random_calls := random_calls s; register_calls := register_calls s;
     reset_calls := v; slept := slept s |}.

Definition set_slept (v : list Q) (s : Conn) : Conn :=
  {| connection_props := connection_props s; client_id := client_id s;
     client_version := client_version s; cameras := cameras s;
     has_control := has_control s; create_calls := create_calls s;
     random_calls := random_calls s; register_calls := register_calls s;
     reset_calls := reset_calls s; slept := v |}.

Section Connect.

(** The boundary: the successive replies of [deepdrive_client.create],
    draws of [random.random()], handles given by
    [deepdrive_client.register_camera] and answers of
    [deepdrive_capture.reset], and the truth value of
    [c.SIM_START_COMMAND]. *)
Variable create_replies : nat -> create_reply.
Variable random_draws : nat -> Q.
Variable register_replies : nat -> Z.
Variable reset_replies : nat -> bool.
Variable SIM_START_COMMAND : bool.

Definition deepdrive_client_create : M Conn create_reply :=
  fun s => (Ok (create_replies (create_calls s)),
            set_create_calls (S (create_calls s)) s).

Definition random_random : M Conn Q :=
  fun s => (Ok (random_draws (random_calls s)),
            set_random_calls (S (random_calls s)) s).

Definition deepdrive_client_register_camera : M Conn Z :=
  fun s => (Ok (register_replies (register_calls s)),
            set_register_calls (S (register_calls s)) s).

Definition deepdrive_capture_reset : M Conn bool :=
  fun s => (Ok (reset_replies (reset_calls s)),
            set_reset_calls (S (reset_calls s)) s).

Definition time_sleep (seconds : Q) : M Conn unit :=
  modify (fun s => set_slept (slept s ++ [seconds]) s).

Definition raise_connect_fail {A : Type} : M Conn A :=
  if SIM_START_COMMAND then
    raise (PyException "Could not connect to environment. You may need to close the Unreal Editor and/or turn off saving CPU in background in the Editor preferences (search for CPU).")
  else
    raise (PyException "Could not connect to the environment.").

(** The inner function [_connect] of [connect]. *)
Definition _connect : M Conn unit :=
  reply ← deepdrive_client_create;
  modify (set_connection_props reply);;
  match reply with
  | ReplyInt _ =>
      raise (PyException "You have an old version of the deepdrive client - try uninstalling and reinstalling with pip")
  | ReplyFalsy =>
      (* Try again *)
      mret tt
  | ReplyProps p =>
      resolution ← subscript "max_capture_resolution"
                     (Props.max_capture_resolution p);
      if (resolution =? 0)%Z then
        (* Try again *)
        mret tt
      else
        modify (set_client_id (Some (Props.client_id p)));;
        let server_version := Props.server_protocol_version p in
        version ← gets client_version;
        if negb (String.eqb version server_version) then
          raise (RuntimeError "Server and client version do not match")
        else mret tt
  end.

Definition max_cxn_attempts : nat := 10.

(** [cxn_attempts + random.random() * 2] on the [i]-th retry, when
    [connect] starts with no draw made: that retry takes the draw
    of index [i - 1]. *)
Definition backoff (i : nat) : Q :=
  inject_Z (Z.of_nat i) + random_draws (i - 1) * 2.

(** The [while not self.connection_props] loop of [connect], entered
    with the local variables [cxn_attempts] and [cameras].  [fuel]
    bounds the number of iterations; the value is [None] when the
    loop is still running as the fuel runs out, and the final
    [cameras] when the loop is left. *)
Fixpoint connect_retry (fuel : nat) (cxn_attempts : nat)
    (cameras : option (list camera))
    : M Conn (option (option (list camera))) :=
  props ← gets connection_props;
  if reply_truthy props then mret (Some cameras)
  else
    match fuel with
    | O => mret None
    | S fuel' =>
        let cxn_attempts := (cxn_attempts + 1)%nat in
        r ← random_random;
        (* splay to avoid thundering herd *)
        let sleep := inject_Z (Z.of_nat cxn_attempts) + r * 2 in
        time_sleep sleep;;
        _connect;;
        if (max_cxn_attempts <=? cxn_attempts)%nat then
          raise (RuntimeError "Could not connect to the environment")
        else
          let cameras :=
            match cameras with
            | None => Some [default_cam]
            | Some _ => cameras
            end in
          connect_retry fuel' cxn_attempts cameras
    end.

(** The [while n > 0] loop of [reset_capture], entered with the local
    variables [n] and [sleep]. *)
Fixpoint reset_capture_loop (n : nat) (sleep : Q) : M Conn unit :=
  match n with
  | O => raise_connect_fail
  | S n' =>
      bound ← deepdrive_capture_reset;
      if bound : bool then mret tt
      else
        let sleep := sleep * 2 in
        time_sleep sleep;;
        reset_capture_loop n' sleep
  end.

Definition reset_capture : M Conn unit :=
  let n := 10%nat in
  let sleep := 0.1 in
  reset_capture_loop n sleep.

(** [for cam in self.cameras: cam['cxn_id'] = register_camera(...)]:
    the cameras still to visit and the index of the first of them in
    [self.cameras], whose dicts are written in place. *)
Fixpoint register_cameras (cams : list camera) (i : nat) : M Conn unit :=
  match cams with
  | [] => mret tt
  | CameraObject :: _ => raise TypeError
  | CameraDict _ :: rest =>
      handle ← deepdrive_client_register_camera;
      modify (fun s =>
        set_cameras
          (fmap (M := option) (<[i := CameraDict (Some handle)]>) (cameras s))
          s);;
      register_cameras rest (S i)
  end.

(** [connect]: the first [_connect()], the retry loop, then camera
    registration and the capture bootstrap.  The value is [None] when
    the retry loop has not finished within [fuel] iterations.  The
    shared-memory name and size only pass from the control boundary to
    the capture boundary, and [_init_observation_space] only builds the
    gym spaces: neither is modelled. *)
Definition connect (fuel : nat) (cameras : option (list camera))
    : M Conn (option unit) :=
  _connect;;
  let cxn_attempts := 0%nat in
  left ← connect_retry fuel cxn_attempts cameras;
  match left with
  | None => mret None
  | Some cameras =>
      modify (set_cameras cameras);;
      id ← gets client_id;
      (if match id with Some n => (0 <? n)%Z | None => false end then
         cams ← match cameras with
                | Some cams => mret cams
                | None => raise TypeError
                end;
         register_cameras cams 0;;
         reset_capture
       else raise_connect_fail);;
      modify (set_has_control (Some false));;
      mret (Some tt)
  end.

End Connect.

End Connection.

(** ** Sample runs

    Concrete worlds and snapshots on which the model is run below. *)

Module Samples.

(** A square root to six decimals, by the integer square root. *)
Definition sqrt6 (x : Q) : Q :=
  inject_Z (Z.sqrt (Qnum x * 10 ^ 12 / Z.pos (Qden x))) / 1000000.

(** A clock that starts at [0] and advances by [dt] seconds between two
    readings. *)
Definition clock_every (dt : Q) (n : nat) : Q := dt * inject_Z (Z.of_nat n).

(** A snapshot of a car driving at 10 m/s in its lane, [d] cm along
    the route, in lap [lap]. *)
Definition driving (d : Q) (lap : Z) : Obz.t :=
  {| Obz.speed := Some 1000; Obz.acceleration := Some [0; 0; 0];
     Obz.distance_to_center_of_lane := Some 20;
     Obz.distance_along_route := Some d; Obz.lap_number := Some lap;
     Obz.throttle := Some 0.5; Obz.cameras := false |}.

(** A snapshot of a car that crawls at 0.5 m/s with the throttle on. *)
Definition stalled : Obz.t :=
  {| Obz.speed := Some 50; Obz.acceleration := Some [0; 0; 0];
     Obz.distance_to_center_of_lane := Some 20;
     Obz.distance_along_route := Some 0; Obz.lap_number := Some 0%Z;
     Obz.throttle := Some 1; Obz.cameras := false |}.

(** A snapshot with the route distance only: no speed, no throttle. *)
Definition route_only (d : Q) : Obz.t :=
  {| Obz.speed := None; Obz.acceleration := None;
     Obz.distance_to_center_of_lane := None;
     Obz.distance_along_route := Some d; Obz.lap_number := None;
     Obz.throttle := None; Obz.cameras := false |}.

(** A snapshot with a negative distance to the centre of the lane. *)
Definition negative_lane_deviation : Obz.t :=
  {| Obz.speed := Some 1000; Obz.acceleration := Some [300; 0; 400];
     Obz.distance_to_center_of_lane := Some (-5);
     Obz.distance_along_route := Some 500; Obz.lap_number := Some 0%Z;
     Obz.throttle := Some 0.5; Obz.cameras := false |}.

(** A snapshot of a crawling car with no throttle reading. *)
Definition no_throttle : Obz.t :=
  {| Obz.speed := Some 50; Obz.acceleration := None;
     Obz.distance_to_center_of_lane := None;
     Obz.distance_along_route := None; Obz.lap_number := None;
     Obz.throttle := None; Obz.cameras := false |}.

(** The connection attributes at the start of [connect], nothing
    having crossed the boundary yet. *)
Definition disconnected : Connection.Conn :=
  {| Connection.connection_props := Connection.ReplyFalsy;
     Connection.client_id := None;
     Connection.client_version := "2.0.20180412";
     Connection.cameras := None; Connection.has_control := None;
     Connection.create_calls := 0; Connection.random_calls := 0;
     Connection.register_calls := 0; Connection.reset_calls := 0;
     Connection.slept := [] |}.

(** A complete reply of the server, of the client's version. *)
Definition good_props : Connection.Props.t :=
  {| Connection.Props.max_capture_resolution := Some 1080%Z;
     Connection.Props.client_id := 1%Z;
     Connection.Props.server_protocol_version := "2.0.20180412" |}.

(** A reply with every key and no capture resolution to offer. *)
Definition incomplete_props : Connection.Props.t :=
  {| Connection.Props.max_capture_resolution := Some 0%Z;
     Connection.Props.client_id := 1%Z;
     Connection.Props.server_protocol_version := "2.0.20180412" |}.

(** Replies of [deepdrive_client.create]: falsy on the first [k]
    calls, complete from then on; and falsy for ever. *)
Definition falsy_until (k : nat) (i : nat) : Connection.create_reply :=
  if (i <? k)%nat then Connection.ReplyFalsy
  else Connection.ReplyProps good_props.

Definition always_falsy (i : nat) : Connection.create_reply :=
  Connection.ReplyFalsy.

(** Draws of [random.random()]: 0.95 first, then 0.05 each time. *)
Definition high_then_low (i : nat) : Q :=
  if (i =? 0)%nat then 0.95 else 0.05.

(** Answers of [deepdrive_capture.reset]: [False] on the first [k]
    calls, [True] from then on; and [False] for ever. *)
Definition bound_after (k : nat) (i : nat) : bool := (k <=? i)%nat.

Definition never_bound (i : nat) : bool := false.

(** The state an outcome leaves behind. *)
Definition after {S A : Type} (m : M S A) (s : S) : S := snd (m s).

(** [n] steps of the lap tracker, each one in the lap after the last:
    snapshots in laps [lap], [lap + 1], ... *)
Fixpoint lap_completions (clock : nat -> Q) (n : nat) (lap : Z)
    : M DeepDriveEnv.State unit :=
  match n with
  | O => mret tt
  | S n' =>
      DeepDriveEnv.compute_lap_statistics clock false
        (Some (Obz.with_cameras (driving 0 lap)));;
      lap_completions clock n' (lap + 1)
  end.

(** The environment after [__init__] and [init_benchmarking()]. *)
Definition benchmarking (clock : nat -> Q) : DeepDriveEnv.State :=
  after (DeepDriveEnv.init_benchmarking) (DeepDriveEnv.__init__ clock).

(** The same, once a first snapshot, in lap 0, has been seen. *)
Definition benchmarking_in_lap_0 (clock : nat -> Q) : DeepDriveEnv.State :=
  after (DeepDriveEnv.compute_lap_statistics clock false
           (Some (Obz.with_cameras (driving 0 0))))
        (benchmarking clock).

End Samples.

(** ** Predicates and runs used in the statements about the episode loop *)

(** The accumulators of a score account for its total. *)
Definition accounted (sc : Score.t) : Prop :=
  Score.total sc
  == Score.progress_reward sc + Score.speed_reward sc
     - Score.gforce_penalty sc - Score.lane_deviation_penalty sc.

(** From [s] to [s'] the object [self.score] has been changed by [f], and
    no other [Score]. *)
Definition touches (f : Score.t -> Score.t)
    (s s' : DeepDriveEnv.State) : Prop :=
  DeepDriveEnv.score s' = DeepDriveEnv.score s
  /\ DeepDriveEnv.heap s'
     = alter f (DeepDriveEnv.score s) (DeepDriveEnv.heap s).

(** [self.score] names an object that exists, and so does every entry of
    [self.trial_scores], whose [end_time] is set. *)
Definition wf_scores (s : DeepDriveEnv.State) : Prop :=
  (DeepDriveEnv.score s < length (DeepDriveEnv.heap s))%nat
  /\ Forall (fun r => exists sc, DeepDriveEnv.heap s !! r = Some sc
                                 /\ is_Some (Score.end_time sc))
            (DeepDriveEnv.trial_scores s).

(** The benchmark record only grows: recorded trials stay, in order, the
    done flag is not cleared and [should_benchmark] is not changed. *)
Definition benchmark_grows (s s' : DeepDriveEnv.State) : Prop :=
  DeepDriveEnv.trial_scores s `prefix_of` DeepDriveEnv.trial_scores s'
  /\ (DeepDriveEnv.done_benchmarking s = true ->
      DeepDriveEnv.done_benchmarking s' = true)
  /\ DeepDriveEnv.should_benchmark s' = DeepDriveEnv.should_benchmark s.

(** [self.score] is the same object, no object was added, and every other
    object is as it was. *)
Definition only_current_score (s s' : DeepDriveEnv.State) : Prop :=
  DeepDriveEnv.score s' = DeepDriveEnv.score s
  /\ length (DeepDriveEnv.heap s') = length (DeepDriveEnv.heap s)
  /\ forall i, i <> DeepDriveEnv.score s ->
       DeepDriveEnv.heap s' !! i = DeepDriveEnv.heap s !! i.

Definition keeps_wf_scores (s s' : DeepDriveEnv.State) : Prop :=
  wf_scores s -> wf_scores s'.

(** Steps run one after the other, until one raises. *)
Fixpoint run_steps (np_sqrt : Q -> Q) (clock : nat -> Q)
    (test_benchmark_write : bool)
    (captures : list DeepDriveEnv.capture_step)
    : M DeepDriveEnv.State unit :=
  match captures with
  | [] => mret tt
  | capture :: rest =>
      DeepDriveEnv._step np_sqrt clock test_benchmark_write capture;;
      run_steps np_sqrt clock test_benchmark_write rest
  end.


(** ** Measures used in the statements about [connect] *)

(** The seconds slept so far. *)
Definition total_sleep (s : Connection.Conn) : Q :=
  foldr Qplus 0 (Connection.slept s).

(** The cameras once registered: each dict holds the handle that its
    call of [register_camera] returned, the first call being call number
    [first]. *)
Definition registered (register_replies : nat -> Z) (first : nat)
    (cams : list Connection.camera) : list Connection.camera :=
  imap (fun i _ => Connection.CameraDict (Some (register_replies (first + i)%nat)))
       cams.

(** ** [class Action] and the control boundary

    An [Action] as its constructor builds it.  [has_control] is a
    boolean, or one of the integers 0 and 1 of the gym action space,
    which Python's [!=] and truth test treat as [False] and [True];
    [handbrake=True] is the number 1 in the same way. *)

Module Action.

Record t : Type := mk {
  steering : Q;
  throttle : Q;
  brake : Q;
  handbrake : Q;
  has_control : bool
}.

(** [Action(...)] with the defaults of [__init__] for what is not
    given. *)
Definition new (steering throttle brake handbrake : Q) (has_control : bool)
    : t :=
  mk steering throttle brake handbrake has_control.

End Action.

(** [Agent] holds [self.has_control] ([None] until [connect] or a first
    change of control sets it) and the trace of the calls made to
    [deepdrive_client]: how many times control was requested and
    released and the agent reset, and the actions whose values were
    handed to [set_control_values], oldest first. *)

Module Control.

Record Agent : Type := mkAgent {
  has_control : option bool;
  request_calls : nat;
  release_calls : nat;
  reset_agent_calls : nat;
  controls : list Action.t
}.

Definition set_has_control (v : option bool) (s : Agent) : Agent :=
  {| has_control := v; request_calls := request_calls s;
     release_calls := release_calls s;
     reset_agent_calls := reset_agent_calls s; controls := controls s |}.

Definition set_request_calls (v : nat) (s : Agent) : Agent :=
  {| has_control := has_control s; request_calls := v;
     release_calls := release_calls s;
     reset_agent_calls := reset_agent_calls s; controls := controls s |}.

Definition set_release_calls (v : nat) (s : Agent) : Agent :=
  {| has_control := has_control s; request_calls := request_calls s;
     release_calls := v;
     reset_agent_calls := reset_agent_calls s; controls := controls s |}.

Definition set_reset_agent_calls (v : nat) (s : Agent) : Agent :=
  {| has_control := has_control s; request_calls := request_calls s;
     release_calls := release_calls s;
     reset_agent_calls := v; controls := controls s |}.

Definition set_controls (v : list Action.t) (s : Agent) : Agent :=
  {| has_control := has_control s; request_calls := request_calls s;
     release_calls := release_calls s;
     reset_agent_calls := reset_agent_calls s; controls := v |}.

Section Boundary.

(** The successive replies of [deepdrive_client.request_agent_control]
    (an integer) and of [deepdrive_client.release_agent_control] ([None]
    or a value). *)
Variable request_replies : nat -> Z.
Variable release_replies : nat -> option Z.

Definition deepdrive_client_request_agent_control : M Agent Z :=
  fun s => (Ok (request_replies (request_calls s)),
            set_request_calls (S (request_calls s)) s).

Definition deepdrive_client_release_agent_control : M Agent (option Z) :=
  fun s => (Ok (release_replies (release_calls s)),
            set_release_calls (S (release_calls s)) s).

Definition deepdrive_client_reset_agent : M Agent unit :=
  modify (fun s => set_reset_agent_calls (S (reset_agent_calls s)) s).

Definition deepdrive_client_set_control_values (action : Action.t)
    : M Agent unit :=
  modify (fun s => set_controls (controls s ++ [action]) s).

Definition release_agent_control : M Agent unit :=
  reply ← deepdrive_client_release_agent_control;
  modify (set_has_control (Some (bool_decide (is_Some reply)))).

Definition request_agent_control : M Agent unit :=
  reply ← deepdrive_client_request_agent_control;
  modify (set_has_control (Some (reply =? 1)%Z)).

Definition change_has_control (has_control : bool) : M Agent unit :=
  if has_control then request_agent_control else release_agent_control.

Definition reset_agent : M Agent unit :=
  request_agent_control;;
  deepdrive_client_reset_agent.

Definition send_control (action : Action.t) : M Agent unit :=
  current ← gets has_control;
  when (negb (bool_decide (current = Some (Action.has_control action))))
    (change_has_control (Action.has_control action));;
  deepdrive_client_set_control_values action.

(** The control part of [_reset]: [self.reset_agent()] and then
    [self.send_control(Action(handbrake=True))]. *)
Definition reset_controls : M Agent unit :=
  reset_agent;;
  send_control (Action.new 0 0 0 1 true).

(** Controls sent one after the other, as successive steps do. *)
Fixpoint send_controls (actions : list Action.t) : M Agent unit :=
  match actions with
  | [] => mret tt
  | action :: rest => send_control action;; send_controls rest
  end.

End Boundary.

End Control.

(** ** [close_sim]

    [Sim] holds whether [self.sim_process] is there and the trace of
    what was done to it and of the sleeps. *)

Module Sim.

Record Process : Type := mkProcess {
  sim_process : bool;
  kill_calls : nat;
  poll_calls : nat;
  terminate_calls : nat;
  slept : list Q
}.

Definition set_kill_calls (v : nat) (s : Process) : Process :=
  {| sim_process := sim_process s; kill_calls := v;
     poll_calls := poll_calls s; terminate_calls := terminate_calls s;
     slept := slept s |}.

Definition set_poll_calls (v : nat) (s : Process) : Process :=
  {| sim_process := sim_process s; kill_calls := kill_calls s;
     poll_calls := v; terminate_calls := terminate_calls s;
     slept := slept s |}.

Definition set_terminate_calls (v : nat) (s : Process) : Process :=
  {| sim_process := sim_process s; kill_calls := kill_calls s;
     poll_calls := poll_calls s; terminate_calls := v;
     slept := slept s |}.

Definition set_slept (v : list Q) (s : Process) : Process :=
  {| sim_process := sim_process s; kill_calls := kill_calls s;
     poll_calls := poll_calls s; terminate_calls := terminate_calls s;
     slept := v |}.

Section Closing.

(** Whether the successive calls of [self.sim_process.poll()] return
    [None]: the process has not exited yet. *)
Variable poll_is_none : nat -> bool.

Definition sim_process_kill : M Process unit :=
  modify (fun s => set_kill_calls (S (kill_calls s)) s).

Definition sim_process_poll : M Process bool :=
  fun s => (Ok (poll_is_none (poll_calls s)),
            set_poll_calls (S (poll_calls s)) s).

Definition sim_process_terminate : M Process unit :=
  modify (fun s => set_terminate_calls (S (terminate_calls s)) s).

Definition time_sleep (seconds : Q) : M Process unit :=
  modify (fun s => set_slept (slept s ++ [seconds]) s).

Definition max_tries : nat := 5.

(** The [while] loop of [close_sim], entered with the local variable
    [i].  [fuel] bounds the number of iterations; the value is [None]
    when the loop is still running as the fuel runs out, and the final
    [i] when the loop is left. *)
Fixpoint close_sim_wait (fuel : nat) (i : nat) : M Process (option nat) :=
  running ← sim_process_poll;
  if running && (i <? max_tries)%nat then
    match fuel with
    | O => mret None
    | S fuel' =>
        time_sleep 0.5;;
        close_sim_wait fuel' (i + 1)%nat
    end
  else mret (Some i).

Definition close_sim (fuel : nat) : M Process (option unit) :=
  there ← gets sim_process;
  if there : bool then
    sim_process_kill;;
    let i := 0%nat in
    left ← close_sim_wait fuel i;
    match left with
    | None => mret None
    | Some i =>
        when (i =? max_tries)%nat sim_process_terminate;;
        mret (Some tt)
    end
  else mret (Some tt).

End Closing.

End Sim.

(** ** Relations between the states before and after a method *)

(** A relation that holds between the state before and the state after a
    method, whatever the method returns or raises. *)
Definition follows {A : Type}
    (R : DeepDriveEnv.State -> DeepDriveEnv.State -> Prop)
    (m : M DeepDriveEnv.State A) : Prop :=
  forall s, R s (snd (m s)).


(** * Properties *)

(** ** Comparisons, division and clipping *)

Lemma Qltb_lt (x y : Q) : Qltb x y = true <-> x < y.
Proof.
  unfold Qltb. rewrite negb_true_iff. split; intro H.
  - apply Qnot_le_lt. intro Hle. apply Qle_bool_iff in Hle. congruence.
  - destruct (Qle_bool y x) eqn:E; [|reflexivity].
    apply Qle_bool_iff in E. exfalso. apply (Qlt_not_le _ _ H E).
Qed.

Lemma Qltb_ge (x y : Q) : Qltb x y = false <-> y <= x.
Proof. unfold Qltb. rewrite negb_false_iff. apply Qle_bool_iff. Qed.

Lemma Qgtb_gt (x y : Q) : Qgtb x y = true <-> y < x.
Proof. apply Qltb_lt. Qed.

Lemma Qgtb_le (x y : Q) : Qgtb x y = false <-> x <= y.
Proof. apply Qltb_ge. Qed.

(** Case analysis on the first comparison of the source in the goal,
    leaving the order fact in the context. *)
Ltac case_cmp :=
  match goal with
  | |- context [Qgtb ?x ?y] =>
      let H := fresh "Hcmp" in
      destruct (Qgtb x y) eqn:H;
      [apply Qgtb_gt in H | apply Qgtb_le in H]
  | |- context [Qltb ?x ?y] =>
      let H := fresh "Hcmp" in
      destruct (Qltb x y) eqn:H;
      [apply Qltb_lt in H | apply Qltb_ge in H]
  end.

Lemma py_div_nonzero (x y : Q) : ~ y == 0 -> py_div x y = Ok (x / y).
Proof.
  intro H. unfold py_div.
  destruct (Qeq_bool y 0) eqn:E; [|reflexivity].
  apply Qeq_bool_iff in E. contradiction.
Qed.

Lemma py_div_zero (x y : Q) : y == 0 -> py_div x y = Raise ZeroDivisionError.
Proof.
  intro H. unfold py_div. apply Qeq_bool_iff in H. by rewrite H.
Qed.

Lemma clip_clipped (r : Q) : clipped (DeepDriveRewardCalculator.clip r).
Proof.
  unfold clipped, DeepDriveRewardCalculator.clip, py_min, py_max.
  repeat case_cmp; lra.
Qed.

Lemma clip_inside (r : Q) :
  -100 <= r -> r <= 100 -> DeepDriveRewardCalculator.clip r = r.
Proof.
  intros Hlo Hhi. unfold DeepDriveRewardCalculator.clip, py_min, py_max.
  repeat case_cmp; first [reflexivity | lra].
Qed.

Lemma clip_proper (x y : Q) :
  x == y -> DeepDriveRewardCalculator.clip x == DeepDriveRewardCalculator.clip y.
Proof.
  intro E. unfold DeepDriveRewardCalculator.clip, py_min, py_max.
  repeat case_cmp; lra.
Qed.

(** ** The reward calculator *)

(** Squares: below the overflow threshold [x ** 2] is the square, from
    the threshold on it raises; magnitudes up to [10^150] are below. *)
Lemma py_square_ok (x : Q) :
  x ^ 2 < FLOAT_OVERFLOW -> py_square x = Ok (x ^ 2).
Proof. intro H. unfold py_square. apply Qltb_lt in H. by rewrite H. Qed.

Lemma py_square_overflow (x : Q) :
  FLOAT_OVERFLOW <= x ^ 2 -> py_square x = Raise OverflowError.
Proof. intro H. unfold py_square. apply Qltb_ge in H. by rewrite H. Qed.

Lemma square_below_overflow (x : Q) :
  - (10 ^ 150) <= x <= 10 ^ 150 -> x ^ 2 < FLOAT_OVERFLOW.
Proof.
  assert (Hpos : 0 <= 10 ^ 150) by (apply Qle_bool_imp_le; by vm_compute).
  assert (Hroom : 10 ^ 150 * 10 ^ 150 < FLOAT_OVERFLOW)
    by (apply Qltb_lt; by vm_compute).
  set (B := 10 ^ 150) in *. clearbody B.
  set (top := FLOAT_OVERFLOW) in *. clearbody top.
  intros [Hlo Hhi].
  assert (Hsq : x ^ 2 == x * x) by (simpl; ring).
  rewrite Hsq. nra.
Qed.

(** The speed in km/h is 0.036 times the speed in cm/s. *)
Lemma speed_kph_of_cmps (cmps : Q) :
  cmps * 3600 / 100 / 1000 == cmps * (36 # 1000).
Proof. field. Qed.

Lemma speed_delta_below_overflow (cmps : Q) :
  - (10 ^ 150) <= cmps <= 10 ^ 150 ->
  (cmps * 3600 / 100 / 1000 - SPEED_LIMIT_KPH) ^ 2 < FLOAT_OVERFLOW.
Proof.
  intros [Hlo Hhi]. apply square_below_overflow.
  assert (Hbig : 100 <= 10 ^ 150) by (apply Qle_bool_imp_le; by vm_compute).
  rewrite speed_kph_of_cmps. unfold SPEED_LIMIT_KPH.
  set (B := 10 ^ 150) in *. clearbody B. split; lra.
Qed.

(** A term that returns a value returns a clipped one. *)
Lemma speed_reward_clipped (cmps : Q) (time_passed : option Q) (r : Q) :
  DeepDriveRewardCalculator.get_speed_reward cmps time_passed = Ok r ->
  clipped r.
Proof.
  unfold DeepDriveRewardCalculator.get_speed_reward.
  destruct (Qgtb _ 4); (destruct time_passed as [t|]; [|done]).
  - destruct (py_square _); [|done]. intros [= <-]. apply clip_clipped.
  - intros [= <-]. apply clip_clipped.
Qed.

Lemma lane_deviation_penalty_clipped (lane_deviation : Q)
    (time_passed : option Q) (r : Q) :
  DeepDriveRewardCalculator.get_lane_deviation_penalty
    lane_deviation time_passed = Ok r ->
  clipped r.
Proof.
  unfold DeepDriveRewardCalculator.get_lane_deviation_penalty.
  destruct (Qltb lane_deviation 0); [done|].
  destruct time_passed as [t|].
  - destruct (Qgtb lane_deviation 200).
    + destruct (py_square _); [|done]. intros [= <-]. apply clip_clipped.
    + intros [= <-]. apply clip_clipped.
  - intros [= <-]. apply clip_clipped.
Qed.

(** Each term, on inputs it accepts, returns a clipped value. *)

Lemma speed_reward_ok (cmps t : Q) :
  - (10 ^ 150) <= cmps <= 10 ^ 150 ->
  exists r,
    DeepDriveRewardCalculator.get_speed_reward cmps (Some t) = Ok r
    /\ clipped r.
Proof.
  intros Hcmps.
  destruct (DeepDriveRewardCalculator.get_speed_reward cmps (Some t))
    as [r|e] eqn:Hrun.
  - exists r. split; [done|]. by apply speed_reward_clipped in Hrun.
  - exfalso. revert Hrun.
    unfold DeepDriveRewardCalculator.get_speed_reward.
    rewrite py_square_ok by (by apply speed_delta_below_overflow).
    by destruct (Qgtb _ 4).
Qed.

Lemma lane_deviation_penalty_ok (lane_deviation : Q)
    (time_passed : option Q) :
  0 <= lane_deviation <= 10 ^ 150 ->
  exists r,
    DeepDriveRewardCalculator.get_lane_deviation_penalty
      lane_deviation time_passed = Ok r
    /\ clipped r.
Proof.
  intros [Hl Hhi].
  destruct (DeepDriveRewardCalculator.get_lane_deviation_penalty
              lane_deviation time_passed) as [r|e] eqn:Hrun.
  - exists r. split; [done|].
    by apply lane_deviation_penalty_clipped in Hrun.
  - exfalso. revert Hrun.
    unfold DeepDriveRewardCalculator.get_lane_deviation_penalty.
    destruct (Qltb lane_deviation 0) eqn:E; [apply Qltb_lt in E; lra|].
    rewrite py_square_ok.
    + destruct time_passed as [t|]; [|done].
      by destruct (Qgtb lane_deviation 200).
    + apply square_below_overflow.
      assert (0 <= 10 ^ 150) by (apply Qle_bool_imp_le; by vm_compute).
      split; lra.
Qed.

Lemma gforce_penalty_ok (gforces t : Q) :
  0 <= gforces ->
  exists r,
    DeepDriveRewardCalculator.get_gforce_penalty gforces (Some t) = Ok r
    /\ clipped r.
Proof.
  intros Hg. unfold DeepDriveRewardCalculator.get_gforce_penalty.
  destruct (Qltb gforces 0) eqn:E; [apply Qltb_lt in E; lra|].
  case_cmp; eexists; (split; [reflexivity | apply clip_clipped]).
Qed.

Lemma progress_reward_ok (progress : Q) (time_passed : option Q) :
  (forall t, time_passed = Some t -> ~ t == 0) ->
  exists r,
    DeepDriveRewardCalculator.get_progress_reward progress time_passed = Ok r
    /\ clipped r.
Proof.
  intros Ht. unfold DeepDriveRewardCalculator.get_progress_reward.
  destruct time_passed as [t|].
  - rewrite py_div_nonzero by (by apply Ht).
    case_cmp; eexists; (split; [reflexivity | apply clip_clipped]).
  - eexists; split; [reflexivity | apply clip_clipped].
Qed.

(** C6, as stated, fails: with [time_passed = 0] the progress reward
    divides by zero and raises, so it returns no value at all. *)
Lemma progress_reward_zero_time_raises :
  DeepDriveRewardCalculator.get_progress_reward 1 (Some 0)
    = Raise ZeroDivisionError
  /\ ~ (exists r,
          DeepDriveRewardCalculator.get_progress_reward 1 (Some 0) = Ok r
          /\ clipped r).
Proof.
  split; [reflexivity|].
  intros [r [H _]]. vm_compute in H. discriminate H.
Qed.

(** Nor do the speed reward and the lane deviation penalty return a value
    on a magnitude whose square is too large for a float, [10^200] for
    one: [speed_delta ** 2] and [lane_deviation ** 2] raise
    [OverflowError]. *)
Lemma square_overflow_raises :
  DeepDriveRewardCalculator.get_speed_reward (10 ^ 200) (Some 1)
    = Raise OverflowError
  /\ DeepDriveRewardCalculator.get_lane_deviation_penalty (10 ^ 200) (Some 1)
     = Raise OverflowError.
Proof. split; by vm_compute. Qed.

(** C6 (amended): for a speed of magnitude up to [10^150], a lane
    deviation between 0 and [10^150], a non-negative g-force and every
    numeric [time_passed] (for the progress reward: not zero), each of
    the four terms returns a value in [[-100, 100]]; the lane deviation
    penalty and the progress reward do so too when [time_passed] is
    [None]. *)
Theorem reward_terms_clipped
    (cmps lane_deviation gforces progress t : Q)
    (lane_time progress_time : option Q) :
  - (10 ^ 150) <= cmps <= 10 ^ 150 ->
  0 <= lane_deviation <= 10 ^ 150 ->
  0 <= gforces ->
  (forall t', progress_time = Some t' -> ~ t' == 0) ->
  (exists r, DeepDriveRewardCalculator.get_speed_reward cmps (Some t) = Ok r
             /\ clipped r)
  /\ (exists r,
        DeepDriveRewardCalculator.get_lane_deviation_penalty
          lane_deviation lane_time = Ok r
        /\ clipped r)
  /\ (exists r,
        DeepDriveRewardCalculator.get_gforce_penalty gforces (Some t) = Ok r
        /\ clipped r)
  /\ (exists r,
        DeepDriveRewardCalculator.get_progress_reward progress progress_time
          = Ok r
        /\ clipped r).
Proof.
  intros Hcmps Hlane Hg Ht.
  split; [by apply speed_reward_ok|].
  split; [by apply lane_deviation_penalty_ok|].
  split; [by apply gforce_penalty_ok | by apply progress_reward_ok].
Qed.

Lemma reward_terms_clipped_witness :
  (exists r,
     DeepDriveRewardCalculator.get_speed_reward 2000 (Some 0.05) = Ok r
     /\ clipped r)
  /\ (exists r,
        DeepDriveRewardCalculator.get_lane_deviation_penalty 300 (Some 0.05)
          = Ok r
        /\ clipped r)
  /\ (exists r,
        DeepDriveRewardCalculator.get_gforce_penalty 2 (Some 0.05) = Ok r
        /\ clipped r)
  /\ (exists r,
        DeepDriveRewardCalculator.get_progress_reward 70 (Some 0.05) = Ok r
        /\ clipped r).
Proof.
  apply (reward_terms_clipped 2000 300 2 70 0.05 (Some 0.05) (Some 0.05)).
  - split; apply Qle_bool_imp_le; by vm_compute.
  - split; apply Qle_bool_imp_le; by vm_compute.
  - lra.
  - intros t' [= <-]. lra.
Defined.

(** A negative lane deviation and a negative g-force are refused with
    [ValueError], whatever [time_passed] is. *)
Lemma negative_inputs_raise (lane_deviation gforces : Q)
    (time_passed : option Q) :
  lane_deviation < 0 ->
  gforces < 0 ->
  DeepDriveRewardCalculator.get_lane_deviation_penalty
    lane_deviation time_passed
    = Raise (ValueError "Lane deviation should be positive")
  /\ DeepDriveRewardCalculator.get_gforce_penalty gforces time_passed
     = Raise (ValueError "G-Force should be positive").
Proof.
  intros Hl Hg.
  unfold DeepDriveRewardCalculator.get_lane_deviation_penalty,
    DeepDriveRewardCalculator.get_gforce_penalty.
  apply Qltb_lt in Hl, Hg. by rewrite Hl, Hg.
Qed.



(** ** The per-step reward *)

Import DeepDriveEnv.

(** One step of symbolic execution of the monad's operations. *)
Ltac run :=
  unfold mbind, M_bind, mret, M_ret, gets, modify, lift, raise, when,
    subscript, modify_score, time_time, log_up_time, log_benchmark_trial,
    reset_forward_progress;
  simpl.

Lemma the_score_alter (f : Score.t -> Score.t) (s : State) :
  the_score (set_heap (alter f (score s) (heap s)) s)
  = match heap s !! score s with
    | Some sc => f sc
    | None => Score.new 0
    end.
Proof.
  unfold the_score. simpl. rewrite list_lookup_alter_eq.
  by destruct (heap s !! score s).
Qed.


(** What a step that returns is made of: the reward computation, the
    lap tracker and the stuck detector, in that order; when the detector
    fires, the step is done and [reward -= -10000] is applied to the
    computed reward. *)
Lemma step_inversion (np_sqrt : Q -> Q) (clock : nat -> Q)
    (test_benchmark_write : bool) (capture : capture_step) (s s' : State)
    (obz : option Obz.t) (reward : Q) (done : bool) :
  _step np_sqrt clock test_benchmark_write capture s
  = (Ok (obz, reward, done), s') ->
  let now := clock (ticks s) in
  exists computed lap_done stuck s1 s2 s3,
    obz = get_observation capture
    /\ get_reward np_sqrt clock obz now (set_ticks (S (ticks s)) s)
       = (Ok computed, s1)
    /\ compute_lap_statistics clock false obz s1 = (Ok lap_done, s2)
    /\ is_stuck clock test_benchmark_write obz
         (set_prev_step_time (Some now) s2) = (Ok stuck, s3)
    /\ reward = (if stuck then computed - -10000 else computed)
    /\ done = (if stuck then true else lap_done).
Proof.
  unfold _step.
  unfold mbind at 1, M_bind at 1, time_time at 1.
  unfold mbind at 1, M_bind at 1.
  destruct (get_reward np_sqrt clock (get_observation capture)
              (clock (ticks s)) (set_ticks (S (ticks s)) s))
    as [[computed|e] s1] eqn:Hreward; [|discriminate].
  unfold mbind at 1, M_bind at 1.
  destruct (compute_lap_statistics clock false (get_observation capture) s1)
    as [[lap_done|e] s2] eqn:Hlap; [|discriminate].
  unfold mbind at 1, M_bind at 1, modify at 1.
  unfold mbind at 1, M_bind at 1.
  destruct (is_stuck clock test_benchmark_write (get_observation capture)
              (set_prev_step_time (Some (clock (ticks s))) s2))
    as [[stuck|e] s3] eqn:Hstuck; [|discriminate].
  run. intros [= <- <- <- <-].
  by exists computed, lap_done, stuck, s1, s2, s3.
Qed.


(** ** What the methods of the episode loop preserve

    A relation between states that the pieces of the loop respect is
    respected by the methods built from them. *)

Section Follows.

Variable R : State -> State -> Prop.
Hypothesis R_refl : forall s, R s s.
Hypothesis R_trans : forall s1 s2 s3, R s1 s2 -> R s2 s3 -> R s1 s3.

Lemma follows_ret {A : Type} (a : A) : follows R (mret a).
Proof. intro s. apply R_refl. Qed.

Lemma follows_bind {A B : Type} (m : M State A) (f : A -> M State B) :
  follows R m -> (forall a, follows R (f a)) -> follows R (m ≫= f).
Proof.
  intros Hm Hf s. unfold mbind, M_bind.
  specialize (Hm s). destruct (m s) as [[a|e] s1]; simpl in *; [|done].
  eapply R_trans; [exact Hm | apply Hf].
Qed.

Lemma follows_gets {A : Type} (f : State -> A) : follows R (gets f).
Proof. intro s. apply R_refl. Qed.

Lemma follows_lift {A : Type} (r : result A) : follows R (lift r).
Proof. intro s. apply R_refl. Qed.

Lemma follows_raise {A : Type} (e : exn) : follows R (raise (A := A) e).
Proof. intro s. apply R_refl. Qed.

Lemma follows_subscript {A : Type} (key : string) (field : option A) :
  follows R (subscript key field).
Proof. destruct field; [apply follows_ret | apply follows_raise]. Qed.

Lemma follows_modify (f : State -> State) :
  (forall s, R s (f s)) -> follows R (modify f).
Proof. intros H s. apply H. Qed.

(** What the episode loop does to the state, piece by piece. *)
Hypothesis R_same :
  forall s s',
    score s' = score s ->
    heap s' = heap s ->
    trial_scores s' = trial_scores s ->
    should_benchmark s' = should_benchmark s ->
    (done_benchmarking s = true -> done_benchmarking s' = true) ->
    R s s'.
Hypothesis R_score :
  forall (f : Score.t -> Score.t) s,
    (forall sc, Score.end_time (f sc) = Score.end_time sc) ->
    R s (set_heap (alter f (score s) (heap s)) s).
Hypothesis R_flag :
  forall (f : Score.t -> Score.t) s,
    (forall sc, Score.end_time (f sc) = Score.end_time sc
                /\ Score.total (f sc) = Score.total sc) ->
    R s (set_heap (alter f (score s) (heap s)) s).
Hypothesis R_log :
  forall clock s, R s (snd (log_benchmark_trial clock s)).

Variable np_sqrt : Q -> Q.
Variable clock : nat -> Q.
Variable test_benchmark_write : bool.

Ltac same := apply follows_modify; intro; by apply R_same.

Ltac follow :=
  cbv zeta;
  match goal with
  | |- follows _ (mbind _ _) => apply follows_bind; [|intro]
  | |- follows _ (mret _) => apply follows_ret
  | |- follows _ (gets _) => apply follows_gets
  | |- follows _ (lift _) => apply follows_lift
  | |- follows _ (raise _) => apply follows_raise
  | |- follows _ (subscript _ _) => apply follows_subscript
  | |- follows _ (when _ _) => unfold when
  | |- follows _ (if ?b then _ else _) => destruct b
  | |- follows _ (match ?x with _ => _ end) => destruct x
  | |- follows _ (modify_score _) =>
      unfold modify_score; apply follows_modify; intro;
      first [by apply R_flag | by apply R_score]
  | |- follows _ (modify _) => same
  end.

Lemma follows_time_time : follows R (time_time clock).
Proof. intro s. by apply R_same. Qed.

Lemma follows_log_benchmark_trial : follows R (log_benchmark_trial clock).
Proof. intro s. apply R_log. Qed.

Lemma follows_reset_forward_progress :
  follows R (reset_forward_progress clock).
Proof.
  unfold reset_forward_progress.
  apply follows_bind; [apply follows_time_time|intro].
  repeat follow.
Qed.

Lemma follows_get_reward (obz : option Obz.t) (now : Q) :
  follows R (get_reward np_sqrt clock obz now).
Proof.
  unfold get_reward, get_progress_reward, get_gforce_penalty,
    get_lane_deviation_penalty, get_speed_reward.
  repeat first [apply follows_time_time | follow].
Qed.

Lemma follows_compute_lap_statistics (done : bool) (obz : option Obz.t) :
  follows R (compute_lap_statistics clock done obz).
Proof.
  unfold compute_lap_statistics, log_up_time.
  repeat first [apply follows_time_time | apply follows_log_benchmark_trial
               | follow].
Qed.

Lemma follows_is_stuck (obz : option Obz.t) :
  follows R (is_stuck clock test_benchmark_write obz).
Proof.
  unfold is_stuck.
  repeat first [apply follows_time_time | apply follows_log_benchmark_trial
               | apply follows_reset_forward_progress | follow].
Qed.

Lemma follows__step (capture : capture_step) :
  follows R (_step np_sqrt clock test_benchmark_write capture).
Proof.
  unfold _step.
  repeat first [apply follows_time_time | apply follows_get_reward
               | apply follows_compute_lap_statistics
               | apply follows_is_stuck | follow].
Qed.

Lemma follows_run_steps (captures : list capture_step) :
  follows R (run_steps np_sqrt clock test_benchmark_write captures).
Proof.
  induction captures as [|capture rest IH]; simpl.
  - apply follows_ret.
  - apply follows_bind; [apply follows__step | intro; apply IH].
Qed.

End Follows.













(** The environment's progress term is always 0, and it adds 0 to the
    accumulator [score.progress_reward]. *)
Lemma env_progress_reward_is_zero (obz : Obz.t) (time_passed : option Q)
    (s s' : State) (r : Q) :
  get_progress_reward obz time_passed s = (Ok r, s') ->
  r = 0
  /\ Score.progress_reward (the_score s')
     == Score.progress_reward (the_score s).
Proof.
  unfold get_progress_reward.
  destruct (Obz.distance_along_route obz) as [d|]; run.
  - destruct (DeepDriveRewardCalculator.get_progress_reward _ _);
      [|discriminate].
    intros [= <- <-]. split; [reflexivity|].
    unfold the_score. simpl. rewrite list_lookup_alter_eq.
    destruct (heap s !! score s) as [sc|]; simpl; lra.
  - intros [= <- <-]. split; [reflexivity|].
    rewrite the_score_alter. unfold the_score.
    destruct (heap s !! score s) as [sc|]; simpl; lra.
Qed.

(** C1 fails on the code.  Second step of an episode, three seconds
    after the first, the car 500 cm further along the route: the
    calculator's progress reward for that delta is 5, yet the step reward
    is the speed reward alone (21.6, not 26.6) and the accumulator
    [score.progress_reward] stays at 0. *)
Theorem progress_reward_dropped :
  let clock := Samples.clock_every 1 in
  let s1 :=
    Samples.after
      (_step Samples.sqrt6 clock false
         (Captured (Some (Samples.driving 0 0))))
      (__init__ clock) in
  let obz := Obz.with_cameras (Samples.driving 500 0) in
  prev_step_time s1 = Some 3
  /\ (exists p,
        DeepDriveRewardCalculator.get_progress_reward
          (500 - distance_along_route s1) (Some (6 - 3)) = Ok p
        /\ p == 5)
  /\ (exists r s',
        get_reward Samples.sqrt6 clock (Some obz) 6 s1 = (Ok r, s')
        /\ r == 21.6
        /\ Score.speed_reward (the_score s') == 21.6
        /\ Score.gforce_penalty (the_score s') == 0
        /\ Score.lane_deviation_penalty (the_score s') == 0
        /\ Score.progress_reward (the_score s') == 0).
Proof.
  cbv zeta. split; [reflexivity|]. split.
  - eexists; split; [vm_compute; reflexivity | reflexivity].
  - eexists; eexists; split; [vm_compute; reflexivity|].
    repeat split; reflexivity.
Qed.

(** C2 fails on the code.  A car crawling with the throttle on is
    reported stuck; the reward computed before the stuck check is 1.08
    and the step returns 10001.08 (not -9998.92): [reward -= -10000]
    adds the penalty.  The step is reported done. *)
Theorem stuck_step_adds_penalty :
  let clock := Samples.clock_every 1 in
  let s1 :=
    Samples.after
      (_step Samples.sqrt6 clock false
         (Captured (Some (Samples.driving 0 0))))
      (__init__ clock) in
  let obz := Some (Obz.with_cameras Samples.stalled) in
  (exists r0 s',
     get_reward Samples.sqrt6 clock obz (clock (ticks s1))
       (Samples.after (time_time clock) s1) = (Ok r0, s')
     /\ r0 == 1.08)
  /\ (exists r s',
        _step Samples.sqrt6 clock false (Captured (Some Samples.stalled)) s1
          = (Ok (obz, r, true), s')
        /\ r == 1.08 + 10000
        /\ ~ r == 1.08 - 10000).
Proof.
  cbv zeta. split.
  - eexists; eexists; split; [vm_compute; reflexivity | reflexivity].
  - eexists; eexists; split; [vm_compute; reflexivity|].
    split; [reflexivity | discriminate].
Qed.

(** C10 fails on the code.  A snapshot that is not [None] and has no
    ['speed'] key: the reward computation and the lap statistics skip
    the absent fields, and then the stuck detector subscripts
    [obz['speed']] and the step raises [KeyError]; with a speed below 100
    and no ['throttle'] key it raises on [obz['throttle']]. *)
Theorem step_raises_on_absent_field :
  let clock := Samples.clock_every 1 in
  let s1 :=
    Samples.after
      (_step Samples.sqrt6 clock false
         (Captured (Some (Samples.driving 0 0))))
      (__init__ clock) in
  (exists r s',
     get_reward Samples.sqrt6 clock
       (Some (Obz.with_cameras (Samples.route_only 500))) 6 s1 = (Ok r, s'))
  /\ (exists done s',
        compute_lap_statistics clock false
          (Some (Obz.with_cameras (Samples.route_only 500))) s1
        = (Ok done, s'))
  /\ fst (is_stuck clock false
            (Some (Obz.with_cameras (Samples.route_only 500))) s1)
     = Raise (KeyError "speed")
  /\ fst (_step Samples.sqrt6 clock false
            (Captured (Some (Samples.route_only 500))) s1)
     = Raise (KeyError "speed")
  /\ fst (_step Samples.sqrt6 clock false
            (Captured (Some Samples.no_throttle)) s1)
     = Raise (KeyError "throttle").
Proof.
  cbv zeta. repeat split.
  - eexists; eexists; vm_compute; reflexivity.
  - eexists; eexists; vm_compute; reflexivity.
Qed.

(** ** Benchmark trials *)

(** Every finalization appends the current score to the trial list and
    leaves the done flag as it is. *)
Lemma log_benchmark_trial_appends (clock : nat -> Q) (s : State) :
  exists s',
    log_benchmark_trial clock s = (Ok tt, s')
    /\ trial_scores s' = trial_scores s ++ [score s]
    /\ done_benchmarking s' = done_benchmarking s.
Proof. eexists. run. repeat split. Qed.

(** A step of the lap tracker on which a lap completes while
    benchmarking. *)
Lemma lap_completed_while_benchmarking (clock : nat -> Q) (done : bool)
    (o : Obz.t) (s : State) (new_lap old_lap : Z) :
  Obz.nonempty o = true ->
  Obz.lap_number o = Some new_lap ->
  lap_number s = Some old_lap ->
  (old_lap < new_lap)%Z ->
  should_benchmark s = true ->
  exists s',
    compute_lap_statistics clock done (Some o) s = (Ok true, s')
    /\ trial_scores s' = trial_scores s ++ [score s]
    /\ done_benchmarking s'
       = (if (length (trial_scores s') =? 1000)%nat then true
          else done_benchmarking s)
    /\ lap_number s' = Some new_lap
    /\ should_benchmark s' = true.
Proof.
  intros Hne Hnew Hold Hlt Hb. apply Z.ltb_lt in Hlt.
  unfold compute_lap_statistics. rewrite Hne, Hnew.
  run. rewrite Hold, Hlt. simpl. rewrite Hb. run.
  destruct (length (trial_scores s ++ [score s]) =? 1000)%nat eqn:E;
    simpl; rewrite ?E;
    (destruct (should_end_on_lap s); eexists; repeat split;
     simpl; by rewrite ?E).
Qed.

(** A run of lap completions records every one of them. *)
Lemma lap_completions_recorded (clock : nat -> Q) (n : nat) :
  forall (lap old_lap : Z) (s : State),
    lap_number s = Some old_lap ->
    (old_lap < lap)%Z ->
    should_benchmark s = true ->
    let s' := Samples.after (Samples.lap_completions clock n lap) s in
    length (trial_scores s') = (length (trial_scores s) + n)%nat
    /\ (done_benchmarking s = true -> done_benchmarking s' = true)
    /\ ((length (trial_scores s) < 1000 <= length (trial_scores s) + n)%nat
        -> done_benchmarking s' = true).
Proof.
  induction n as [|n IH]; intros lap old_lap s Hold Hlt Hb; cbv zeta.
  - unfold Samples.after. simpl. repeat split; [lia | done | lia].
  - destruct (lap_completed_while_benchmarking clock false
                (Obz.with_cameras (Samples.driving 0 lap)) s lap old_lap)
      as (s1 & Hrun & Htrials & Hdone & Hlap & Hb1); try done.
    specialize (IH (lap + 1)%Z lap s1 Hlap ltac:(lia) Hb1).
    cbv zeta in IH. destruct IH as (IHlen & IHkeep & IHreach).
    assert (Hafter :
      Samples.after (Samples.lap_completions clock (S n) lap) s
      = Samples.after (Samples.lap_completions clock n (lap + 1)) s1).
    { unfold Samples.after.
      change (Samples.lap_completions clock (S n) lap s)
        with (match compute_lap_statistics clock false
                      (Some (Obz.with_cameras (Samples.driving 0 lap))) s
              with
              | (Ok _, s0) => Samples.lap_completions clock n (lap + 1) s0
              | (Raise e, s0) => (Raise e, s0)
              end).
      by rewrite Hrun. }
    rewrite Hafter, IHlen, Htrials, length_app. simpl.
    assert (Hlen1 : length (trial_scores s1)
                    = (length (trial_scores s) + 1)%nat)
      by (rewrite Htrials, length_app; reflexivity).
    repeat split.
    + lia.
    + intro Hd. apply IHkeep. rewrite Hdone.
      by destruct (length (trial_scores s1) =? 1000)%nat.
    + intro Hrange.
      destruct (decide (length (trial_scores s1) = 1000%nat)) as [E|E].
      * apply IHkeep. rewrite Hdone.
        apply Nat.eqb_eq in E. by rewrite E.
      * apply IHreach. lia.
Qed.

(** C3, as stated, fails: a benchmarking environment that sees 1001 lap
    completions in a row holds 1001 trials (the flag was set at the
    1000th, and the 1001st trial was recorded all the same). *)
Lemma trial_list_grows_past_1000 :
  let clock := Samples.clock_every 1 in
  let s1000 :=
    Samples.after (Samples.lap_completions clock 1000 1)
      (Samples.benchmarking_in_lap_0 clock) in
  let s1001 :=
    Samples.after (Samples.lap_completions clock 1001 1)
      (Samples.benchmarking_in_lap_0 clock) in
  length (trial_scores s1000) = 1000%nat
  /\ done_benchmarking s1000 = true
  /\ length (trial_scores s1001) = 1001%nat
  /\ done_benchmarking s1001 = true.
Proof.
  cbv zeta.
  pose proof (lap_completions_recorded (Samples.clock_every 1) 1000 1 0
                (Samples.benchmarking_in_lap_0 (Samples.clock_every 1))
                eq_refl eq_refl eq_refl) as H1000.
  pose proof (lap_completions_recorded (Samples.clock_every 1) 1001 1 0
                (Samples.benchmarking_in_lap_0 (Samples.clock_every 1))
                eq_refl eq_refl eq_refl) as H1001.
  cbv zeta in H1000, H1001.
  destruct H1000 as (L1000 & _ & D1000), H1001 as (L1001 & _ & D1001).
  change (length (trial_scores
            (Samples.benchmarking_in_lap_0 (Samples.clock_every 1))))
    with 0%nat in *.
  split; [exact L1000|].
  split; [apply D1000; lia|].
  split; [exact L1001 | apply D1001; lia].
Qed.

(** C3 (amended): the trial list has no cap.  A lap that completes while
    benchmarking appends the current score to the list, whatever its
    length; the done flag becomes true when that brings the length to
    exactly 1000 and is left unchanged at any other length, the 1001st
    trial included. *)
Theorem lap_finalization_records_trial (clock : nat -> Q) (done : bool)
    (o : Obz.t) (s : State) (new_lap old_lap : Z) :
  Obz.nonempty o = true ->
  Obz.lap_number o = Some new_lap ->
  lap_number s = Some old_lap ->
  (old_lap < new_lap)%Z ->
  should_benchmark s = true ->
  exists s',
    compute_lap_statistics clock done (Some o) s = (Ok true, s')
    /\ trial_scores s' = trial_scores s ++ [score s]
    /\ done_benchmarking s'
       = (if (length (trial_scores s') =? 1000)%nat then true
          else done_benchmarking s).
Proof.
  intros Hne Hnew Hold Hlt Hb.
  destruct (lap_completed_while_benchmarking clock done o s new_lap old_lap)
    as (s' & Hrun & Htrials & Hdone & _); try done.
  by exists s'.
Qed.

Lemma lap_finalization_records_trial_witness :
  let clock := Samples.clock_every 1 in
  let s := Samples.benchmarking_in_lap_0 clock in
  exists s',
    compute_lap_statistics clock false
      (Some (Obz.with_cameras (Samples.driving 0 1))) s = (Ok true, s')
    /\ trial_scores s' = trial_scores s ++ [score s]
    /\ done_benchmarking s'
       = (if (length (trial_scores s') =? 1000)%nat then true
          else done_benchmarking s).
Proof.
  cbv zeta.
  apply (lap_finalization_records_trial (Samples.clock_every 1) false
           (Obz.with_cameras (Samples.driving 0 1))
           (Samples.benchmarking_in_lap_0 (Samples.clock_every 1)) 1 0);
    reflexivity.
Defined.

(** ** Invalid inputs are not swallowed *)

Lemma sqrt6_nonneg (x : Q) : 0 <= Samples.sqrt6 x.
Proof.
  unfold Samples.sqrt6.
  apply Qle_shift_div_l; [reflexivity|]. rewrite Qmult_0_l.
  change 0 with (inject_Z 0). rewrite <- Zle_Qle. apply Z.sqrt_nonneg.
Qed.

Lemma env_progress_reward_runs (o : Obz.t) (time_passed : option Q)
    (s : State) :
  (forall t, time_passed = Some t -> ~ t == 0) ->
  exists s', get_progress_reward o time_passed s = (Ok 0, s').
Proof.
  intros Ht. unfold get_progress_reward.
  destruct (Obz.distance_along_route o) as [d|]; run.
  - destruct (progress_reward_ok
                (d - start_distance_along_route s - distance_along_route s)
                time_passed Ht) as (r & -> & _).
    by eexists.
  - by eexists.
Qed.

Lemma env_gforce_penalty_runs (np_sqrt : Q -> Q) (o : Obz.t)
    (time_passed : option Q) (s : State) :
  (forall x, 0 <= np_sqrt x) ->
  exists r s', get_gforce_penalty np_sqrt o time_passed s = (Ok r, s').
Proof.
  intros Hsqrt. unfold get_gforce_penalty.
  destruct (Obz.acceleration o) as [a|]; [destruct time_passed as [t|]|]; run.
  - destruct (gforce_penalty_ok (np_sqrt (dot a a) / 980) t) as (r & -> & _).
    + apply Qle_shift_div_l; [reflexivity|]. rewrite Qmult_0_l. apply Hsqrt.
    + by eexists; eexists.
  - by eexists; eexists.
  - by eexists; eexists.
Qed.

Lemma env_lane_deviation_penalty_raises (o : Obz.t)
    (time_passed : option Q) (s : State) (d : Q) :
  Obz.distance_to_center_of_lane o = Some d ->
  d < 0 ->
  get_lane_deviation_penalty o time_passed s
  = (Raise (ValueError "Lane deviation should be positive"), s).
Proof.
  intros Hd Hneg. unfold get_lane_deviation_penalty. rewrite Hd.
  destruct (negative_inputs_raise d (-1) time_passed Hneg) as [-> _]; [lra|].
  reflexivity.
Qed.

Lemma get_reward_raises (np_sqrt : Q -> Q) (clock : nat -> Q) (o : Obz.t)
    (now : Q) (s : State) (d : Q) :
  (forall x, 0 <= np_sqrt x) ->
  Obz.nonempty o = true ->
  Obz.distance_to_center_of_lane o = Some d ->
  d < 0 ->
  2.5 <= clock (ticks s) - start_time s ->
  (forall p, prev_step_time s = Some p -> ~ now - p == 0) ->
  fst (get_reward np_sqrt clock (Some o) now s)
  = Raise (ValueError "Lane deviation should be positive").
Proof.
  intros Hsqrt Hne Hd Hneg Hgrace Hprev. apply Qltb_ge in Hgrace.
  unfold get_reward. rewrite Hne. run. rewrite Hgrace.
  set (tp := match prev_step_time s with
             | Some p => Some (now - p)
             | None => None
             end).
  assert (Htp : forall t, tp = Some t -> ~ t == 0).
  { subst tp. intros t. destruct (prev_step_time s) as [p|]; [|done].
    intros [= <-]. by apply Hprev. }
  match goal with
  | |- context [get_progress_reward o tp ?st] =>
      destruct (env_progress_reward_runs o tp st Htp) as (s2 & ->)
  end.
  match goal with
  | |- context [get_gforce_penalty np_sqrt o tp ?st] =>
      destruct (env_gforce_penalty_runs np_sqrt o tp st Hsqrt)
        as (g & s3 & ->)
  end.
  by rewrite (env_lane_deviation_penalty_raises o tp s3 d Hd Hneg).
Qed.

(** C7: the lane deviation penalty raises [ValueError] for every
    negative lane deviation and the g-force penalty for every negative
    g-force, whatever [time_passed] is; and nothing catches the error: a
    step outside the grace period whose snapshot holds the negative lane
    deviation ends with that [ValueError] (the square root being
    non-negative, and the step not at the very instant of the previous
    one). *)
Theorem negative_magnitude_raises (lane_deviation gforces : Q)
    (time_passed : option Q) :
  lane_deviation < 0 ->
  gforces < 0 ->
  DeepDriveRewardCalculator.get_lane_deviation_penalty
    lane_deviation time_passed
    = Raise (ValueError "Lane deviation should be positive")
  /\ DeepDriveRewardCalculator.get_gforce_penalty gforces time_passed
     = Raise (ValueError "G-Force should be positive")
  /\ (forall (np_sqrt : Q -> Q) (clock : nat -> Q)
             (test_benchmark_write : bool) (o : Obz.t) (s : State),
        (forall x, 0 <= np_sqrt x) ->
        Obz.distance_to_center_of_lane o = Some lane_deviation ->
        2.5 <= clock (S (ticks s)) - start_time s ->
        (forall p, prev_step_time s = Some p -> ~ clock (ticks s) - p == 0) ->
        fst (_step np_sqrt clock test_benchmark_write (Captured (Some o)) s)
        = Raise (ValueError "Lane deviation should be positive")).
Proof.
  intros Hl Hg.
  destruct (negative_inputs_raise lane_deviation gforces time_passed Hl Hg)
    as [-> ->].
  split; [reflexivity|]. split; [reflexivity|].
  intros np_sqrt clock test_benchmark_write o s Hsqrt Hd Hgrace Hprev.
  pose proof (get_reward_raises np_sqrt clock (Obz.with_cameras o)
                (clock (ticks s)) (set_ticks (S (ticks s)) s)
                lane_deviation Hsqrt eq_refl Hd Hl Hgrace Hprev) as Hraise.
  unfold _step, get_observation, preprocess_observation.
  unfold mbind at 1, M_bind at 1, time_time at 1.
  unfold mbind at 1, M_bind at 1.
  destruct (get_reward np_sqrt clock (Some (Obz.with_cameras o))
              (clock (ticks s)) (set_ticks (S (ticks s)) s)) as [[r|e] s'];
    simpl in Hraise; [discriminate | by injection Hraise as ->].
Qed.

Lemma negative_magnitude_raises_witness :
  let clock := Samples.clock_every 1 in
  let s1 :=
    Samples.after
      (_step Samples.sqrt6 clock false
         (Captured (Some (Samples.driving 0 0))))
      (__init__ clock) in
  DeepDriveRewardCalculator.get_lane_deviation_penalty (-5) (Some 3)
    = Raise (ValueError "Lane deviation should be positive")
  /\ DeepDriveRewardCalculator.get_gforce_penalty (-1) (Some 3)
     = Raise (ValueError "G-Force should be positive")
  /\ fst (_step Samples.sqrt6 clock false
            (Captured (Some Samples.negative_lane_deviation)) s1)
     = Raise (ValueError "Lane deviation should be positive").
Proof.
  cbv zeta.
  destruct (negative_magnitude_raises (-5) (-1) (Some 3))
    as (Hlane & Hgforce & Hstep); [reflexivity | reflexivity |].
  split; [exact Hlane|]. split; [exact Hgforce|].
  apply Hstep.
  - apply sqrt6_nonneg.
  - reflexivity.
  - vm_compute. discriminate.
  - intros p Hp. vm_compute in Hp. injection Hp as <-.
    vm_compute. discriminate.
Defined.

(** ** The handshake retries *)

Import Connection.

Ltac run_conn :=
  unfold mbind, M_bind, mret, M_ret, gets, modify, lift, raise, when,
    subscript, deepdrive_client_create, random_random, time_sleep,
    deepdrive_capture_reset, deepdrive_client_register_camera;
  simpl.

Section Handshake.

Variable create_replies : nat -> create_reply.
Variable random_draws : nat -> Q.

Lemma _connect_falsy (s : Conn) :
  create_replies (create_calls s) = ReplyFalsy ->
  _connect create_replies s
  = (Ok tt, set_connection_props ReplyFalsy
              (set_create_calls (S (create_calls s)) s)).
Proof. intros H. unfold _connect. run_conn. by rewrite H. Qed.

Lemma _connect_complete (s : Conn) (p : Props.t) :
  create_replies (create_calls s) = ReplyProps p ->
  complete (client_version s) p ->
  _connect create_replies s
  = (Ok tt, set_client_id (Some (Props.client_id p))
              (set_connection_props (ReplyProps p)
                 (set_create_calls (S (create_calls s)) s))).
Proof.
  intros H [(r & Hr & Hnz) Hv]. unfold _connect. run_conn.
  rewrite H, Hr. simpl.
  apply Z.eqb_neq in Hnz. rewrite Hnz. simpl.
  rewrite Hv, String.eqb_refl. reflexivity.
Qed.

(** One iteration of the retry loop. *)
Lemma connect_retry_iteration (fuel a : nat)
    (cameras : option (list camera)) (s : Conn) :
  reply_truthy (connection_props s) = false ->
  connect_retry create_replies random_draws (S fuel) a cameras s
  = match _connect create_replies
            (set_slept
               (slept s ++ [inject_Z (Z.of_nat (a + 1))
                            + random_draws (random_calls s) * 2])
               (set_random_calls (S (random_calls s)) s))
    with
    | (Ok _, s') =>
        if (max_cxn_attempts <=? a + 1)%nat then
          (Raise (RuntimeError "Could not connect to the environment"), s')
        else
          connect_retry create_replies random_draws fuel (a + 1)
            match cameras with
            | None => Some [default_cam]
            | Some _ => cameras
            end s'
    | (Raise e, s') => (Raise e, s')
    end.
Proof.
  intros Hfalsy. simpl. run_conn. rewrite Hfalsy.
  destruct (_connect create_replies _) as [[[]|e] s']; [|reflexivity].
  by destruct (a + 1)%nat as [|[|[|[|[|[|[|[|[|[|n]]]]]]]]]].
Qed.

Lemma connect_retry_left (fuel a : nat) (cameras : option (list camera))
    (s : Conn) :
  reply_truthy (connection_props s) = true ->
  connect_retry create_replies random_draws fuel a cameras s
  = (Ok (Some cameras), s).
Proof. intros H. destruct fuel; simpl; run_conn; by rewrite H. Qed.

(** Ten units of fuel are enough: the loop never runs out of them. *)
Lemma connect_retry_fuel (fuel : nat) :
  forall (a : nat) (cameras : option (list camera)) (s : Conn),
    (1 <= fuel)%nat ->
    (10 - a <= fuel)%nat ->
    fst (connect_retry create_replies random_draws fuel a cameras s)
    <> Ok None.
Proof.
  induction fuel as [|fuel IH]; intros a cameras s H1 Hfuel; [lia|].
  destruct (reply_truthy (connection_props s)) eqn:Hprops.
  - by rewrite connect_retry_left.
  - rewrite connect_retry_iteration by done.
    destruct (_connect create_replies _) as [[[]|e] s']; [|done].
    destruct (max_cxn_attempts <=? a + 1)%nat eqn:Hmax; [done|].
    apply Nat.leb_gt in Hmax. unfold max_cxn_attempts in Hmax.
    apply IH; lia.
Qed.

(** The retry loop, entered after [a] retries that all got a falsy
    reply, when [j] more retries fail and the next one succeeds. *)
Lemma connect_retry_succeeds (j : nat) :
  forall (a fuel : nat) (cameras : option (list camera)) (s : Conn)
         (p : Props.t),
    reply_truthy (connection_props s) = false ->
    create_calls s = S a ->
    random_calls s = a ->
    (a + j < 9)%nat ->
    (10 - a <= fuel)%nat ->
    (forall i, (a < i <= a + j)%nat -> create_replies i = ReplyFalsy) ->
    create_replies (S (a + j)) = ReplyProps p ->
    complete (client_version s) p ->
    exists cameras' s',
      connect_retry create_replies random_draws fuel a cameras s
      = (Ok (Some cameras'), s')
      /\ slept s' = slept s ++ map (backoff random_draws) (seq (S a) (S j))
      /\ create_calls s' = S (S (a + j))
      /\ client_id s' = Some (Props.client_id p).
Proof.
  induction j as [|j IH];
    intros a fuel cameras s p Hfalsy Hcalls Hdraws Hbound Hfuel Hfail
           Hgood Hcomplete;
    (destruct fuel as [|fuel]; [lia|]);
    rewrite connect_retry_iteration by done;
    (replace (max_cxn_attempts <=? a + 1)%nat with false
      by (symmetry; apply Nat.leb_gt; unfold max_cxn_attempts; lia)).
  - rewrite _connect_complete with (p := p);
      [|simpl; by rewrite Hcalls, Nat.add_0_r in * |done].
    rewrite connect_retry_left by done.
    eexists; eexists; split; [reflexivity|]. simpl.
    rewrite Hdraws, Hcalls, Nat.add_0_r. unfold backoff.
    replace (S a - 1)%nat with a by lia.
    by replace (a + 1)%nat with (S a) by lia.
  - rewrite _connect_falsy by (simpl; rewrite Hcalls; apply Hfail; lia).
    match goal with
    | |- context [connect_retry _ _ fuel (a + 1)%nat ?c ?st] =>
        destruct (IH (a + 1)%nat fuel c st p)
          as (c' & s' & Hrun & Hs & Hc & Hid)
    end; try done.
    + simpl. lia.
    + simpl. lia.
    + lia.
    + lia.
    + intros i Hi. apply Hfail. lia.
    + by replace (S (a + 1 + j)) with (S (a + S j)) by lia.
    + exists c', s'. rewrite Hrun. split; [reflexivity|].
      rewrite Hs, Hc, Hid. simpl. rewrite <- app_assoc. simpl.
      rewrite Hdraws. unfold backoff at 3.
      replace (S a - 1)%nat with a by lia.
      replace (a + 1)%nat with (S a) by lia.
      repeat split. f_equal. lia.
Qed.

(** The retry loop when every further reply is falsy. *)
Lemma connect_retry_exhausts (n : nat) :
  forall (a fuel : nat) (cameras : option (list camera)) (s : Conn),
    reply_truthy (connection_props s) = false ->
    create_calls s = S a ->
    random_calls s = a ->
    (a + S n = 10)%nat ->
    (10 - a <= fuel)%nat ->
    (forall i, (a < i <= 10)%nat -> create_replies i = ReplyFalsy) ->
    exists s',
      connect_retry create_replies random_draws fuel a cameras s
      = (Raise (RuntimeError "Could not connect to the environment"), s')
      /\ slept s' = slept s ++ map (backoff random_draws) (seq (S a) (S n))
      /\ create_calls s' = 11%nat.
Proof.
  induction n as [|n IH];
    intros a fuel cameras s Hfalsy Hcalls Hdraws Hbound Hfuel Hfail;
    (destruct fuel as [|fuel]; [lia|]);
    rewrite connect_retry_iteration by done;
    rewrite _connect_falsy by (simpl; rewrite Hcalls; apply Hfail; lia).
  - replace (max_cxn_attempts <=? a + 1)%nat with true
      by (symmetry; apply Nat.leb_le; unfold max_cxn_attempts; lia).
    eexists; split; [reflexivity|]. simpl.
    rewrite Hdraws, Hcalls. unfold backoff.
    replace (S a - 1)%nat with a by lia.
    replace (a + 1)%nat with (S a) by lia. split; [done|lia].
  - replace (max_cxn_attempts <=? a + 1)%nat with false
      by (symmetry; apply Nat.leb_gt; unfold max_cxn_attempts; lia).
    match goal with
    | |- context [connect_retry _ _ fuel (a + 1)%nat ?c ?st] =>
        destruct (IH (a + 1)%nat fuel c st) as (s' & Hrun & Hs & Hc)
    end; try done.
    + simpl. lia.
    + simpl. lia.
    + lia.
    + lia.
    + intros i Hi. apply Hfail. lia.
    + exists s'. rewrite Hrun. split; [reflexivity|].
      rewrite Hs, Hc. simpl. rewrite <- app_assoc. simpl.
      rewrite Hdraws. unfold backoff at 3.
      replace (S a - 1)%nat with a by lia.
      replace (a + 1)%nat with (S a) by lia.
      done.
Qed.

Lemma backoff_range (i : nat) :
  0 <= random_draws (i - 1) < 1 ->
  inject_Z (Z.of_nat i) <= backoff random_draws i
  < inject_Z (Z.of_nat i) + 2.
Proof. unfold backoff. intros [H0 H1]. split; lra. Qed.

End Handshake.

(** [connect] never runs out of fuel when given ten units or more. *)
Lemma connect_fuel (create_replies : nat -> create_reply)
    (random_draws : nat -> Q) (register_replies : nat -> Z)
    (reset_replies : nat -> bool) (sim_start_command : bool)
    (fuel : nat) (cameras : option (list camera)) (s : Conn) :
  (10 <= fuel)%nat ->
  fst (connect create_replies random_draws register_replies reset_replies
         sim_start_command fuel cameras s) <> Ok None.
Proof.
  intros Hfuel. unfold connect.
  unfold mbind at 1, M_bind at 1.
  destruct (_connect create_replies s) as [[[]|e] s1]; [|done].
  unfold mbind at 1, M_bind at 1.
  pose proof (connect_retry_fuel create_replies random_draws fuel 0
                cameras s1 ltac:(lia) ltac:(lia)) as Hleft.
  destruct (connect_retry create_replies random_draws fuel 0 cameras s1)
    as [[[cameras'|]|e] s2]; [|done|done].
  clear Hleft. run_conn.
  destruct (match client_id s2 with
            | Some n => (0 <? n)%Z
            | None => false
            end).
  - destruct cameras' as [cams|]; simpl; [|done].
    destruct (register_cameras register_replies cams 0 _) as [[[]|e] s3];
      [|done].
    by destruct (reset_capture reset_replies sim_start_command _)
      as [[[]|e] s4].
  - unfold raise_connect_fail. by destruct sim_start_command.
Qed.

(** C4, as stated, fails: the sleeps need not be non-decreasing.  With
    every reply falsy and the draws 0.95 then 0.05, the first sleep is
    2.9 s and the second 2.1 s. *)
Lemma handshake_backoff_can_decrease :
  exists s' first second,
    connect Samples.always_falsy Samples.high_then_low (fun _ => 0%Z)
      Samples.never_bound false 10 None Samples.disconnected
    = (Raise (RuntimeError "Could not connect to the environment"), s')
    /\ slept s' !! 0%nat = Some first
    /\ slept s' !! 1%nat = Some second
    /\ first == 2.9
    /\ second == 2.1
    /\ second < first.
Proof.
  eexists; eexists; eexists.
  split; [vm_compute; reflexivity|].
  repeat split.
Qed.

(** Two more behaviours of the retry loop, both on the side of the
    source's [# Try again]: a reply that is complete on the tenth retry
    is followed by the [RuntimeError] all the same, and a reply that is a
    dict with a zero capture resolution is never retried, [connect]
    failing at once. *)
Lemma tenth_retry_success_raises :
  exists s',
    connect (Samples.falsy_until 10) Samples.high_then_low (fun _ => 0%Z)
      Samples.never_bound false 10 None Samples.disconnected
    = (Raise (RuntimeError "Could not connect to the environment"), s')
    /\ connection_props s' = ReplyProps Samples.good_props
    /\ client_id s' = Some 1%Z
    /\ create_calls s' = 11%nat.
Proof. eexists. split; [vm_compute; reflexivity|]. repeat split. Qed.

Lemma incomplete_reply_not_retried :
  exists s',
    connect (fun _ => ReplyProps Samples.incomplete_props)
      Samples.high_then_low (fun _ => 0%Z) Samples.never_bound false 10
      None Samples.disconnected
    = (Raise (PyException "Could not connect to the environment."), s')
    /\ create_calls s' = 1%nat
    /\ slept s' = [].
Proof. eexists. split; [vm_compute; reflexivity|]. repeat split. Qed.

(** C4 (amended): starting with no call made across the boundary, and
    with draws of [random.random()] in [[0, 1)], let the first [k]
    replies of the server be falsy ([None] or an empty dict).  Before
    its [i]-th retry the handshake sleeps [i + 2 * draw] seconds, a delay
    in [[i, i + 2)].  If [k <= 9] and the next reply is complete, the
    retry loop ends without error after [k] retries and [k] sleeps; if
    all eleven replies are falsy, it makes ten retries and then raises
    [RuntimeError], and so does [connect]. *)
Theorem handshake_retries (create_replies : nat -> create_reply)
    (random_draws : nat -> Q) (register_replies : nat -> Z)
    (reset_replies : nat -> bool) (sim_start_command : bool)
    (fuel k : nat) (cameras : option (list camera)) (s : Conn)
    (p : Props.t) :
  create_calls s = 0%nat ->
  random_calls s = 0%nat ->
  (10 <= fuel)%nat ->
  (forall i, 0 <= random_draws i < 1) ->
  (forall i, (i < k)%nat -> create_replies i = ReplyFalsy) ->
  let handshake : M Conn (option (option (list camera))) :=
    _connect create_replies;;
    connect_retry create_replies random_draws fuel 0 cameras in
  ((k <= 9)%nat ->
   create_replies k = ReplyProps p ->
   complete (client_version s) p ->
   exists cameras' s',
     handshake s = (Ok (Some cameras'), s')
     /\ slept s' = slept s ++ map (backoff random_draws) (seq 1 k)
     /\ create_calls s' = S k)
  /\ (k = 11%nat ->
      exists s',
        handshake s
        = (Raise (RuntimeError "Could not connect to the environment"), s')
        /\ slept s' = slept s ++ map (backoff random_draws) (seq 1 10)
        /\ create_calls s' = 11%nat
        /\ fst (connect create_replies random_draws register_replies
                  reset_replies sim_start_command fuel cameras s)
           = Raise (RuntimeError "Could not connect to the environment"))
  /\ (forall i : nat,
        inject_Z (Z.of_nat i) <= backoff random_draws i
        < inject_Z (Z.of_nat i) + 2).
Proof.
  intros Hcalls Hdraws Hfuel Hrange Hfalsy handshake.
  split; [|split].
  - intros Hk Hgood Hcomplete. subst handshake.
    unfold mbind at 1, M_bind at 1.
    destruct k as [|k].
    + rewrite _connect_complete with (p := p); [|by rewrite Hcalls|done].
      rewrite connect_retry_left by done.
      eexists; eexists; split; [reflexivity|].
      simpl. by rewrite app_nil_r, Hcalls.
    + rewrite _connect_falsy by (rewrite Hcalls; apply Hfalsy; lia).
      match goal with
      | |- context [connect_retry _ _ fuel 0%nat cameras ?st] =>
          destruct (connect_retry_succeeds create_replies random_draws k
                      0 fuel cameras st p
                      eq_refl
                      ltac:(simpl; by rewrite Hcalls)
                      Hdraws
                      ltac:(lia)
                      ltac:(lia)
                      ltac:(intros i Hi; apply Hfalsy; lia)
                      Hgood
                      Hcomplete)
            as (c' & s' & Hrun & Hs & Hc & _)
      end.
      exists c', s'. by rewrite Hrun, Hs, Hc.
  - intros ->.
    assert (Hloop : exists s',
      handshake s
      = (Raise (RuntimeError "Could not connect to the environment"), s')
      /\ slept s' = slept s ++ map (backoff random_draws) (seq 1 10)
      /\ create_calls s' = 11%nat).
    { subst handshake. unfold mbind at 1, M_bind at 1.
      rewrite _connect_falsy by (rewrite Hcalls; apply Hfalsy; lia).
      match goal with
      | |- context [connect_retry _ _ fuel 0%nat cameras ?st] =>
          destruct (connect_retry_exhausts create_replies random_draws 9
                      0 fuel cameras st
                      eq_refl
                      ltac:(simpl; by rewrite Hcalls)
                      Hdraws
                      eq_refl
                      ltac:(lia)
                      ltac:(intros i Hi; apply Hfalsy; lia))
            as (s' & Hrun & Hs & Hc)
      end.
      exists s'. by rewrite Hrun, Hs, Hc. }
    destruct Hloop as (s' & Hrun & Hs & Hc).
    exists s'. repeat split; try done.
    unfold connect. subst handshake.
    unfold mbind at 1, M_bind at 1. unfold mbind at 1, M_bind at 1 in Hrun.
    destruct (_connect create_replies s) as [[[]|e] s1].
    + unfold mbind at 1, M_bind at 1. by rewrite Hrun.
    + by injection Hrun as -> ->.
  - intros i. apply backoff_range, Hrange.
Qed.

Lemma handshake_retries_witness :
  (exists cameras' s',
     (_connect (Samples.falsy_until 3);;
      connect_retry (Samples.falsy_until 3) Samples.high_then_low 10 0 None)
       Samples.disconnected
     = (Ok (Some cameras'), s')
     /\ slept s'
        = slept Samples.disconnected
          ++ map (backoff Samples.high_then_low) (seq 1 3)
     /\ create_calls s' = 4%nat)
  /\ fst (connect Samples.always_falsy Samples.high_then_low (fun _ => 0%Z)
            Samples.never_bound false 10 None Samples.disconnected)
     = Raise (RuntimeError "Could not connect to the environment").
Proof.
  split.
  - apply (handshake_retries (Samples.falsy_until 3) Samples.high_then_low
             (fun _ => 0%Z) Samples.never_bound false 10 3 None
             Samples.disconnected Samples.good_props).
    + reflexivity.
    + reflexivity.
    + lia.
    + intros i. unfold Samples.high_then_low.
      destruct (i =? 0)%nat; split; lra.
    + intros i Hi. unfold Samples.falsy_until.
      apply Nat.ltb_lt in Hi. by rewrite Hi.
    + lia.
    + reflexivity.
    + split; [by exists 1080%Z | reflexivity].
  - destruct (handshake_retries Samples.always_falsy Samples.high_then_low
                (fun _ => 0%Z) Samples.never_bound false 10 11 None
                Samples.disconnected Samples.good_props)
      as (_ & Hexhaust & _).
    + reflexivity.
    + reflexivity.
    + lia.
    + intros i. unfold Samples.high_then_low.
      destruct (i =? 0)%nat; split; lra.
    + reflexivity.
    + destruct (Hexhaust eq_refl) as (s' & _ & _ & _ & Hconnect).
      exact Hconnect.
Defined.

(** ** The capture bootstrap *)

Lemma doubled_power (sleep : Q) (i : nat) :
  sleep * 2 * 2 ^ Z.of_nat i == sleep * 2 ^ Z.of_nat (S i).
Proof.
  rewrite Nat2Z.inj_succ. unfold Z.succ.
  rewrite Qpower_plus by discriminate. simpl (2 ^ 1). ring.
Qed.

Lemma doubling_cons (sleep : Q) (k : nat) :
  Forall2 Qeq (sleep * 2 :: doubling (sleep * 2) k) (doubling sleep (S k)).
Proof.
  unfold doubling. simpl. constructor.
  - simpl. unfold Qpower_positive. simpl. ring.
  - rewrite <- (List.seq_shift k 1), map_map.
    apply Forall2_fmap, Forall_Forall2_diag, Forall_forall.
    intros i _. apply doubled_power.
Qed.

Section Bootstrap.

Variable reset_replies : nat -> bool.
Variable SIM_START_COMMAND : bool.

(** The loop when [k] attempts fail and the next one binds. *)
Lemma reset_capture_loop_binds (k : nat) :
  forall (n : nat) (sleep : Q) (s : Conn),
    (k < n)%nat ->
    (forall i, (i < k)%nat -> reset_replies (reset_calls s + i) = false) ->
    reset_replies (reset_calls s + k) = true ->
    exists sleeps s',
      reset_capture_loop reset_replies SIM_START_COMMAND n sleep s
      = (Ok tt, s')
      /\ slept s' = slept s ++ sleeps
      /\ Forall2 Qeq sleeps (doubling sleep k)
      /\ reset_calls s' = (reset_calls s + S k)%nat.
Proof.
  induction k as [|k IH]; intros n sleep s Hn Hfail Hbind;
    (destruct n as [|n]; [lia|]); simpl; run_conn.
  - rewrite Nat.add_0_r in Hbind. rewrite Hbind.
    exists [], (set_reset_calls (S (reset_calls s)) s). simpl.
    rewrite app_nil_r. repeat split; [constructor | lia].
  - assert (H0 : reset_replies (reset_calls s) = false)
      by (rewrite <- (Nat.add_0_r (reset_calls s)); apply Hfail; lia).
    rewrite H0.
    match goal with
    | |- context [reset_capture_loop _ _ n ?sl ?st] =>
        destruct (IH n sl st) as (sleeps & s' & Hrun & Hs & Hd & Hc)
    end.
    + lia.
    + intros i Hi. simpl. rewrite <- Nat.add_succ_r. apply Hfail. lia.
    + simpl. by rewrite <- Nat.add_succ_r.
    + exists (sleep * 2 :: sleeps), s'. rewrite Hrun.
      split; [reflexivity|]. rewrite Hs, Hc. simpl.
      rewrite <- app_assoc. simpl.
      repeat split; [|lia].
      etrans; [|apply doubling_cons]. by constructor.
Qed.

(** The loop when all [n] attempts fail. *)
Lemma reset_capture_loop_exhausts (n : nat) :
  forall (sleep : Q) (s : Conn),
    (forall i, (i < n)%nat -> reset_replies (reset_calls s + i) = false) ->
    exists sleeps s',
      reset_capture_loop reset_replies SIM_START_COMMAND n sleep s
      = raise_connect_fail SIM_START_COMMAND s'
      /\ slept s' = slept s ++ sleeps
      /\ Forall2 Qeq sleeps (doubling sleep n)
      /\ reset_calls s' = (reset_calls s + n)%nat.
Proof.
  induction n as [|n IH]; intros sleep s Hfail; simpl; run_conn.
  - exists [], s. rewrite app_nil_r, Nat.add_0_r.
    repeat split. constructor.
  - assert (H0 : reset_replies (reset_calls s) = false)
      by (rewrite <- (Nat.add_0_r (reset_calls s)); apply Hfail; lia).
    rewrite H0.
    match goal with
    | |- context [reset_capture_loop _ _ n ?sl ?st] =>
        destruct (IH sl st) as (sleeps & s' & Hrun & Hs & Hd & Hc)
    end.
    + intros i Hi. simpl. rewrite <- Nat.add_succ_r. apply Hfail. lia.
    + exists (sleep * 2 :: sleeps), s'. rewrite Hrun.
      split; [reflexivity|]. rewrite Hs, Hc. simpl.
      rewrite <- app_assoc. simpl.
      repeat split; [|lia].
      etrans; [|apply doubling_cons]. by constructor.
Qed.

Lemma raise_connect_fail_raises (s : Conn) :
  exists msg,
    raise_connect_fail (A := unit) SIM_START_COMMAND s
    = (Raise (PyException msg), s).
Proof.
  unfold raise_connect_fail. destruct SIM_START_COMMAND; by eexists.
Qed.

End Bootstrap.

(** C5, as stated, fails: the delay is doubled before it is slept, so
    the first sleep is 0.2 s, not 0.1 s; and the loop sleeps after the
    tenth failed attempt too, ten times in all. *)
Lemma capture_bootstrap_first_sleep :
  exists s',
    reset_capture Samples.never_bound false Samples.disconnected
    = (Raise (PyException "Could not connect to the environment."), s')
    /\ slept s' = [0.2; 0.4; 0.8; 1.6; 3.2; 6.4; 12.8; 25.6; 51.2; 102.4]
    /\ reset_calls s' = 10%nat
    /\ ~ (exists first, slept s' !! 0%nat = Some first /\ first == 0.1).
Proof.
  eexists. split; [vm_compute; reflexivity|].
  split; [reflexivity|]. split; [reflexivity|].
  intros (first & Hfirst & Heq). simpl in Hfirst.
  injection Hfirst as <-. vm_compute in Heq. discriminate.
Qed.

(** C5 (amended): the capture bootstrap makes up to 10 attempts to bind.
    After each failed attempt, the tenth included, it doubles the delay,
    which starts at 0.1 s, and then sleeps it: 0.2, 0.4, 0.8, ... seconds,
    [0.1 * 2 ^ i] after the [i]-th failure.  An attempt that binds ends
    the loop; after ten failures the connect-failure exception is
    raised. *)
Theorem capture_bootstrap_backoff (reset_replies : nat -> bool)
    (sim_start_command : bool) (k : nat) (s : Conn) :
  (forall i, (i < k)%nat -> reset_replies (reset_calls s + i)%nat = false) ->
  ((k < 10)%nat ->
   reset_replies (reset_calls s + k)%nat = true ->
   exists sleeps s',
     reset_capture reset_replies sim_start_command s = (Ok tt, s')
     /\ slept s' = slept s ++ sleeps
     /\ Forall2 Qeq sleeps (doubling 0.1 k)
     /\ reset_calls s' = (reset_calls s + S k)%nat)
  /\ (k = 10%nat ->
      exists msg sleeps s',
        reset_capture reset_replies sim_start_command s
        = (Raise (PyException msg), s')
        /\ raise_connect_fail (A := unit) sim_start_command s'
           = (Raise (PyException msg), s')
        /\ slept s' = slept s ++ sleeps
        /\ Forall2 Qeq sleeps (doubling 0.1 10)
        /\ reset_calls s' = (reset_calls s + 10)%nat).
Proof.
  intros Hfail. unfold reset_capture. split.
  - intros Hk Hbind.
    by apply reset_capture_loop_binds.
  - intros ->.
    destruct (reset_capture_loop_exhausts reset_replies sim_start_command
                10 0.1 s Hfail) as (sleeps & s' & Hrun & Hs & Hd & Hc).
    destruct (raise_connect_fail_raises sim_start_command s')
      as (msg & Hmsg).
    exists msg, sleeps, s'. by rewrite Hrun, Hmsg.
Qed.

Lemma capture_bootstrap_backoff_witness :
  (exists sleeps s',
     reset_capture (Samples.bound_after 3) false Samples.disconnected
     = (Ok tt, s')
     /\ slept s' = slept Samples.disconnected ++ sleeps
     /\ Forall2 Qeq sleeps (doubling 0.1 3)
     /\ reset_calls s' = (reset_calls Samples.disconnected + 4)%nat)
  /\ (exists msg sleeps s',
        reset_capture Samples.never_bound false Samples.disconnected
        = (Raise (PyException msg), s')
        /\ raise_connect_fail (A := unit) false s'
           = (Raise (PyException msg), s')
        /\ slept s' = slept Samples.disconnected ++ sleeps
        /\ Forall2 Qeq sleeps (doubling 0.1 10)
        /\ reset_calls s' = (reset_calls Samples.disconnected + 10)%nat).
Proof.
  split.
  - apply (capture_bootstrap_backoff (Samples.bound_after 3) false 3
             Samples.disconnected).
    + intros i Hi. unfold Samples.bound_after.
      apply Nat.leb_gt. simpl. lia.
    + lia.
    + reflexivity.
  - apply (capture_bootstrap_backoff Samples.never_bound false 10
             Samples.disconnected).
    + reflexivity.
    + reflexivity.
Defined.


(** * Further properties *)

(** ** More on the reward calculator *)

(** Values inside the limits pass through [clip] unchanged. *)
Lemma clip_inside_eq (r : Q) :
  clipped r -> DeepDriveRewardCalculator.clip r == r.
Proof. intros [Hlo Hhi]. by rewrite clip_inside. Qed.

Lemma clip_monotone (x y : Q) :
  x <= y -> DeepDriveRewardCalculator.clip x <= DeepDriveRewardCalculator.clip y.
Proof.
  intro H. unfold DeepDriveRewardCalculator.clip, py_min, py_max.
  repeat case_cmp; lra.
Qed.

Lemma clip_zero : DeepDriveRewardCalculator.clip 0 == 0.
Proof. reflexivity. Qed.

Lemma clip_high (x : Q) : 100 <= x -> DeepDriveRewardCalculator.clip x == 100.
Proof.
  intro H. unfold DeepDriveRewardCalculator.clip, py_min, py_max.
  repeat case_cmp; lra.
Qed.

(** X1: [clip] is monotone, and clipping a clipped value changes nothing. *)
Theorem clip_monotone_idempotent (x y : Q) :
  x <= y ->
  DeepDriveRewardCalculator.clip x <= DeepDriveRewardCalculator.clip y
  /\ DeepDriveRewardCalculator.clip (DeepDriveRewardCalculator.clip x)
     == DeepDriveRewardCalculator.clip x.
Proof.
  intro H. split; [by apply clip_monotone|].
  apply clip_inside_eq, clip_clipped.
Qed.

Lemma clip_monotone_idempotent_witness :
  150 <= 200
  /\ DeepDriveRewardCalculator.clip 150 <= DeepDriveRewardCalculator.clip 200
  /\ DeepDriveRewardCalculator.clip (DeepDriveRewardCalculator.clip 150)
     == DeepDriveRewardCalculator.clip 150.
Proof.
  assert (H : 150 <= 200) by lra.
  split; [exact H | exact (clip_monotone_idempotent 150 200 H)].
Defined.

(** the g-force penalty *)
Lemma gforce_penalty_value (gforces t : Q) :
  0.5 < gforces ->
  exists r,
    DeepDriveRewardCalculator.get_gforce_penalty gforces (Some t) = Ok r
    /\ r == DeepDriveRewardCalculator.clip (24 * (t * gforces)).
Proof.
  intro Hg. unfold DeepDriveRewardCalculator.get_gforce_penalty.
  destruct (Qltb gforces 0) eqn:E; [apply Qltb_lt in E; lra|].
  destruct (Qgtb gforces 0.5) eqn:E2; [|apply Qgtb_le in E2; lra].
  eexists; split; [reflexivity|].
  unfold py_min. case_cmp.
  - rewrite !clip_high; lra.
  - apply clip_proper. ring.
Qed.

Lemma speed_kph_under (cmps t : Q) :
  cmps * 3600 / 100 / 1000 - SPEED_LIMIT_KPH <= 4 ->
  DeepDriveRewardCalculator.get_speed_reward cmps (Some t)
  = Ok (DeepDriveRewardCalculator.clip (2 / 10 * t * (cmps * 3600 / 100 / 1000))).
Proof.
  intro H. unfold DeepDriveRewardCalculator.get_speed_reward.
  apply Qgtb_le in H. by rewrite H.
Qed.

Lemma speed_kph_over (cmps t : Q) :
  4 < cmps * 3600 / 100 / 1000 - SPEED_LIMIT_KPH ->
  (cmps * 3600 / 100 / 1000 - SPEED_LIMIT_KPH) ^ 2 < FLOAT_OVERFLOW ->
  DeepDriveRewardCalculator.get_speed_reward cmps (Some t)
  = Ok (DeepDriveRewardCalculator.clip
          (-1 * (2 / 10) * (cmps * 3600 / 100 / 1000) * t
           * (cmps * 3600 / 100 / 1000 - SPEED_LIMIT_KPH) ^ 2)).
Proof.
  intros H Hsq. unfold DeepDriveRewardCalculator.get_speed_reward.
  apply Qgtb_gt in H. rewrite H. by rewrite py_square_ok.
Qed.

Lemma speed_kph_overflow (cmps t : Q) :
  4 < cmps * 3600 / 100 / 1000 - SPEED_LIMIT_KPH ->
  FLOAT_OVERFLOW <= (cmps * 3600 / 100 / 1000 - SPEED_LIMIT_KPH) ^ 2 ->
  DeepDriveRewardCalculator.get_speed_reward cmps (Some t)
  = Raise OverflowError.
Proof.
  intros H Hsq. unfold DeepDriveRewardCalculator.get_speed_reward.
  apply Qgtb_gt in H. rewrite H. by rewrite py_square_overflow.
Qed.

Lemma over_speed_term_nonpos (kph t : Q) :
  68 < kph -> 0 <= t ->
  -1 * (2 / 10) * kph * t * (kph - 64) ^ 2 <= 0.
Proof.
  intros Hk Ht.
  assert (H1 : 0 <= kph * t) by nra.
  assert (H2 : 0 <= (kph - 64) * (kph - 64)) by nra.
  assert (H3 : 0 <= kph * t * ((kph - 64) * (kph - 64))) by nra.
  assert (E : -1 * (2 / 10) * kph * t * (kph - 64) ^ 2
              == - (2 # 10) * (kph * t * ((kph - 64) * (kph - 64))))
    by (simpl; field).
  rewrite E. lra.
Qed.

Lemma over_speed_term_neg (kph t : Q) :
  68 < kph -> 0 < t ->
  -1 * (2 / 10) * kph * t * (kph - 64) ^ 2 < 0.
Proof.
  intros Hk Ht.
  assert (H1 : 0 < kph * t) by nra.
  assert (H2 : 0 < (kph - 64) * (kph - 64)) by nra.
  assert (H3 : 0 < kph * t * ((kph - 64) * (kph - 64))) by nra.
  assert (E : -1 * (2 / 10) * kph * t * (kph - 64) ^ 2
              == - (2 # 10) * (kph * t * ((kph - 64) * (kph - 64))))
    by (simpl; field).
  rewrite E. lra.
Qed.

Lemma under_speed_term_nonneg (kph t : Q) :
  0 <= kph -> 0 <= t -> 0 <= 2 / 10 * t * kph.
Proof.
  intros Hk Ht.
  assert (H1 : 0 <= t * kph) by nra.
  assert (E : 2 / 10 * t * kph == (2 # 10) * (t * kph)) by field.
  rewrite E. lra.
Qed.

Lemma clip_negative (x : Q) : x < 0 -> DeepDriveRewardCalculator.clip x < 0.
Proof.
  intro H. unfold DeepDriveRewardCalculator.clip, py_min, py_max.
  repeat case_cmp; lra.
Qed.

(** X2: the sign of the speed reward.  For a speed between 0 and [10^150]
    cm/s and a time step that is not negative, the speed reward is not
    negative up to 68 km/h (0.036 km/h per cm/s), that is up to 4 km/h
    over the limit, and not positive above 68 km/h, where it is negative
    as soon as the time step is positive. *)
Theorem speed_reward_sign (cmps t : Q) :
  0 <= cmps <= 10 ^ 150 ->
  0 <= t ->
  exists r,
    DeepDriveRewardCalculator.get_speed_reward cmps (Some t) = Ok r
    /\ (cmps * 0.036 <= 68 -> 0 <= r)
    /\ (68 < cmps * 0.036 -> r <= 0)
    /\ (68 < cmps * 0.036 -> 0 < t -> r < 0).
Proof.
  intros [Hc Hbound] Ht.
  assert (Hsq : (cmps * 3600 / 100 / 1000 - SPEED_LIMIT_KPH) ^ 2
                < FLOAT_OVERFLOW).
  { apply speed_delta_below_overflow.
    assert (0 <= 10 ^ 150) by (apply Qle_bool_imp_le; by vm_compute).
    split; lra. }
  pose proof (speed_kph_of_cmps cmps) as Hk.
  destruct (Qlt_le_dec 4 (cmps * 3600 / 100 / 1000 - SPEED_LIMIT_KPH))
    as [Hover|Hunder].
  - rewrite speed_kph_over by done. eexists; split; [reflexivity|].
    unfold SPEED_LIMIT_KPH in *.
    split; [intro; lra|].
    split.
    + intros _. rewrite <- clip_zero. apply clip_monotone.
      apply over_speed_term_nonpos; lra.
    + intros _ Hpos. apply clip_negative.
      apply over_speed_term_neg; lra.
  - rewrite speed_kph_under by done. eexists; split; [reflexivity|].
    unfold SPEED_LIMIT_KPH in *.
    split; [|split; intros; lra].
    intros _. rewrite <- clip_zero. apply clip_monotone.
    apply under_speed_term_nonneg; lra.
Qed.

Lemma speed_reward_sign_witness :
  exists r,
    DeepDriveRewardCalculator.get_speed_reward 1000 (Some 0.1) = Ok r
    /\ (1000 * 0.036 <= 68 -> 0 <= r)
    /\ (68 < 1000 * 0.036 -> r <= 0)
    /\ (68 < 1000 * 0.036 -> 0 < 0.1 -> r < 0).
Proof.
  apply (speed_reward_sign 1000 0.1); [|discriminate].
  split; apply Qle_bool_imp_le; by vm_compute.
Defined.

(** X3: the cap of 5 on the time-weighted g-force never shows in the
    result.  Above 0.5 g the penalty is [clip (24 * time_passed * gforces)]:
    it reaches the limit 100 before the cap applies, and it is not
    negative when the time step is not. *)
Theorem gforce_cap_subsumed (gforces t : Q) :
  0.5 < gforces ->
  exists r,
    DeepDriveRewardCalculator.get_gforce_penalty gforces (Some t) = Ok r
    /\ r == DeepDriveRewardCalculator.clip (24 * (t * gforces))
    /\ (100 <= 24 * (t * gforces) -> r == 100)
    /\ (0 <= t -> 0 <= r).
Proof.
  intro Hg.
  destruct (gforce_penalty_value gforces t Hg) as (r & Hrun & Hr).
  exists r. split; [done|]. split; [done|]. split.
  - intro H. rewrite Hr. by apply clip_high.
  - intro Ht. rewrite Hr, <- clip_zero. apply clip_monotone.
    assert (0 <= t * gforces) by nra. lra.
Qed.

Lemma gforce_cap_subsumed_witness :
  exists r,
    DeepDriveRewardCalculator.get_gforce_penalty 1 (Some 10) = Ok r
    /\ r == DeepDriveRewardCalculator.clip (24 * (10 * 1))
    /\ (100 <= 24 * (10 * 1) -> r == 100)
    /\ (0 <= 10 -> 0 <= r).
Proof.
  apply (gforce_cap_subsumed 1 10). reflexivity.
Defined.


(** X4: the four terms when [time_passed] is [None].  The speed reward
    raises [TypeError]; the lane deviation penalty is 0 for any deviation
    that is not negative; the g-force penalty is 0 up to 0.5 g and raises
    [TypeError] above; the progress reward is the clipped progress in
    metres, with no lap heuristic. *)
Theorem calculator_without_time_passed (cmps lane_deviation gforces
    progress : Q) :
  0 <= lane_deviation ->
  0 <= gforces ->
  DeepDriveRewardCalculator.get_speed_reward cmps None = Raise TypeError
  /\ DeepDriveRewardCalculator.get_lane_deviation_penalty lane_deviation None
     = Ok 0
  /\ DeepDriveRewardCalculator.get_gforce_penalty gforces None
     = (if Qgtb gforces 0.5 then Raise TypeError else Ok 0)
  /\ DeepDriveRewardCalculator.get_progress_reward progress None
     = Ok (DeepDriveRewardCalculator.clip (progress / 100 * 1)).
Proof.
  intros Hl Hg. split; [|split; [|split]].
  - unfold DeepDriveRewardCalculator.get_speed_reward. by case_cmp.
  - unfold DeepDriveRewardCalculator.get_lane_deviation_penalty.
    apply Qltb_ge in Hl. by rewrite Hl.
  - unfold DeepDriveRewardCalculator.get_gforce_penalty.
    apply Qltb_ge in Hg. rewrite Hg. by destruct (Qgtb gforces 0.5).
  - reflexivity.
Qed.

Lemma calculator_without_time_passed_witness :
  DeepDriveRewardCalculator.get_speed_reward 1000 None = Raise TypeError
  /\ DeepDriveRewardCalculator.get_lane_deviation_penalty 300 None = Ok 0
  /\ DeepDriveRewardCalculator.get_gforce_penalty 1 None
     = (if Qgtb 1 0.5 then Raise TypeError else Ok 0)
  /\ DeepDriveRewardCalculator.get_progress_reward 500 None
     = Ok (DeepDriveRewardCalculator.clip (500 / 100 * 1)).
Proof.
  apply (calculator_without_time_passed 1000 300 1 500); discriminate.
Defined.

Lemma lane_deviation_penalty_value (d t : Q) :
  0 <= d <= 10 ^ 150 ->
  DeepDriveRewardCalculator.get_lane_deviation_penalty d (Some t)
  = Ok (DeepDriveRewardCalculator.clip
          (if Qgtb d 200 then 1 / 10 * t * d ^ 2 / 100 else 0)).
Proof.
  intros [Hd Hbound].
  unfold DeepDriveRewardCalculator.get_lane_deviation_penalty.
  apply Qltb_ge in Hd. rewrite Hd.
  rewrite py_square_ok.
  - by destruct (Qgtb d 200).
  - apply square_below_overflow. apply Qltb_ge in Hd.
    assert (0 <= 10 ^ 150) by (apply Qle_bool_imp_le; by vm_compute).
    split; lra.
Qed.

Lemma lane_deviation_term (t d : Q) :
  1 / 10 * t * d ^ 2 / 100 == t * d ^ 2 * (1 # 1000).
Proof. field. Qed.

Lemma clip_nonneg (x : Q) : 0 <= x -> 0 <= DeepDriveRewardCalculator.clip x.
Proof. intro H. rewrite <- clip_zero. by apply clip_monotone. Qed.

(** X5: the lane deviation penalty grows with the deviation.  For a time
    step that is not negative and deviations [0 <= d1 <= d2 <= 10^150]
    the penalties satisfy [0 <= r1 <= r2], and the penalty is 0 up to 200
    cm. *)
Theorem lane_deviation_penalty_monotone (d1 d2 t : Q) :
  0 <= t ->
  0 <= d1 ->
  d1 <= d2 ->
  d2 <= 10 ^ 150 ->
  exists r1 r2,
    DeepDriveRewardCalculator.get_lane_deviation_penalty d1 (Some t) = Ok r1
    /\ DeepDriveRewardCalculator.get_lane_deviation_penalty d2 (Some t)
       = Ok r2
    /\ 0 <= r1 /\ r1 <= r2
    /\ (d2 <= 200 -> r2 == 0).
Proof.
  intros Ht H1 H12 Hbound.
  rewrite !lane_deviation_penalty_value by (split; lra).
  eexists; eexists. split; [reflexivity|]. split; [reflexivity|].
  assert (Hsq : forall d, 0 <= d -> 0 <= 1 / 10 * t * d ^ 2 / 100).
  { intros d Hd. assert (0 <= d ^ 2) by (simpl; nra).
    assert (0 <= t * d ^ 2) by nra.
    rewrite lane_deviation_term. lra. }
  split; [|split].
  - apply clip_nonneg. case_cmp; [apply Hsq; lra | lra].
  - apply clip_monotone.
    destruct (Qgtb d1 200) eqn:E1; [apply Qgtb_gt in E1|apply Qgtb_le in E1];
      (destruct (Qgtb d2 200) eqn:E2;
       [apply Qgtb_gt in E2|apply Qgtb_le in E2]); try lra.
    + assert (Hd : d1 ^ 2 <= d2 ^ 2) by (simpl; nra).
      assert (Htd : t * d1 ^ 2 <= t * d2 ^ 2) by nra.
      rewrite !lane_deviation_term. lra.
    + apply Hsq. lra.
  - intro H2. apply Qgtb_le in H2. rewrite H2. reflexivity.
Qed.

Lemma lane_deviation_penalty_monotone_witness :
  exists r1 r2,
    DeepDriveRewardCalculator.get_lane_deviation_penalty 150 (Some 0.1)
    = Ok r1
    /\ DeepDriveRewardCalculator.get_lane_deviation_penalty 300 (Some 0.1)
       = Ok r2
    /\ 0 <= r1 /\ r1 <= r2
    /\ (300 <= 200 -> r2 == 0).
Proof.
  apply (lane_deviation_penalty_monotone 150 300 0.1);
    first [discriminate | apply Qle_bool_imp_le; by vm_compute].
Defined.

(** X6: the g-force penalty grows with the g-force.  For a time step that
    is not negative and [0 <= g1 <= g2] the penalties satisfy
    [0 <= r1 <= r2], and the penalty is 0 up to 0.5 g. *)
Theorem gforce_penalty_monotone (g1 g2 t : Q) :
  0 <= t ->
  0 <= g1 ->
  g1 <= g2 ->
  exists r1 r2,
    DeepDriveRewardCalculator.get_gforce_penalty g1 (Some t) = Ok r1
    /\ DeepDriveRewardCalculator.get_gforce_penalty g2 (Some t) = Ok r2
    /\ 0 <= r1 /\ r1 <= r2
    /\ (g2 <= 0.5 -> r2 == 0).
Proof.
  intros Ht H1 H12.
  assert (Hlow : forall g, 0 <= g -> g <= 0.5 ->
            DeepDriveRewardCalculator.get_gforce_penalty g (Some t) = Ok 0).
  { intros g Hg Hg'. unfold DeepDriveRewardCalculator.get_gforce_penalty.
    apply Qltb_ge in Hg. apply Qgtb_le in Hg'. by rewrite Hg, Hg'. }
  destruct (Qlt_le_dec 0.5 g1) as [Hhigh1|Hlow1];
    destruct (Qlt_le_dec 0.5 g2) as [Hhigh2|Hlow2]; try lra.
  - destruct (gforce_penalty_value g1 t Hhigh1) as (r1 & Hrun1 & Hr1).
    destruct (gforce_penalty_value g2 t Hhigh2) as (r2 & Hrun2 & Hr2).
    exists r1, r2. split; [done|]. split; [done|].
    assert (0 <= t * g1) by nra. assert (t * g1 <= t * g2) by nra.
    split; [|split].
    + rewrite Hr1. apply clip_nonneg. lra.
    + rewrite Hr1, Hr2. apply clip_monotone. lra.
    + intro. lra.
  - destruct (gforce_penalty_value g2 t Hhigh2) as (r2 & Hrun2 & Hr2).
    exists 0, r2. split; [by apply Hlow|]. split; [done|].
    assert (0 <= t * g2) by nra.
    split; [lra|]. split.
    + rewrite Hr2. apply clip_nonneg. lra.
    + intro. lra.
  - exists 0, 0. split; [by apply Hlow|]. split; [apply Hlow; lra|].
    split; [lra|]. split; [lra|]. intro. reflexivity.
Qed.

Lemma gforce_penalty_monotone_witness :
  exists r1 r2,
    DeepDriveRewardCalculator.get_gforce_penalty 0.2 (Some 0.1) = Ok r1
    /\ DeepDriveRewardCalculator.get_gforce_penalty 2 (Some 0.1) = Ok r2
    /\ 0 <= r1 /\ r1 <= r2
    /\ (2 <= 0.5 -> r2 == 0).
Proof.
  apply (gforce_penalty_monotone 0.2 2 0.1); discriminate.
Defined.

Lemma clip_strictly_inside (x : Q) :
  -100 < DeepDriveRewardCalculator.clip x ->
  DeepDriveRewardCalculator.clip x < 100 ->
  -100 < x /\ x < 100.
Proof.
  unfold DeepDriveRewardCalculator.clip, py_min, py_max.
  repeat case_cmp; lra.
Qed.

Lemma clip_linear_split (k t1 t2 : Q) :
  0 <= t1 ->
  0 <= t2 ->
  -100 < DeepDriveRewardCalculator.clip (k * (t1 + t2)) ->
  DeepDriveRewardCalculator.clip (k * (t1 + t2)) < 100 ->
  DeepDriveRewardCalculator.clip (k * (t1 + t2))
  == DeepDriveRewardCalculator.clip (k * t1)
     + DeepDriveRewardCalculator.clip (k * t2).
Proof.
  intros H1 H2 Hlo Hhi.
  destruct (clip_strictly_inside _ Hlo Hhi) as [Hlo' Hhi'].
  assert (Hk : k * (t1 + t2) == k * t1 + k * t2) by ring.
  destruct (Qlt_le_dec k 0) as [Hneg|Hpos].
  - assert (k * t1 <= 0) by nra. assert (k * t2 <= 0) by nra.
    rewrite !clip_inside by lra. exact Hk.
  - assert (0 <= k * t1) by nra. assert (0 <= k * t2) by nra.
    rewrite !clip_inside by lra. exact Hk.
Qed.

(** X7: splitting a frame does not change the speed reward.  When the
    speed reward of a time step [t1 + t2] is strictly inside the limits,
    it is the sum of the speed rewards of the time steps [t1] and [t2]
    at the same speed. *)
Theorem speed_reward_frame_split (cmps t1 t2 r : Q) :
  0 <= t1 ->
  0 <= t2 ->
  DeepDriveRewardCalculator.get_speed_reward cmps (Some (t1 + t2)) = Ok r ->
  -100 < r ->
  r < 100 ->
  exists r1 r2,
    DeepDriveRewardCalculator.get_speed_reward cmps (Some t1) = Ok r1
    /\ DeepDriveRewardCalculator.get_speed_reward cmps (Some t2) = Ok r2
    /\ r == r1 + r2.
Proof.
  intros H1 H2.
  set (kph := cmps * 3600 / 100 / 1000).
  destruct (Qlt_le_dec 4 (kph - SPEED_LIMIT_KPH)) as [Hover|Hunder];
    subst kph.
  - destruct (Qlt_le_dec
                ((cmps * 3600 / 100 / 1000 - SPEED_LIMIT_KPH) ^ 2)
                FLOAT_OVERFLOW) as [Hsq|Hsq];
      [|by rewrite speed_kph_overflow].
    rewrite !speed_kph_over by done. intros [= <-] Hlo Hhi.
    eexists; eexists. split; [reflexivity|]. split; [reflexivity|].
    set (kph := cmps * 3600 / 100 / 1000) in *.
    set (k := -1 * (2 / 10) * kph * (kph - SPEED_LIMIT_KPH) ^ 2).
    assert (E : forall t, -1 * (2 / 10) * kph * t
                          * (kph - SPEED_LIMIT_KPH) ^ 2 == k * t)
      by (intro; subst k; ring).
    rewrite (clip_proper _ _ (E (t1 + t2))) in Hlo, Hhi |- *.
    rewrite (clip_proper _ _ (E t1)), (clip_proper _ _ (E t2)).
    by apply clip_linear_split.
  - rewrite !speed_kph_under by done. intros [= <-] Hlo Hhi.
    eexists; eexists. split; [reflexivity|]. split; [reflexivity|].
    set (kph := cmps * 3600 / 100 / 1000) in *.
    set (k := 2 / 10 * kph).
    assert (E : forall t, 2 / 10 * t * kph == k * t)
      by (intro; subst k; ring).
    rewrite (clip_proper _ _ (E (t1 + t2))) in Hlo, Hhi |- *.
    rewrite (clip_proper _ _ (E t1)), (clip_proper _ _ (E t2)).
    by apply clip_linear_split.
Qed.

Lemma speed_reward_frame_split_witness :
  exists r1 r2,
    DeepDriveRewardCalculator.get_speed_reward 1000 (Some 0.1) = Ok r1
    /\ DeepDriveRewardCalculator.get_speed_reward 1000 (Some 0.2) = Ok r2
    /\ DeepDriveRewardCalculator.clip
         (2 / 10 * (0.1 + 0.2) * (1000 * 3600 / 100 / 1000))
       == r1 + r2.
Proof.
  apply (speed_reward_frame_split 1000 0.1 0.2);
    [discriminate | discriminate | reflexivity | reflexivity | reflexivity].
Defined.

(** ** The effect of a step on the scores *)
Lemma touches_refl (s s' : State) :
  score s' = score s -> heap s' = heap s -> touches id s s'.
Proof.
  intros Hs Hh. split; [done|]. rewrite Hh. symmetry. by apply list_alter_id.
Qed.

Lemma touches_trans (f g : Score.t -> Score.t) (s s1 s2 : State) :
  touches f s s1 -> touches g s1 s2 -> touches (g ∘ f) s s2.
Proof.
  intros [Hs1 Hh1] [Hs2 Hh2]. split; [congruence|].
  rewrite Hh2, Hs1, Hh1. apply list_alter_alter_eq.
Qed.

Lemma touches_the_score (f : Score.t -> Score.t) (s s' : State) :
  touches f s s' ->
  the_score s' = match heap s !! score s with
                 | Some sc => f sc
                 | None => Score.new 0
                 end.
Proof.
  intros [Hs Hh]. unfold the_score. rewrite Hs, Hh, list_lookup_alter_eq.
  by destruct (heap s !! score s).
Qed.

Lemma env_speed_reward_effect (o : Obz.t) (tp : option Q) (s s' : State)
    (r : Q) :
  get_speed_reward o tp s = (Ok r, s') ->
  clipped r /\ touches (Score.add_speed_reward r) s s'
  /\ (tp = None -> r = 0).
Proof.
  unfold get_speed_reward.
  destruct (Obz.speed o) as [speed|]; [destruct tp as [t|]|]; run.
  - destruct (DeepDriveRewardCalculator.get_speed_reward speed (Some t))
      as [r'|e] eqn:Hcalc; simpl; [|discriminate].
    apply speed_reward_clipped in Hcalc.
    intros [= <- <-]. split; [done|]. split; [by split | discriminate].
  - intros [= <- <-]. split; [split; lra|]. split; [by split | done].
  - intros [= <- <-]. split; [split; lra|]. split; [by split | done].
Qed.

Lemma env_gforce_penalty_effect (np_sqrt : Q -> Q) (o : Obz.t)
    (tp : option Q) (s s' : State) (r : Q) :
  get_gforce_penalty np_sqrt o tp s = (Ok r, s') ->
  clipped r /\ touches (Score.add_gforce_penalty r) s s'
  /\ (tp = None -> r = 0).
Proof.
  unfold get_gforce_penalty.
  destruct (Obz.acceleration o) as [a|]; [destruct tp as [t|]|]; run.
  - unfold DeepDriveRewardCalculator.get_gforce_penalty.
    destruct (Qltb _ 0); [discriminate|].
    destruct (Qgtb _ 0.5); simpl; intros [= <- <-];
      (split; [apply clip_clipped|]; split; [by split | discriminate]).
  - intros [= <- <-]. split; [split; lra|]. split; [by split | done].
  - intros [= <- <-]. split; [split; lra|]. split; [by split | done].
Qed.

Lemma env_lane_deviation_penalty_effect (o : Obz.t) (tp : option Q)
    (s s' : State) (r : Q) :
  get_lane_deviation_penalty o tp s = (Ok r, s') ->
  clipped r /\ touches (Score.add_lane_deviation_penalty r) s s'
  /\ (tp = None -> r == 0).
Proof.
  unfold get_lane_deviation_penalty.
  destruct (Obz.distance_to_center_of_lane o) as [d|]; run.
  - destruct (DeepDriveRewardCalculator.get_lane_deviation_penalty d tp)
      as [r'|e] eqn:Hcalc; simpl; [|discriminate].
    pose proof (lane_deviation_penalty_clipped _ _ _ Hcalc) as Hc.
    intros [= <- <-]. split; [done|]. split; [by split|].
    intros ->. revert Hcalc.
    unfold DeepDriveRewardCalculator.get_lane_deviation_penalty.
    destruct (Qltb d 0); [discriminate|]. by intros [= <-].
  - intros [= <- <-]. split; [split; lra|]. split; [by split | done].
Qed.

Lemma env_progress_reward_effect (o : Obz.t) (tp : option Q) (s s' : State)
    (r : Q) :
  get_progress_reward o tp s = (Ok r, s') ->
  r = 0 /\ touches (Score.add_progress_reward 0) s s'.
Proof.
  unfold get_progress_reward.
  destruct (Obz.distance_along_route o) as [d|]; run.
  - destruct (DeepDriveRewardCalculator.get_progress_reward _ _);
      [|discriminate].
    intros [= <- <-]. by split.
  - intros [= <- <-]. by split.
Qed.

(** The effect of a reward computation that returns. *)
Lemma get_reward_effect (np_sqrt : Q -> Q) (clock : nat -> Q)
    (obz : option Obz.t) (now : Q) (s s' : State) (r : Q) :
  get_reward np_sqrt clock obz now s = (Ok r, s') ->
  exists f,
    touches f s s'
    /\ -300 <= r <= 300
    /\ (forall sc, accounted sc -> accounted (f sc))
    /\ (forall sc, Score.total (f sc) == Score.total sc + r)
    /\ (prev_step_time s = None -> r == 0).
Proof.
  unfold get_reward.
  assert (Hid : forall st : State, score st = score s -> heap st = heap s ->
            (Ok 0, st) = (Ok r, s') ->
            exists f, touches f s s' /\ -300 <= r <= 300
              /\ (forall sc, accounted sc -> accounted (f sc))
              /\ (forall sc, Score.total (f sc) == Score.total sc + r)
              /\ (prev_step_time s = None -> r == 0)).
  { intros st Hs Hh [= <- <-]. exists id.
    split; [by apply touches_refl|]. split; [lra|].
    split; [done|]. split; [intro; simpl; lra | done]. }
  destruct obz as [o|]; [|by apply Hid].
  destruct (Obz.nonempty o); [|by apply Hid].
  unfold mbind at 1, M_bind at 1, gets at 1.
  unfold mbind at 1, M_bind at 1, time_time at 1.
  unfold mbind at 1, M_bind at 1, gets at 1.
  cbn [start_time set_ticks].
  set (tp := match prev_step_time s with
             | Some p => Some (now - p)
             | None => None
             end).
  set (s0 := set_ticks (S (ticks s)) s).
  assert (H0 : touches id s s0) by (by apply touches_refl).
  destruct (Qltb (clock (ticks s) - start_time s) 2.5).
  - run. intros [= <- <-]. exists (Score.add_total 0).
    split; [by split|]. split; [lra|].
    split; [unfold accounted; intro; simpl; lra|].
    split; [intro; simpl; lra | done].
  - unfold mbind at 1, M_bind at 1. unfold mbind at 1, M_bind at 1.
    destruct (get_progress_reward o tp s0) as [[p|e] s1] eqn:Hp;
      [|discriminate].
    apply env_progress_reward_effect in Hp as [-> T1].
    unfold mbind at 1, M_bind at 1.
    destruct (get_gforce_penalty np_sqrt o tp s1) as [[g|e] s2] eqn:Hg;
      [|discriminate].
    apply env_gforce_penalty_effect in Hg as (Cg & T2 & Hg0).
    unfold mbind at 1, M_bind at 1.
    destruct (get_lane_deviation_penalty o tp s2) as [[l|e] s3] eqn:Hl;
      [|discriminate].
    apply env_lane_deviation_penalty_effect in Hl as (Cl & T3 & Hl0).
    unfold mbind at 1, M_bind at 1.
    destruct (get_speed_reward o tp s3) as [[sp|e] s4] eqn:Hsp;
      [|discriminate].
    pose proof Hsp as Hsp'.
    apply env_speed_reward_effect in Hsp as (Csp & T4 & Hsp0).
    run. intros [= <- <-].
    eexists. split.
    { eapply touches_trans;
        [eapply touches_trans;
           [eapply touches_trans;
              [eapply touches_trans;
                 [eapply touches_trans; [exact H0 | exact T1]
                 | exact T2]
              | exact T3]
           | exact T4]
        | by split]. }
    destruct Cg, Cl, Csp.
    split; [lra|].
    split; [unfold accounted; intro; simpl; lra|].
    split; [intro; simpl; lra|].
    intros Hnone. subst tp. rewrite Hnone in *.
    rewrite (Hsp0 eq_refl), (Hg0 eq_refl), (Hl0 eq_refl). lra.
Qed.

Lemma benchmark_grows_steps (np_sqrt : Q -> Q) (clock : nat -> Q)
    (test_benchmark_write : bool) (captures : list capture_step) :
  follows benchmark_grows
    (run_steps np_sqrt clock test_benchmark_write captures).
Proof.
  apply follows_run_steps.
  - intro s. by repeat split.
  - intros s1 s2 s3 (P1 & D1 & B1) (P2 & D2 & B2).
    split; [by etrans|]. split; [auto | congruence].
  - intros s s' _ _ Ht Hb Hd. split; [by rewrite Ht|]. by split.
  - intros f s _. by repeat split.
  - intros f s _. by repeat split.
  - intros clock' s. unfold log_benchmark_trial. run.
    split; [by apply prefix_app_r|]. by split.
Qed.

Lemma only_current_score_steps (np_sqrt : Q -> Q) (clock : nat -> Q)
    (test_benchmark_write : bool) (captures : list capture_step) :
  follows only_current_score
    (run_steps np_sqrt clock test_benchmark_write captures).
Proof.
  apply follows_run_steps.
  - intro s. by repeat split.
  - intros s1 s2 s3 (S1 & L1 & F1) (S2 & L2 & F2).
    split; [congruence|]. split; [congruence|].
    intros i Hi. rewrite F2, F1; congruence.
  - intros s s' Hs Hh _ _ _. split; [done|]. by rewrite Hh.
  - intros f s _. simpl. split; [done|]. split; [apply length_alter|].
    intros i Hi. by apply list_lookup_alter_ne.
  - intros f s _. simpl. split; [done|]. split; [apply length_alter|].
    intros i Hi. by apply list_lookup_alter_ne.
  - intros clock' s. unfold log_benchmark_trial. run.
    split; [done|]. split; [apply length_alter|].
    intros i Hi. by apply list_lookup_alter_ne.
Qed.

Lemma wf_scores_same (s s' : State) :
  score s' = score s -> heap s' = heap s ->
  trial_scores s' = trial_scores s ->
  wf_scores s -> wf_scores s'.
Proof. intros Hs Hh Ht. unfold wf_scores. by rewrite Hs, Hh, Ht. Qed.

Lemma wf_scores_alter (f : Score.t -> Score.t) (s : State) :
  (forall sc, is_Some (Score.end_time sc) -> is_Some (Score.end_time (f sc))) ->
  wf_scores s ->
  wf_scores (set_heap (alter f (score s) (heap s)) s).
Proof.
  intros Hf [Hscore Htrials]. split; simpl.
  - by rewrite length_alter.
  - eapply Forall_impl; [exact Htrials|]. simpl.
    intros r (sc & Hr & Hend).
    destruct (decide (r = score s)) as [->|Hne].
    + exists (f sc). rewrite list_lookup_alter_eq, Hr. split; [done|auto].
    + exists sc. by rewrite list_lookup_alter_ne.
Qed.

Lemma wf_scores_log (clock : nat -> Q) (s : State) :
  wf_scores s -> wf_scores (snd (log_benchmark_trial clock s)).
Proof.
  intros Hwf. unfold log_benchmark_trial. run.
  pose proof (wf_scores_alter (Score.set_end_time (Some (clock (ticks s))))
                s ltac:(intros; by eexists) Hwf) as [Hscore Htrials].
  simpl in *. split; simpl; [done|].
  apply Forall_app. split; [done|].
  apply Forall_singleton.
  destruct Hwf as [Hlt _].
  apply lookup_lt_is_Some in Hlt as [sc Hsc].
  eexists. rewrite list_lookup_alter_eq, Hsc. simpl. split; [done|].
  by eexists.
Qed.

Lemma wf_scores_steps (np_sqrt : Q -> Q) (clock : nat -> Q)
    (test_benchmark_write : bool) (captures : list capture_step) :
  follows keeps_wf_scores
    (run_steps np_sqrt clock test_benchmark_write captures).
Proof.
  apply follows_run_steps.
  - intros s H. exact H.
  - intros s1 s2 s3 H1 H2 H. apply H2, H1, H.
  - intros s s' Hs Hh Ht _ _ H. by apply (wf_scores_same s).
  - intros f s Hf H. apply wf_scores_alter; [|done].
    intros sc. by rewrite Hf.
  - intros f s Hf H. apply wf_scores_alter; [|done].
    intros sc. by destruct (Hf sc) as [-> _].
  - intros clock' s H. by apply wf_scores_log.
Qed.

Lemma reset_effect (clock : nat -> Q) (s : State) :
  exists s',
    _reset clock s = (Ok tt, s')
    /\ heap s' = heap s ++ [Score.new (clock (ticks s))]
    /\ score s' = length (heap s)
    /\ trial_scores s' = trial_scores s
    /\ should_benchmark s' = should_benchmark s
    /\ done_benchmarking s' = done_benchmarking s
    /\ last_forward_progress_time s' = last_forward_progress_time s
    /\ steps_crawling s' = steps_crawling s
    /\ steps_crawling_with_throttle_on s'
       = steps_crawling_with_throttle_on s
    /\ prev_step_time s' = None
    /\ lap_number s' = None
    /\ start_time s' = clock (S (ticks s)).
Proof. eexists. unfold _reset, new_Score. run. repeat split. Qed.

(** ** The reward of a step *)

(** X8: the reward that a step returns lies in [[-300, 10300]], and it is
    above 300 only on a step that ends the episode. *)
Theorem step_reward_bounded (np_sqrt : Q -> Q) (clock : nat -> Q)
    (test_benchmark_write : bool) (capture : capture_step) (s s' : State)
    (obz : option Obz.t) (r : Q) (done : bool) :
  _step np_sqrt clock test_benchmark_write capture s
  = (Ok (obz, r, done), s') ->
  -300 <= r <= 10300 /\ (300 < r -> done = true).
Proof.
  intros H.
  destruct (step_inversion _ _ _ _ _ _ _ _ _ H)
    as (computed & lap_done & stuck & s1 & s2 & s3
        & _ & Hreward & _ & _ & -> & ->).
  destruct (get_reward_effect _ _ _ _ _ _ _ Hreward) as (f & _ & Hr & _).
  destruct stuck; (split; [lra|]); [done | intro; lra].
Qed.

Lemma step_reward_bounded_witness :
  exists obz r done s',
    _step Samples.sqrt6 (Samples.clock_every 1) false
      (Captured (Some Samples.stalled)) (__init__ (Samples.clock_every 1))
    = (Ok (obz, r, done), s')
    /\ -300 <= r <= 10300 /\ (300 < r -> done = true).
Proof.
  assert (Hrun : exists obz r done s',
            _step Samples.sqrt6 (Samples.clock_every 1) false
              (Captured (Some Samples.stalled))
              (__init__ (Samples.clock_every 1))
            = (Ok (obz, r, done), s'))
    by (do 4 eexists; vm_compute; reflexivity).
  destruct Hrun as (obz & r & done & s' & Hrun).
  exists obz, r, done, s'. split; [exact Hrun|].
  exact (step_reward_bounded _ _ _ _ _ _ _ _ _ Hrun).
Defined.

(** X9: the accumulators of the score account for its total.  If
    [total = progress_reward + speed_reward - gforce_penalty -
    lane_deviation_penalty] holds of [self.score] before a reward
    computation that returns, it holds after it, and the total has grown
    by the reward returned. *)
Theorem score_stays_accounted (np_sqrt : Q -> Q) (clock : nat -> Q)
    (obz : option Obz.t) (now : Q) (s s' : State) (r : Q) :
  accounted (the_score s) ->
  get_reward np_sqrt clock obz now s = (Ok r, s') ->
  accounted (the_score s')
  /\ ((score s < length (heap s))%nat ->
      Score.total (the_score s') == Score.total (the_score s) + r).
Proof.
  intros Hacc H.
  destruct (get_reward_effect _ _ _ _ _ _ _ H)
    as (f & Htouch & _ & Hf & Htotal & _).
  rewrite (touches_the_score f s s' Htouch).
  unfold the_score in *.
  destruct (heap s !! score s) as [sc|] eqn:Hsc; simpl in *.
  - split; [by apply Hf | intros _; apply Htotal].
  - split; [done|]. intro Hlt.
    apply lookup_lt_is_Some in Hlt as [sc Hsc']. congruence.
Qed.

Lemma score_stays_accounted_witness :
  let clock := Samples.clock_every 1 in
  let s1 :=
    Samples.after
      (_step Samples.sqrt6 clock false
         (Captured (Some (Samples.driving 0 0))))
      (__init__ clock) in
  exists r s2,
    get_reward Samples.sqrt6 clock
      (Some (Obz.with_cameras (Samples.driving 500 0))) 6 s1 = (Ok r, s2)
    /\ accounted (the_score s2)
    /\ ((score s1 < length (heap s1))%nat ->
        Score.total (the_score s2) == Score.total (the_score s1) + r).
Proof.
  cbv zeta. eexists; eexists. split; [vm_compute; reflexivity|].
  apply (score_stays_accounted Samples.sqrt6 (Samples.clock_every 1)
           (Some (Obz.with_cameras (Samples.driving 500 0))) 6).
  - reflexivity.
  - vm_compute. reflexivity.
Defined.

(** X10: without a previous step there is no reward.  While
    [prev_step_time] is [None], a reward computation that returns returns
    0, in or out of the grace period and whatever the snapshot holds. *)
Theorem first_step_reward_zero (np_sqrt : Q -> Q) (clock : nat -> Q)
    (obz : option Obz.t) (now : Q) (s s' : State) (r : Q) :
  prev_step_time s = None ->
  get_reward np_sqrt clock obz now s = (Ok r, s') ->
  r == 0.
Proof.
  intros Hprev H.
  destruct (get_reward_effect _ _ _ _ _ _ _ H) as (f & _ & _ & _ & _ & H0).
  by apply H0.
Qed.

Lemma first_step_reward_zero_witness :
  exists r s',
    get_reward Samples.sqrt6 (Samples.clock_every 1)
      (Some (Obz.with_cameras (Samples.driving 900 0))) 3
      (Samples.after (time_time (Samples.clock_every 1))
         (__init__ (Samples.clock_every 1)))
    = (Ok r, s')
    /\ r == 0.
Proof.
  eexists; eexists. split; [vm_compute; reflexivity|].
  eapply (first_step_reward_zero Samples.sqrt6 (Samples.clock_every 1)
            (Some (Obz.with_cameras (Samples.driving 900 0))) 3
            (Samples.after (time_time (Samples.clock_every 1))
               (__init__ (Samples.clock_every 1)))).
  - reflexivity.
  - vm_compute. reflexivity.
Defined.

(** A step whose capture fails: no snapshot, no reward, and the episode
    goes on. *)
Lemma capture_error_step (np_sqrt : Q -> Q) (clock : nat -> Q)
    (s : State) :
  _step np_sqrt clock false CaptureSystemError s
  = (Ok (None, 0, false),
     set_step_num (step_num s + 1)%Z
       (set_prev_step_time (Some (clock (ticks s)))
          (set_ticks (S (ticks s)) s))).
Proof. reflexivity. Qed.

(** ** The stuck detector *)













(** ** The lap tracker *)

(** X14: the lap tracker when no lap completes.  On a snapshot whose lap
    number is absent or not above the one recorded, it returns [done] as
    given and only records the snapshot's lap number; after a snapshot
    without lap number the next snapshot cannot complete a lap. *)
Theorem lap_not_completed (clock : nat -> Q) (done : bool) (o : Obz.t)
    (s : State) :
  Obz.nonempty o = true ->
  match Obz.lap_number o, lap_number s with
  | Some new_lap, Some old_lap => (new_lap <= old_lap)%Z
  | _, _ => True
  end ->
  compute_lap_statistics clock done (Some o) s
  = (Ok done, set_lap_number (Obz.lap_number o) s)
  /\ (Obz.lap_number o = None ->
      forall done' o',
        Obz.nonempty o' = true ->
        compute_lap_statistics clock done' (Some o')
          (set_lap_number (Obz.lap_number o) s)
        = (Ok done',
           set_lap_number (Obz.lap_number o')
             (set_lap_number (Obz.lap_number o) s))).
Proof.
  intros Hne Hlaps.
  assert (Hgeneral : forall d o1 s1,
    Obz.nonempty o1 = true ->
    match Obz.lap_number o1, lap_number s1 with
    | Some new_lap, Some old_lap => (new_lap <= old_lap)%Z
    | _, _ => True
    end ->
    compute_lap_statistics clock d (Some o1) s1
    = (Ok d, set_lap_number (Obz.lap_number o1) s1)).
  { intros d o1 s1 Hne1 Hlaps1.
    unfold compute_lap_statistics. rewrite Hne1. run.
    destruct (Obz.lap_number o1) as [new_lap|]; [|reflexivity].
    destruct (lap_number s1) as [old_lap|]; [|reflexivity].
    apply Z.ltb_ge in Hlaps1. by rewrite Hlaps1. }
  split; [by apply Hgeneral|].
  intros Hnone done' o' Hne'. apply Hgeneral; [done|].
  simpl. rewrite Hnone. by destruct (Obz.lap_number o').
Qed.

Lemma lap_not_completed_witness :
  let clock := Samples.clock_every 1 in
  let o := Obz.with_cameras (Samples.route_only 700) in
  let s := Samples.benchmarking_in_lap_0 clock in
  compute_lap_statistics clock false (Some o) s
  = (Ok false, set_lap_number None s)
  /\ compute_lap_statistics clock false
       (Some (Obz.with_cameras (Samples.driving 0 1)))
       (set_lap_number None s)
     = (Ok false, set_lap_number (Some 1%Z) (set_lap_number None s)).
Proof.
  cbv zeta.
  destruct (lap_not_completed (Samples.clock_every 1) false
              (Obz.with_cameras (Samples.route_only 700))
              (Samples.benchmarking_in_lap_0 (Samples.clock_every 1)))
    as [Hfirst Hnext]; [reflexivity | exact I |].
  split; [exact Hfirst|].
  apply (Hnext eq_refl false (Obz.with_cameras (Samples.driving 0 1))).
  reflexivity.
Defined.

(** X15: the lap tracker when a lap completes.  On a snapshot whose lap
    number is above the one recorded it returns
    [should_benchmark or should_end_on_lap or done], records the lap
    number and the score total as [prev_lap_score], and without
    benchmarking touches neither the trial list nor any score. *)
Theorem lap_completed_outcome (clock : nat -> Q) (done : bool) (o : Obz.t)
    (s : State) (new_lap old_lap : Z) :
  Obz.nonempty o = true ->
  Obz.lap_number o = Some new_lap ->
  lap_number s = Some old_lap ->
  (old_lap < new_lap)%Z ->
  exists s',
    compute_lap_statistics clock done (Some o) s
    = (Ok (should_benchmark s || should_end_on_lap s || done), s')
    /\ prev_lap_score s' = Score.total (the_score s)
    /\ lap_number s' = Some new_lap
    /\ (should_benchmark s = false ->
        trial_scores s' = trial_scores s /\ heap s' = heap s).
Proof.
  intros Hne Hnew Hold Hlt. apply Z.ltb_lt in Hlt.
  unfold compute_lap_statistics. rewrite Hne, Hnew.
  run. rewrite Hold, Hlt. simpl.
  destruct (should_benchmark s) eqn:Hb; run.
  - destruct (length (trial_scores s ++ [score s]) =? 1000)%nat; simpl;
      (destruct (should_end_on_lap s); eexists; repeat split;
       discriminate).
  - destruct (should_end_on_lap s), done; eexists; by repeat split.
Qed.

Lemma lap_completed_outcome_witness :
  let clock := Samples.clock_every 1 in
  let s := set_should_benchmark false (Samples.benchmarking_in_lap_0 clock) in
  exists s',
    compute_lap_statistics clock false
      (Some (Obz.with_cameras (Samples.driving 0 1))) s
    = (Ok (should_benchmark s || should_end_on_lap s || false), s')
    /\ prev_lap_score s' = Score.total (the_score s)
    /\ lap_number s' = Some 1%Z
    /\ (should_benchmark s = false ->
        trial_scores s' = trial_scores s /\ heap s' = heap s).
Proof.
  cbv zeta.
  apply (lap_completed_outcome (Samples.clock_every 1) false
           (Obz.with_cameras (Samples.driving 0 1))
           (set_should_benchmark false
              (Samples.benchmarking_in_lap_0 (Samples.clock_every 1)))
           1 0);
    reflexivity.
Defined.

(** ** Scores across steps and resets *)

(** X16: the benchmark record only grows.  Across any number of steps, and
    across a reset, the trials recorded stay in the list in their order,
    the done flag is not cleared, and [should_benchmark] is not changed. *)
Theorem benchmark_record_grows (np_sqrt : Q -> Q) (clock : nat -> Q)
    (test_benchmark_write : bool) (captures : list capture_step)
    (s : State) :
  benchmark_grows s
    (Samples.after (run_steps np_sqrt clock test_benchmark_write captures) s)
  /\ benchmark_grows s (Samples.after (_reset clock) s).
Proof.
  split; [apply benchmark_grows_steps|].
  destruct (reset_effect clock s)
    as (s' & Hrun & _ & _ & Ht & Hb & Hd & _).
  unfold Samples.after. rewrite Hrun. simpl.
  split; [by rewrite Ht|]. split; [by rewrite Hd | done].
Qed.

(** X17: the scores stay well formed.  If [self.score] names an object and
    every recorded trial names an object whose [end_time] is set, the
    same holds after any number of steps and after a reset. *)
Theorem scores_stay_well_formed (np_sqrt : Q -> Q) (clock : nat -> Q)
    (test_benchmark_write : bool) (captures : list capture_step)
    (s : State) :
  wf_scores s ->
  wf_scores
    (Samples.after (run_steps np_sqrt clock test_benchmark_write captures) s)
  /\ wf_scores (Samples.after (_reset clock) s).
Proof.
  intros Hwf. split; [by apply wf_scores_steps|].
  destruct (reset_effect clock s) as (s' & Hrun & Hh & Hs & Ht & _).
  unfold Samples.after. rewrite Hrun. simpl.
  destruct Hwf as [Hscore Htrials]. split.
  - rewrite Hs, Hh, length_app. simpl. lia.
  - rewrite Ht, Hh. eapply Forall_impl; [exact Htrials|]. simpl.
    intros r (sc & Hr & Hend). exists sc. split; [|done].
    by apply lookup_app_l_Some.
Qed.

Lemma scores_stay_well_formed_witness :
  let clock := Samples.clock_every 1 in
  wf_scores
    (Samples.after
       (run_steps Samples.sqrt6 clock false
          [Captured (Some (Samples.driving 0 0));
           Captured (Some (Samples.driving 500 1))])
       (Samples.benchmarking clock))
  /\ wf_scores (Samples.after (_reset clock) (Samples.benchmarking clock)).
Proof.
  cbv zeta.
  apply (scores_stay_well_formed Samples.sqrt6 (Samples.clock_every 1) false).
  split; [simpl; lia | constructor].
Defined.

(** X18: a reset freezes the trials recorded so far.  After [_reset] the
    steps work on a fresh [Score], so every trial recorded before the
    reset is in the end the object it was at the reset. *)
Theorem reset_freezes_recorded_trials (np_sqrt : Q -> Q) (clock : nat -> Q)
    (test_benchmark_write : bool) (captures : list capture_step)
    (s : State) (r : nat) :
  wf_scores s ->
  r ∈ trial_scores s ->
  heap (Samples.after
          (run_steps np_sqrt clock test_benchmark_write captures)
          (Samples.after (_reset clock) s)) !! r
  = heap s !! r.
Proof.
  intros [Hscore Htrials] Hr.
  destruct (reset_effect clock s) as (s1 & Hrun & Hh & Hs & _).
  unfold Samples.after at 2. rewrite Hrun. simpl.
  destruct (only_current_score_steps np_sqrt clock test_benchmark_write
              captures s1) as (_ & _ & Hframe).
  rewrite Forall_forall in Htrials.
  destruct (Htrials r Hr) as (sc & Hsc & _).
  assert (Hlt : (r < length (heap s))%nat)
    by (apply lookup_lt_is_Some; by eexists).
  unfold Samples.after. rewrite Hframe by lia.
  rewrite Hh. by apply lookup_app_l.
Qed.

Lemma reset_freezes_recorded_trials_witness :
  let clock := Samples.clock_every 1 in
  let s :=
    Samples.after
      (compute_lap_statistics clock false
         (Some (Obz.with_cameras (Samples.driving 0 1))))
      (Samples.benchmarking_in_lap_0 clock) in
  heap (Samples.after
          (run_steps Samples.sqrt6 clock false
             [Captured (Some (Samples.driving 0 0));
              Captured (Some (Samples.driving 500 0))])
          (Samples.after (_reset clock) s)) !! 0%nat
  = heap s !! 0%nat.
Proof.
  cbv zeta.
  apply (reset_freezes_recorded_trials Samples.sqrt6 (Samples.clock_every 1)
           false).
  - split; [simpl; lia|].
    apply Forall_cons. split; [|apply Forall_nil_2].
    eexists. split; [reflexivity|]. eexists. reflexivity.
  - apply list_elem_of_here.
Defined.

Lemma get_reward_keeps_trials (np_sqrt : Q -> Q) (clock : nat -> Q)
    (obz : option Obz.t) (now : Q) (s : State) :
  trial_scores (snd (get_reward np_sqrt clock obz now s)) = trial_scores s.
Proof.
  apply (follows_get_reward
           (fun s s' => trial_scores s' = trial_scores s)); try done.
  intros s1 s2 s3 H12 H23. by rewrite H23.
Qed.

(** X19: until the reset, a recorded trial is the running score itself.
    After a lap completion while benchmarking the last entry of the trial
    list is the object [self.score], and a later reward computation adds
    its reward to that recorded trial. *)
Theorem recorded_trial_is_live (np_sqrt : Q -> Q) (clock : nat -> Q)
    (done : bool) (o : Obz.t) (s : State) (new_lap old_lap : Z) :
  Obz.nonempty o = true ->
  Obz.lap_number o = Some new_lap ->
  lap_number s = Some old_lap ->
  (old_lap < new_lap)%Z ->
  should_benchmark s = true ->
  (score s < length (heap s))%nat ->
  exists s1,
    compute_lap_statistics clock done (Some o) s = (Ok true, s1)
    /\ last (trial_scores s1) = Some (score s1)
    /\ forall obz now r s2,
         get_reward np_sqrt clock obz now s1 = (Ok r, s2) ->
         exists before after,
           heap s1 !! score s1 = Some before
           /\ heap s2 !! score s1 = Some after
           /\ last (trial_scores s2) = Some (score s1)
           /\ Score.total after == Score.total before + r.
Proof.
  intros Hne Hnew Hold Hlt Hb Hscore. apply Z.ltb_lt in Hlt.
  unfold compute_lap_statistics. rewrite Hne, Hnew.
  run. rewrite Hold, Hlt. simpl. rewrite Hb. run.
  assert (Hfinish : forall s1,
    score s1 = score s ->
    length (heap s1) = length (heap s) ->
    trial_scores s1 = trial_scores s ++ [score s] ->
    last (trial_scores s1) = Some (score s1)
    /\ forall obz now r s2,
         get_reward np_sqrt clock obz now s1 = (Ok r, s2) ->
         exists before after,
           heap s1 !! score s1 = Some before
           /\ heap s2 !! score s1 = Some after
           /\ last (trial_scores s2) = Some (score s1)
           /\ Score.total after == Score.total before + r).
  { intros s1 Hs1 Hlen Htrials.
    assert (Hlast : last (trial_scores s1) = Some (score s1))
      by (by rewrite Htrials, last_snoc, Hs1).
    split; [done|].
    intros obz now r s2 Hreward.
    destruct (get_reward_effect _ _ _ _ _ _ _ Hreward)
      as (f & [Hs2 Hh2] & _ & _ & Htotal & _).
    assert (Hlt1 : (score s1 < length (heap s1))%nat) by lia.
    apply lookup_lt_is_Some in Hlt1 as [before Hbefore].
    exists before, (f before).
    rewrite Hh2, list_lookup_alter_eq, Hbefore.
    split; [done|]. split; [done|]. split.
    - pose proof (get_reward_keeps_trials np_sqrt clock obz now s1) as Hk.
      rewrite Hreward in Hk. simpl in Hk. by rewrite Hk.
    - apply Htotal. }
  destruct (length (trial_scores s ++ [score s]) =? 1000)%nat; simpl;
    destruct (should_end_on_lap s); eexists;
    (split; [reflexivity|]); apply Hfinish; simpl;
    first [done | apply length_alter].
Qed.

Lemma recorded_trial_is_live_witness :
  let clock := Samples.clock_every 1 in
  let s := Samples.benchmarking_in_lap_0 clock in
  exists s1,
    compute_lap_statistics clock false
      (Some (Obz.with_cameras (Samples.driving 0 1))) s = (Ok true, s1)
    /\ last (trial_scores s1) = Some (score s1)
    /\ forall obz now r s2,
         get_reward Samples.sqrt6 clock obz now s1 = (Ok r, s2) ->
         exists before after,
           heap s1 !! score s1 = Some before
           /\ heap s2 !! score s1 = Some after
           /\ last (trial_scores s2) = Some (score s1)
           /\ Score.total after == Score.total before + r.
Proof.
  cbv zeta.
  apply (recorded_trial_is_live Samples.sqrt6 (Samples.clock_every 1) false
           (Obz.with_cameras (Samples.driving 0 1))
           (Samples.benchmarking_in_lap_0 (Samples.clock_every 1)) 1 0);
    first [reflexivity | simpl; lia].
Defined.

(** ** Connecting *)

Section ConnectStages.

Variable create_replies : nat -> create_reply.
Variable random_draws : nat -> Q.
Variable register_replies : nat -> Z.
Variable reset_replies : nat -> bool.
Variable SIM_START_COMMAND : bool.

(** What [_connect] leaves alone, and the call it makes. *)
Lemma _connect_frame (s : Conn) :
  let s' := snd (_connect create_replies s) in
  create_calls s' = S (create_calls s)
  /\ connection_props s' = create_replies (create_calls s)
  /\ slept s' = slept s
  /\ random_calls s' = random_calls s
  /\ register_calls s' = register_calls s
  /\ reset_calls s' = reset_calls s.
Proof.
  unfold _connect. run_conn.
  destruct (create_replies (create_calls s)) as [n| |p]; simpl; [done|done|].
  destruct (Props.max_capture_resolution p) as [r|]; simpl; [|done].
  destruct (r =? 0)%Z; simpl; [done|].
  by destruct (negb _).
Qed.

(** What the retry loop leaves alone. *)
Lemma connect_retry_frame (fuel : nat) :
  forall (a : nat) (cams : option (list camera)) (s : Conn),
    let s' := snd (connect_retry create_replies random_draws fuel a cams s) in
    register_calls s' = register_calls s
    /\ reset_calls s' = reset_calls s.
Proof.
  induction fuel as [|fuel IH]; intros a cams s;
    (destruct (reply_truthy (connection_props s)) eqn:Hp;
     [by rewrite connect_retry_left|]).
  - simpl. run_conn. by rewrite Hp.
  - cbv zeta. rewrite connect_retry_iteration by done.
    match goal with
    | |- context [_connect _ ?st] =>
        pose proof (_connect_frame st) as (_ & _ & _ & _ & Hreg & Hres);
        destruct (_connect create_replies st) as [[[]|e] s1]
    end; simpl in Hreg, Hres; [|done].
    destruct (max_cxn_attempts <=? a + 1)%nat; [done|].
    match goal with
    | |- context [connect_retry _ _ fuel ?a' ?c ?st] =>
        destruct (IH a' c st) as [H1 H2]
    end.
    cbv zeta in *. by rewrite H1, H2.
Qed.

(** The loop hands back the cameras it was given, or the default camera
    when it was given none and has retried. *)
Lemma connect_retry_cameras (fuel : nat) :
  forall (a : nat) (cams cams' : option (list camera)) (s s' : Conn),
    connect_retry create_replies random_draws fuel a cams s
    = (Ok (Some cams'), s') ->
    reply_truthy (connection_props s') = true
    /\ (cams' = cams \/ cams = None /\ cams' = Some [default_cam]).
Proof.
  induction fuel as [|fuel IH]; intros a cams cams' s s';
    (destruct (reply_truthy (connection_props s)) eqn:Hp;
     [rewrite connect_retry_left by done; intros [= <- <-]; by split; [|left]
     |]).
  - simpl. run_conn. by rewrite Hp.
  - rewrite connect_retry_iteration by done.
    destruct (_connect create_replies _) as [[[]|e] s1]; [|done].
    destruct (max_cxn_attempts <=? a + 1)%nat; [done|].
    intros Hrun. destruct (IH _ _ _ _ _ Hrun) as [Hprops Hcams].
    split; [done|].
    destruct cams as [l|]; simpl in Hcams.
    + destruct Hcams as [->|[? _]]; [by left | done].
    + destruct Hcams as [->|[? _]]; [by right | done].
Qed.

(** Registration visits the cameras in order: it raises on the first one
    that is not a dict, and gives each dict the next handle. *)
Lemma register_cameras_run (cams : list camera) :
  forall (pre : list camera) (s s' : Conn),
    cameras s = Some (pre ++ cams) ->
    register_cameras register_replies cams (length pre) s = (Ok tt, s') ->
    Forall (fun c => c <> CameraObject) cams
    /\ cameras s'
       = Some (pre ++ registered register_replies (register_calls s) cams)
    /\ register_calls s' = (register_calls s + length cams)%nat
    /\ client_id s' = client_id s
    /\ connection_props s' = connection_props s
    /\ has_control s' = has_control s.
Proof.
  induction cams as [|cam rest IH]; intros pre s s' Hcams.
  - simpl. intros [= <-]. rewrite Nat.add_0_r. by repeat split.
  - destruct cam as [|id]; [done|].
    simpl. run_conn. rewrite Hcams. simpl.
    rewrite insert_app_r_alt by lia.
    replace (length pre - length pre)%nat with 0%nat by lia. simpl.
    match goal with
    | |- register_cameras _ _ _ ?st = _ -> _ =>
        remember st as s1 eqn:Hs1;
        assert (Hc1 : cameras s1
                      = Some ((pre ++ [CameraDict
                                 (Some (register_replies (register_calls s)))])
                              ++ rest))
          by (subst s1; simpl; by rewrite <- app_assoc);
        assert (Hr1 : register_calls s1 = S (register_calls s))
          by (by subst s1);
        assert (Hi1 : client_id s1 = client_id s) by (by subst s1);
        assert (Hp1 : connection_props s1 = connection_props s)
          by (by subst s1);
        assert (Hh1 : has_control s1 = has_control s) by (by subst s1);
        clear Hs1
    end.
    replace (S (length pre))
      with (length (pre ++ [CameraDict
                      (Some (register_replies (register_calls s)))]))
      by (rewrite length_app; simpl; lia).
    intros Hrun.
    destruct (IH _ _ _ Hc1 Hrun) as (Hall & Hc & Hr & Hi & Hp & Hh).
    split; [by constructor|].
    rewrite Hc, Hr, Hi, Hp, Hh, Hr1, Hi1, Hp1, Hh1.
    split; [|by repeat split; lia].
    rewrite <- app_assoc. simpl. unfold registered. simpl.
    rewrite Nat.add_0_r. do 3 f_equal.
    apply imap_ext. intros i c _. simpl. do 3 f_equal. lia.
Qed.

(** What the capture bootstrap leaves alone. *)
Lemma reset_capture_loop_frame (n : nat) :
  forall (sleep : Q) (s : Conn),
    let s' := snd (reset_capture_loop reset_replies SIM_START_COMMAND
                     n sleep s) in
    cameras s' = cameras s
    /\ register_calls s' = register_calls s
    /\ client_id s' = client_id s
    /\ connection_props s' = connection_props s
    /\ create_calls s' = create_calls s
    /\ has_control s' = has_control s.
Proof.
  induction n as [|n IH]; intros sleep s; simpl.
  - unfold raise_connect_fail. by destruct SIM_START_COMMAND.
  - run_conn. destruct (reset_replies (reset_calls s)); [done|].
    match goal with
    | |- context [reset_capture_loop _ _ n ?sl ?st] =>
        destruct (IH sl st) as (H1 & H2 & H3 & H4 & H5 & H6)
    end.
    cbv zeta in *. by rewrite H1, H2, H3, H4, H5, H6.
Qed.

(** The stages of a [connect] that returns. *)
Lemma connect_inversion (fuel : nat) (cams0 : option (list camera))
    (s s' : Conn) :
  connect create_replies random_draws register_replies reset_replies
    SIM_START_COMMAND fuel cams0 s = (Ok (Some tt), s') ->
  exists s1 s2 s3 s4 cams' cams id,
    _connect create_replies s = (Ok tt, s1)
    /\ connect_retry create_replies random_draws fuel 0 cams0 s1
       = (Ok (Some cams'), s2)
    /\ client_id s2 = Some id /\ (0 < id)%Z
    /\ cams' = Some cams
    /\ register_cameras register_replies cams 0 (set_cameras cams' s2)
       = (Ok tt, s3)
    /\ reset_capture reset_replies SIM_START_COMMAND s3 = (Ok tt, s4)
    /\ s' = set_has_control (Some false) s4.
Proof.
  unfold connect.
  unfold mbind at 1, M_bind at 1.
  destruct (_connect create_replies s) as [[[]|e] s1] eqn:H1; [|done].
  unfold mbind at 1, M_bind at 1.
  destruct (connect_retry create_replies random_draws fuel 0 cams0 s1)
    as [[[cams'|]|e] s2] eqn:H2; [|done|done].
  run_conn.
  destruct (client_id s2) as [id|] eqn:Hid.
  2: { unfold raise_connect_fail. by destruct SIM_START_COMMAND. }
  destruct (0 <? id)%Z eqn:Hpos.
  2: { unfold raise_connect_fail. by destruct SIM_START_COMMAND. }
  apply Z.ltb_lt in Hpos.
  destruct cams' as [cams|]; simpl; [|done].
  destruct (register_cameras register_replies cams 0 _)
    as [[[]|e] s3] eqn:Hreg; [|done].
  destruct (reset_capture reset_replies SIM_START_COMMAND s3)
    as [[[]|e] s4] eqn:Hres; [|done].
  intros [= <-].
  exists s1, s2, s3, s4, (Some cams), cams, id.
  by repeat split.
Qed.

Lemma connect_succeeded (fuel : nat) (cams0 : option (list camera))
    (s s' : Conn) :
  connect create_replies random_draws register_replies reset_replies
    SIM_START_COMMAND fuel cams0 s = (Ok (Some tt), s') ->
  exists cams id,
    cams0 = Some cams
    /\ Forall (fun c => c <> CameraObject) cams
    /\ cameras s'
       = Some (registered register_replies (register_calls s) cams)
    /\ register_calls s' = (register_calls s + length cams)%nat
    /\ has_control s' = Some false
    /\ client_id s' = Some id /\ (0 < id)%Z
    /\ reply_truthy (connection_props s') = true.
Proof.
  intros Hrun.
  destruct (connect_inversion _ _ _ _ Hrun)
    as (s1 & s2 & s3 & s4 & cams' & cams & id
        & H1 & H2 & Hid & Hpos & -> & H3 & H4 & ->).
  pose proof (_connect_frame s) as F1. rewrite H1 in F1.
  destruct F1 as (_ & _ & _ & _ & Hreg1 & _).
  pose proof (connect_retry_frame fuel 0 cams0 s1) as F2. rewrite H2 in F2.
  destruct F2 as (Hreg2 & _).
  destruct (connect_retry_cameras _ _ _ _ _ _ H2) as [Hprops Hcams].
  destruct (register_cameras_run cams [] (set_cameras (Some cams) s2) s3
              eq_refl H3) as (Hall & Hc3 & Hr3 & Hi3 & Hp3 & _).
  pose proof (reset_capture_loop_frame 10 0.1 s3) as F4.
  unfold reset_capture in H4. rewrite H4 in F4.
  destruct F4 as (Hc4 & Hr4 & Hi4 & Hp4 & _).
  simpl in *.
  assert (Hgiven : cams0 = Some cams).
  { destruct Hcams as [<-|[-> [= ->]]]; [done|].
    apply Forall_cons in Hall as [Hne _]. by destruct Hne. }
  exists cams, id. split; [done|]. split; [done|].
  rewrite Hc4, Hr4, Hi4, Hp4, Hc3, Hr3, Hi3, Hp3, Hreg2, Hreg1.
  by repeat split.
Qed.

End ConnectStages.

(** X20: what a [connect] that returns has done.  It was given a list of
    cameras, all of them dicts; each of them holds the handle of its own
    registration, in order; [has_control] is [False], the client id is
    positive and the connection properties are truthy. *)
Theorem connect_registers_cameras (create_replies : nat -> create_reply)
    (random_draws : nat -> Q) (register_replies : nat -> Z)
    (reset_replies : nat -> bool) (sim_start_command : bool)
    (fuel : nat) (cams0 : option (list camera)) (s s' : Conn) :
  connect create_replies random_draws register_replies reset_replies
    sim_start_command fuel cams0 s = (Ok (Some tt), s') ->
  exists cams id,
    cams0 = Some cams
    /\ Forall (fun c => c <> CameraObject) cams
    /\ cameras s'
       = Some (registered register_replies (register_calls s) cams)
    /\ register_calls s' = (register_calls s + length cams)%nat
    /\ has_control s' = Some false
    /\ client_id s' = Some id /\ (0 < id)%Z
    /\ reply_truthy (connection_props s') = true.
Proof. apply connect_succeeded. Qed.

(** X21: [connect] without cameras never returns: with [cameras=None] it
    ends with an exception whatever the simulator replies, [None] and
    the default [Camera] object being no dicts to register. *)
Theorem connect_without_cameras_fails (create_replies : nat -> create_reply)
    (random_draws : nat -> Q) (register_replies : nat -> Z)
    (reset_replies : nat -> bool) (sim_start_command : bool)
    (fuel : nat) (s : Conn) :
  (10 <= fuel)%nat ->
  exists e,
    fst (connect create_replies random_draws register_replies reset_replies
           sim_start_command fuel None s) = Raise e.
Proof.
  intros Hfuel.
  pose proof (connect_fuel create_replies random_draws register_replies
                reset_replies sim_start_command fuel None s Hfuel) as Hleft.
  destruct (connect _ _ _ _ _ fuel None s) as [[[[]|]|e] s'] eqn:Hrun.
  - destruct (connect_succeeded _ _ _ _ _ _ _ _ _ Hrun)
      as (cams & id & Hnone & _). done.
  - done.
  - by exists e.
Qed.

Lemma connect_registers_cameras_witness :
  exists s',
    connect (Samples.falsy_until 2) Samples.high_then_low
      (fun i => (Z.of_nat i + 7)%Z) (Samples.bound_after 1) false 10
      (Some [CameraDict None; CameraDict None]) Samples.disconnected
    = (Ok (Some tt), s')
    /\ cameras s' = Some [CameraDict (Some 7%Z); CameraDict (Some 8%Z)]
    /\ has_control s' = Some false.
Proof.
  assert (Hrun : exists s',
            connect (Samples.falsy_until 2) Samples.high_then_low
              (fun i => (Z.of_nat i + 7)%Z) (Samples.bound_after 1) false 10
              (Some [CameraDict None; CameraDict None]) Samples.disconnected
            = (Ok (Some tt), s'))
    by (eexists; vm_compute; reflexivity).
  destruct Hrun as [s' Hrun]. exists s'. split; [exact Hrun|].
  destruct (connect_registers_cameras _ _ _ _ _ _ _ _ _ Hrun)
    as (cams & id & Hgiven & _ & Hcams & _ & Hcontrol & _).
  injection Hgiven as <-. split; [exact Hcams | exact Hcontrol].
Defined.

Lemma connect_without_cameras_fails_witness :
  exists e,
    fst (connect (Samples.falsy_until 0) Samples.high_then_low
           (fun _ => 0%Z) (Samples.bound_after 0) false 10 None
           Samples.disconnected) = Raise e.
Proof.
  apply (connect_without_cameras_fails (Samples.falsy_until 0)
           Samples.high_then_low (fun _ => 0%Z) (Samples.bound_after 0)
           false 10 Samples.disconnected).
  lia.
Defined.

(** ** How long [connect] can take *)

Lemma total_sleep_snoc (l : list Q) (x : Q) :
  foldr Qplus 0 (l ++ [x]) == foldr Qplus 0 l + x.
Proof.
  induction l as [|y l IH]; simpl; [ring|]. rewrite IH. ring.
Qed.

Lemma inject_nat_succ (a : nat) :
  inject_Z (Z.of_nat (a + 1)) == inject_Z (Z.of_nat a) + 1.
Proof. rewrite Nat2Z.inj_add, inject_Z_plus. reflexivity. Qed.

Lemma inject_nat_range (a b : nat) :
  (a <= b)%nat -> 0 <= inject_Z (Z.of_nat a) <= inject_Z (Z.of_nat b).
Proof.
  intro H. split.
  - change 0 with (inject_Z 0). rewrite <- Zle_Qle. lia.
  - rewrite <- Zle_Qle. lia.
Qed.

Section ConnectTime.

Variable create_replies : nat -> create_reply.
Variable random_draws : nat -> Q.
Variable register_replies : nat -> Z.
Variable reset_replies : nat -> bool.
Variable SIM_START_COMMAND : bool.
Hypothesis draws_in_range : forall i, 0 <= random_draws i < 1.

(** After [a] retries the loop has at most [75 - (a * (a + 1) / 2 + 2 * a)]
    seconds of sleep and [10 - a] calls left. *)
Lemma connect_retry_within (fuel : nat) :
  forall (a : nat) (cams : option (list camera)) (s : Conn),
    (a <= 9)%nat ->
    let s' := snd (connect_retry create_replies random_draws fuel a cams s) in
    let x := inject_Z (Z.of_nat a) in
    (create_calls s' <= create_calls s + (10 - a))%nat
    /\ total_sleep s' + (x * (x + 1) / 2 + 2 * x) <= total_sleep s + 75.
Proof.
  assert (Hbudget : forall a : nat, (a <= 10)%nat ->
            let x := inject_Z (Z.of_nat a) in
            x * (x + 1) / 2 + 2 * x <= 75).
  { intros a Ha. cbv zeta.
    destruct (inject_nat_range a 10 Ha) as [H0 H10].
    change (inject_Z (Z.of_nat 10)) with 10 in H10.
    set (x := inject_Z (Z.of_nat a)) in *. clearbody x.
    assert (E : x * (x + 1) / 2 + 2 * x == (x * x + 5 * x) / 2) by field.
    rewrite E. apply Qle_shift_div_r; [reflexivity|]. nra. }
  induction fuel as [|fuel IH]; intros a cams s Ha; cbv zeta;
    (destruct (reply_truthy (connection_props s)) eqn:Hp;
     [rewrite connect_retry_left by done; simpl;
      split; [lia|];
      pose proof (Hbudget a ltac:(lia)) as Hb; cbv zeta in Hb; lra|]).
  - simpl. run_conn. rewrite Hp. simpl. split; [lia|].
    pose proof (Hbudget a ltac:(lia)) as Hb; cbv zeta in Hb; lra.
  - rewrite connect_retry_iteration by done.
    match goal with
    | |- context [_connect _ ?st] =>
        pose proof (_connect_frame create_replies st)
          as (Hcreate & _ & Hslept & _);
        destruct (_connect create_replies st) as [[[]|e] s1]
    end; simpl in Hcreate, Hslept.
    all: assert (Hsleep : total_sleep s1
                          == total_sleep s
                             + (inject_Z (Z.of_nat a) + 1
                                + random_draws (random_calls s) * 2))
      by (unfold total_sleep; rewrite Hslept, total_sleep_snoc;
          by rewrite inject_nat_succ).
    all: pose proof (draws_in_range (random_calls s)) as [Hr0 Hr1].
    all: pose proof (Hbudget (a + 1)%nat ltac:(lia)) as Hb; cbv zeta in Hb.
    all: rewrite inject_nat_succ in Hb.
    all: set (x := inject_Z (Z.of_nat a)) in *.
    all: assert (Estep : (x + 1) * (x + 1 + 1) / 2 + 2 * (x + 1)
                         == x * (x + 1) / 2 + 2 * x + (x + 3)) by field.
    2: { cbn [snd]. split; [lia|]. rewrite Hsleep. lra. }
    destruct (max_cxn_attempts <=? a + 1)%nat eqn:Hmax.
    { cbn [snd]. split; [lia|]. rewrite Hsleep. lra. }
    apply Nat.leb_gt in Hmax. unfold max_cxn_attempts in Hmax.
    match goal with
    | |- context [connect_retry _ _ fuel ?a' ?c ?st] =>
        destruct (IH a' c st ltac:(lia)) as [Hc Ht]
    end.
    cbv zeta in Hc, Ht. rewrite inject_nat_succ in Ht. fold x in Ht.
    split; [lia|]. rewrite Hsleep in Ht. lra.
Qed.

(** The capture bootstrap entered with [n] attempts left and the delay
    [sleep]: at most [n] attempts and [sleep * (2 ^ (n + 1) - 2)]
    seconds. *)
Lemma reset_capture_loop_within (n : nat) :
  forall (sleep : Q) (s : Conn),
    0 <= sleep ->
    let s' := snd (reset_capture_loop reset_replies SIM_START_COMMAND
                     n sleep s) in
    (reset_calls s' <= reset_calls s + n)%nat
    /\ total_sleep s' <= total_sleep s + sleep * (2 ^ Z.of_nat (S n) - 2).
Proof.
  induction n as [|n IH]; intros sleep s Hsleep; cbv zeta.
  - simpl. unfold raise_connect_fail.
    destruct SIM_START_COMMAND; simpl; (split; [lia|lra]).
  - assert (Hpow : 2 ^ Z.of_nat (S (S n)) == 2 * 2 ^ Z.of_nat (S n)).
    { rewrite (Nat2Z.inj_succ (S n)). unfold Z.succ.
      rewrite Qpower_plus by discriminate. simpl (2 ^ 1). ring. }
    assert (Hge : 2 <= 2 ^ Z.of_nat (S n)).
    { clear. induction n as [|n IHn]; [discriminate|].
      rewrite (Nat2Z.inj_succ (S n)). unfold Z.succ.
      rewrite Qpower_plus by discriminate. simpl (2 ^ 1). lra. }
    set (q := 2 ^ Z.of_nat (S (S n))) in *.
    set (p := 2 ^ Z.of_nat (S n)) in *. clearbody q p.
    cbn [reset_capture_loop]. run_conn.
    destruct (reset_replies (reset_calls s)).
    + split; [simpl; lia|]. cbn [snd].
      change (total_sleep (set_reset_calls (S (reset_calls s)) s))
        with (total_sleep s).
      rewrite Hpow.
      assert (0 <= sleep * (2 * p - 2))
        by (apply Qmult_le_0_compat; lra).
      lra.
    + match goal with
      | |- context [reset_capture_loop _ _ n ?sl ?st] =>
          remember st as s1 eqn:Hs1;
          assert (Hr : reset_calls s1 = S (reset_calls s)) by (by subst s1);
          assert (Hs : total_sleep s1 == total_sleep s + sleep * 2)
            by (subst s1; unfold total_sleep; simpl; apply total_sleep_snoc);
          clear Hs1;
          destruct (IH sl s1 ltac:(lra)) as [Hc Ht]
      end.
      cbv zeta in Hc, Ht.
      split; [lia|]. rewrite Hs in Ht. rewrite Hpow.
      assert (E : sleep * (2 * p - 2)
                  == sleep * 2 + sleep * 2 * (p - 2)) by ring.
      rewrite E. lra.
Qed.

Lemma register_cameras_within (cams : list camera) :
  forall (i : nat) (s : Conn),
    let s' := snd (register_cameras register_replies cams i s) in
    create_calls s' = create_calls s
    /\ reset_calls s' = reset_calls s
    /\ slept s' = slept s.
Proof.
  induction cams as [|cam rest IH]; intros i s; [done|].
  destruct cam as [|id]; [done|].
  cbv zeta. simpl. run_conn.
  match goal with
  | |- context [register_cameras _ rest ?j ?st] =>
      destruct (IH j st) as (H1 & H2 & H3)
  end.
  cbv zeta in *. by rewrite H1, H2, H3.
Qed.

Lemma connect_within (fuel : nat) (cams0 : option (list camera))
    (s s' : Conn) (r : result (option unit)) :
  connect create_replies random_draws register_replies reset_replies
    SIM_START_COMMAND fuel cams0 s = (r, s') ->
  (create_calls s' <= create_calls s + 11)%nat
  /\ (reset_calls s' <= reset_calls s + 10)%nat
  /\ total_sleep s' <= total_sleep s + 279.6.
Proof.
  unfold connect.
  unfold mbind at 1, M_bind at 1.
  pose proof (_connect_frame create_replies s)
    as (Hc1 & _ & Hs1 & _ & _ & Hr1).
  destruct (_connect create_replies s) as [[[]|e] s1]; simpl in Hc1, Hs1, Hr1.
  2: { intros [= _ <-]. unfold total_sleep. rewrite Hs1, Hc1, Hr1.
       split; [lia|]. split; [lia|lra]. }
  assert (Ht1 : total_sleep s1 == total_sleep s)
    by (unfold total_sleep; by rewrite Hs1).
  unfold mbind at 1, M_bind at 1.
  pose proof (connect_retry_within fuel 0 cams0 s1 ltac:(lia)) as [Hc2 Ht2].
  pose proof (connect_retry_frame create_replies random_draws fuel 0 cams0 s1)
    as [_ Hr2].
  cbv zeta in Hc2, Ht2, Hr2.
  change (inject_Z (Z.of_nat 0)) with 0 in Ht2.
  assert (E0 : 0 * (0 + 1) / 2 + 2 * 0 == 0) by reflexivity.
  rewrite E0 in Ht2. clear E0.
  destruct (connect_retry create_replies random_draws fuel 0 cams0 s1)
    as [[[cams'|]|e] s2]; cbn [snd] in Hc2, Ht2, Hr2.
  2, 3: (intros [= _ <-]; split; [lia|]; split; [lia|];
         rewrite Ht1 in Ht2; lra).
  unfold mbind at 1, M_bind at 1, modify at 1.
  unfold mbind at 1, M_bind at 1, gets at 1.
  remember (set_cameras cams' s2) as s2' eqn:Hs2'.
  assert (Hc2' : create_calls s2' = create_calls s2) by (by subst s2').
  assert (Hr2' : reset_calls s2' = reset_calls s2) by (by subst s2').
  assert (Ht2' : total_sleep s2' = total_sleep s2) by (by subst s2').
  clear Hs2'.
  unfold mbind at 1, M_bind at 1.
  assert (Hstage : forall r s3,
    (if match client_id s2' with
        | Some n => (0 <? n)%Z
        | None => false
        end
     then
      cams ← match cams' with
             | Some cams => mret cams
             | None => raise TypeError
             end;
      register_cameras register_replies cams 0;;
      reset_capture reset_replies SIM_START_COMMAND
     else raise_connect_fail SIM_START_COMMAND) s2' = (r, s3) ->
    create_calls s3 = create_calls s2'
    /\ (reset_calls s3 <= reset_calls s2' + 10)%nat
    /\ total_sleep s3 <= total_sleep s2' + 204.6).
  { intros r3 s3.
    destruct (match client_id s2' with
              | Some n => (0 <? n)%Z
              | None => false
              end).
    2: { unfold raise_connect_fail.
         destruct SIM_START_COMMAND; intros [= _ <-];
           (split; [done|]; split; [lia|lra]). }
    destruct cams' as [cams|].
    2: { intros [= _ <-]. split; [done|]. split; [lia|lra]. }
    unfold mbind at 1, M_bind at 1, mret at 1, M_ret at 1.
    unfold mbind at 1, M_bind at 1.
    pose proof (register_cameras_within cams 0 s2') as (Hc3 & Hr3 & Hs3).
    destruct (register_cameras register_replies cams 0 s2')
      as [[[]|e] s3']; cbn [snd] in Hc3, Hr3, Hs3.
    2: { intros [= _ <-]. unfold total_sleep. rewrite Hc3, Hr3, Hs3.
         split; [done|]. split; [lia|lra]. }
    assert (Ht3 : total_sleep s3' = total_sleep s2')
      by (unfold total_sleep; by rewrite Hs3).
    unfold reset_capture. intros Hrun.
    pose proof (reset_capture_loop_within 10 0.1 s3' ltac:(lra)) as [Hc4 Ht4].
    pose proof (reset_capture_loop_frame reset_replies SIM_START_COMMAND
                  10 0.1 s3') as (_ & _ & _ & _ & Hcc & _).
    cbv zeta in Hc4, Ht4, Hcc. rewrite Hrun in Hc4, Ht4, Hcc.
    cbn [snd] in Hc4, Ht4, Hcc.
    split; [congruence|]. split; [lia|].
    rewrite Ht3 in Ht4.
    assert (E : 0.1 * (2 ^ Z.of_nat 11 - 2) == 204.6) by reflexivity.
    rewrite E in Ht4. exact Ht4. }
  match goal with
  | |- context [(if ?b then ?m1 else ?m2) s2'] =>
      destruct ((if b then m1 else m2) s2') as [[[]|e] s3];
      destruct (Hstage _ _ eq_refl) as (Hc3 & Hr3 & Ht3)
  end.
  - run_conn. intros [= _ <-]. rewrite Ht1 in Ht2. rewrite Ht2' in Ht3.
    split; [simpl; lia|]. split; [simpl; lia|].
    change (total_sleep (set_has_control (Some false) s3))
      with (total_sleep s3). lra.
  - intros [= _ <-]. rewrite Ht1 in Ht2. rewrite Ht2' in Ht3.
    split; [lia|]. split; [lia|]. lra.
Qed.

End ConnectTime.

(** X22: [connect] is bounded.  With draws of [random.random()] in
    [[0, 1)] it makes at most 11 calls of [create] and 10 of
    [deepdrive_capture.reset], and sleeps at most 279.6 s in all, whatever
    the simulator replies and however it ends. *)
Theorem connect_bounded (create_replies : nat -> create_reply)
    (random_draws : nat -> Q) (register_replies : nat -> Z)
    (reset_replies : nat -> bool) (sim_start_command : bool)
    (fuel : nat) (cams0 : option (list camera)) (s : Conn) :
  (forall i, 0 <= random_draws i < 1) ->
  let s' := snd (connect create_replies random_draws register_replies
                   reset_replies sim_start_command fuel cams0 s) in
  (create_calls s' <= create_calls s + 11)%nat
  /\ (reset_calls s' <= reset_calls s + 10)%nat
  /\ total_sleep s' <= total_sleep s + 279.6.
Proof.
  intros Hdraws. cbv zeta.
  destruct (connect _ _ _ _ _ fuel cams0 s) as [r s'] eqn:Hrun.
  by apply (connect_within _ _ _ _ _ Hdraws _ _ _ _ _ Hrun).
Qed.

Lemma connect_bounded_witness :
  let s' := snd (connect Samples.always_falsy Samples.high_then_low
                   (fun _ => 0%Z) Samples.never_bound false 10 None
                   Samples.disconnected) in
  (create_calls s' <= create_calls Samples.disconnected + 11)%nat
  /\ (reset_calls s' <= reset_calls Samples.disconnected + 10)%nat
  /\ total_sleep s' <= total_sleep Samples.disconnected + 279.6.
Proof.
  apply (connect_bounded Samples.always_falsy Samples.high_then_low
           (fun _ => 0%Z) Samples.never_bound false 10 None
           Samples.disconnected).
  intro i. unfold Samples.high_then_low.
  destruct (i =? 0)%nat; split; first [discriminate | reflexivity].
Defined.

(** ** Replies that are not retried *)

(** X23: only a falsy reply is retried.  When the first reply is an
    integer, or a dict that is not complete (a key absent, a zero capture
    resolution, another protocol version), and no positive client id is
    left from before, [connect] ends with an exception after that one
    call and without sleeping. *)
Theorem unusable_reply_not_retried (create_replies : nat -> create_reply)
    (random_draws : nat -> Q) (register_replies : nat -> Z)
    (reset_replies : nat -> bool) (sim_start_command : bool)
    (fuel : nat) (cams0 : option (list camera)) (s : Conn)
    (reply : create_reply) :
  create_replies (create_calls s) = reply ->
  reply <> ReplyFalsy ->
  (forall p, reply = ReplyProps p -> ~ complete (client_version s) p) ->
  (forall n, client_id s = Some n -> (n <= 0)%Z) ->
  exists e s',
    connect create_replies random_draws register_replies reset_replies
      sim_start_command fuel cams0 s = (Raise e, s')
    /\ create_calls s' = S (create_calls s)
    /\ slept s' = slept s
    /\ random_calls s' = random_calls s
    /\ match reply with
       | ReplyProps p =>
           match Props.max_capture_resolution p with
           | None => e = KeyError "max_capture_resolution"
           | Some 0%Z => exists msg, e = PyException msg
           | Some _ =>
               e = RuntimeError "Server and client version do not match"
           end
       | _ =>
           e = PyException "You have an old version of the deepdrive client - try uninstalling and reinstalling with pip"
       end.
Proof.
  intros Hreply Hfalsy Hincomplete Hid.
  unfold connect. unfold mbind at 1, M_bind at 1.
  destruct reply as [n| |p]; [| done |].
  - unfold _connect. run_conn. rewrite Hreply. simpl.
    eexists; eexists. split; [reflexivity|]. by repeat split.
  - specialize (Hincomplete p eq_refl).
    destruct (Props.max_capture_resolution p) as [r|] eqn:Hres.
    2: { unfold _connect. run_conn. rewrite Hreply, Hres. simpl.
         eexists; eexists. split; [reflexivity|]. by repeat split. }
    destruct (Z.eq_dec r 0%Z) as [->|Hr].
    + assert (Hrun : _connect create_replies s
                     = (Ok tt, set_connection_props (ReplyProps p)
                                 (set_create_calls (S (create_calls s)) s))).
      { unfold _connect. run_conn. by rewrite Hreply, Hres. }
      rewrite Hrun. unfold mbind at 1, M_bind at 1.
      rewrite connect_retry_left by done.
      run_conn.
      assert (Hnot : match client_id s with
                     | Some n => (0 <? n)%Z
                     | None => false
                     end = false).
      { destruct (client_id s) as [n|]; [|done].
        apply Z.ltb_ge. by apply Hid. }
      rewrite Hnot. unfold raise_connect_fail.
      destruct sim_start_command; simpl;
        (eexists; eexists; split; [reflexivity|]; repeat split;
         by eexists).
    + assert (Hversion : String.eqb (client_version s)
                           (Props.server_protocol_version p) = false).
      { apply String.eqb_neq. intro Hv. apply Hincomplete.
        split; [by exists r | done]. }
      unfold _connect. run_conn. rewrite Hreply, Hres. simpl.
      apply Z.eqb_neq in Hr. rewrite Hr. simpl. rewrite Hversion. simpl.
      eexists; eexists. split; [reflexivity|].
      destruct r; by repeat split.
Qed.

Lemma unusable_reply_not_retried_witness :
  exists e s',
    connect (fun _ => ReplyProps Samples.incomplete_props)
      Samples.high_then_low (fun _ => 0%Z) Samples.never_bound false 10
      None Samples.disconnected = (Raise e, s')
    /\ create_calls s' = 1%nat
    /\ slept s' = []
    /\ random_calls s' = 0%nat
    /\ exists msg, e = PyException msg.
Proof.
  apply (unusable_reply_not_retried
           (fun _ => ReplyProps Samples.incomplete_props)
           Samples.high_then_low (fun _ => 0%Z) Samples.never_bound false 10
           None Samples.disconnected (ReplyProps Samples.incomplete_props)).
  - reflexivity.
  - discriminate.
  - intros p [= <-] [(r & Hr & Hnz) _]. simpl in Hr.
    injection Hr as <-. by apply Hnz.
  - discriminate.
Defined.

(** ** The control boundary *)

Ltac run_control :=
  unfold Control.send_control, Control.change_has_control,
    Control.request_agent_control, Control.release_agent_control,
    Control.reset_agent, Control.deepdrive_client_request_agent_control,
    Control.deepdrive_client_release_agent_control,
    Control.deepdrive_client_reset_agent,
    Control.deepdrive_client_set_control_values,
    mbind, M_bind, mret, M_ret, gets, modify, when;
  simpl.

Section ControlBoundary.

Variable request_replies : nat -> Z.
Variable release_replies : nat -> option Z.

(** One [send_control]: the values are always handed on; control is
    requested or released first when the action's flag differs from
    [self.has_control], and the reply becomes the flag. *)
Lemma send_control_run (a : Action.t) (s : Control.Agent) :
  exists s',
    Control.send_control request_replies release_replies a s = (Ok tt, s')
    /\ Control.controls s' = Control.controls s ++ [a]
    /\ Control.reset_agent_calls s' = Control.reset_agent_calls s
    /\ (Control.has_control s = Some (Action.has_control a) ->
        Control.has_control s' = Control.has_control s
        /\ Control.request_calls s' = Control.request_calls s
        /\ Control.release_calls s' = Control.release_calls s)
    /\ (Control.has_control s <> Some (Action.has_control a) ->
        Action.has_control a = true ->
        Control.has_control s'
        = Some (request_replies (Control.request_calls s) =? 1)%Z
        /\ Control.request_calls s' = S (Control.request_calls s)
        /\ Control.release_calls s' = Control.release_calls s)
    /\ (Control.has_control s <> Some (Action.has_control a) ->
        Action.has_control a = false ->
        Control.has_control s'
        = Some (bool_decide
                  (is_Some (release_replies (Control.release_calls s))))
        /\ Control.request_calls s' = Control.request_calls s
        /\ Control.release_calls s' = S (Control.release_calls s)).
Proof.
  run_control.
  destruct (decide (Control.has_control s = Some (Action.has_control a)))
    as [Heq|Hne].
  - rewrite bool_decide_true by done. simpl.
    eexists. split; [reflexivity|]. simpl.
    split; [done|]. split; [done|]. split; [done|]. by split.
  - rewrite bool_decide_false by done. simpl.
    destruct (Action.has_control a); simpl;
      (eexists; split; [reflexivity|]; simpl;
       split; [done|]; split; [done|]; split; [done|]; by split).
Qed.

End ControlBoundary.

(** X24: a release that the simulator acknowledges is not recorded.
    [release_agent_control] sets [has_control] to whether the reply is
    not [None], so with replies that are never [None] the flag stays
    [True], and every action sent without control releases again. *)
Theorem release_is_repeated (request_replies : nat -> Z)
    (release_replies : nat -> option Z) (actions : list Action.t)
    (s : Control.Agent) :
  (forall i, is_Some (release_replies i)) ->
  Control.has_control s = Some true ->
  Forall (fun a => Action.has_control a = false) actions ->
  exists s',
    Control.send_controls request_replies release_replies actions s
    = (Ok tt, s')
    /\ Control.has_control s' = Some true
    /\ Control.release_calls s'
       = (Control.release_calls s + length actions)%nat
    /\ Control.request_calls s' = Control.request_calls s
    /\ Control.controls s' = Control.controls s ++ actions.
Proof.
  intros Hreplies Hcontrol Hactions. revert s Hcontrol.
  induction Hactions as [|a rest Ha _ IH]; intros s Hcontrol.
  - exists s. simpl. rewrite Nat.add_0_r, app_nil_r. by repeat split.
  - destruct (send_control_run request_replies release_replies a s)
      as (s1 & Hrun & Hc & _ & _ & _ & Hrelease).
    destruct Hrelease as (Hflag & Hreq & Hrel); [by rewrite Hcontrol, Ha|done|].
    rewrite bool_decide_true in Hflag by apply Hreplies.
    destruct (IH s1 Hflag) as (s' & Hrest & Hflag' & Hrel' & Hreq' & Hc').
    exists s'. cbn [Control.send_controls].
    unfold mbind, M_bind. rewrite Hrun, Hrest.
    split; [done|]. split; [done|].
    rewrite Hrel', Hreq', Hc', Hrel, Hreq, Hc, <- app_assoc. simpl.
    split; [lia|]. by split.
Qed.

Lemma release_is_repeated_witness :
  let hold := Action.new 0 0 1 0 false in
  let s := Control.mkAgent (Some true) 1 0 1 [] in
  exists s',
    Control.send_controls (fun _ => 1%Z) (fun _ => Some 1%Z)
      [hold; hold; hold] s = (Ok tt, s')
    /\ Control.has_control s' = Some true
    /\ Control.release_calls s' = (Control.release_calls s + 3)%nat
    /\ Control.request_calls s' = Control.request_calls s
    /\ Control.controls s' = Control.controls s ++ [hold; hold; hold].
Proof.
  cbv zeta.
  apply (release_is_repeated (fun _ => 1%Z) (fun _ => Some 1%Z)
           [Action.new 0 0 1 0 false; Action.new 0 0 1 0 false;
            Action.new 0 0 1 0 false]
           (Control.mkAgent (Some true) 1 0 1 [])).
  - intro i. by eexists.
  - reflexivity.
  - repeat constructor.
Defined.

(** X25: control that is granted is requested once.  When the reply to
    the request is 1, a run of actions sent with control makes that one
    request, no release, and hands on the values of every action in
    order. *)
Theorem granted_control_is_kept (request_replies : nat -> Z)
    (release_replies : nat -> option Z) (a : Action.t)
    (actions : list Action.t) (s : Control.Agent) :
  Control.has_control s <> Some true ->
  request_replies (Control.request_calls s) = 1%Z ->
  Forall (fun a => Action.has_control a = true) (a :: actions) ->
  exists s',
    Control.send_controls request_replies release_replies (a :: actions) s
    = (Ok tt, s')
    /\ Control.has_control s' = Some true
    /\ Control.request_calls s' = S (Control.request_calls s)
    /\ Control.release_calls s' = Control.release_calls s
    /\ Control.controls s' = Control.controls s ++ a :: actions.
Proof.
  intros Hcontrol Hgranted Hactions.
  apply Forall_cons in Hactions as [Ha Hrest].
  assert (Hkept : forall rest s1,
    Forall (fun a => Action.has_control a = true) rest ->
    Control.has_control s1 = Some true ->
    exists s',
      Control.send_controls request_replies release_replies rest s1
      = (Ok tt, s')
      /\ Control.has_control s' = Some true
      /\ Control.request_calls s' = Control.request_calls s1
      /\ Control.release_calls s' = Control.release_calls s1
      /\ Control.controls s' = Control.controls s1 ++ rest).
  { intros rest s1 Hall. revert s1.
    induction Hall as [|b rest Hb _ IH]; intros s1 Hs1.
    - exists s1. simpl. rewrite app_nil_r. by repeat split.
    - destruct (send_control_run request_replies release_replies b s1)
        as (s2 & Hrun & Hc & _ & Hsame & _).
      destruct Hsame as (Hflag & Hreq & Hrel); [by rewrite Hs1, Hb|].
      rewrite Hs1 in Hflag.
      destruct (IH s2 Hflag) as (s' & Hrest' & Hflag' & Hreq' & Hrel' & Hc').
      exists s'. cbn [Control.send_controls].
      unfold mbind, M_bind. rewrite Hrun, Hrest'.
      split; [done|]. split; [done|].
      rewrite Hreq', Hrel', Hc', Hreq, Hrel, Hc, <- app_assoc.
      by repeat split. }
  destruct (send_control_run request_replies release_replies a s)
    as (s1 & Hrun & Hc & _ & _ & Hrequest & _).
  destruct Hrequest as (Hflag & Hreq & Hrel); [by rewrite Ha|done|].
  rewrite Hgranted in Hflag. simpl in Hflag.
  destruct (Hkept actions s1 Hrest Hflag)
    as (s' & Hrest' & Hflag' & Hreq' & Hrel' & Hc').
  exists s'. cbn [Control.send_controls].
  unfold mbind, M_bind. rewrite Hrun, Hrest'.
  split; [done|]. split; [done|].
  rewrite Hreq', Hrel', Hc', Hreq, Hrel, Hc, <- app_assoc.
  by repeat split.
Qed.

Lemma granted_control_is_kept_witness :
  let drive := Action.new 0.1 1 0 0 true in
  let s := Control.mkAgent (Some false) 0 0 0 [] in
  exists s',
    Control.send_controls (fun _ => 1%Z) (fun _ => None)
      [drive; drive] s = (Ok tt, s')
    /\ Control.has_control s' = Some true
    /\ Control.request_calls s' = S (Control.request_calls s)
    /\ Control.release_calls s' = Control.release_calls s
    /\ Control.controls s' = Control.controls s ++ [drive; drive].
Proof.
  cbv zeta.
  apply (granted_control_is_kept (fun _ => 1%Z) (fun _ => None)
           (Action.new 0.1 1 0 0 true) [Action.new 0.1 1 0 0 true]
           (Control.mkAgent (Some false) 0 0 0 [])).
  - discriminate.
  - reflexivity.
  - repeat constructor.
Defined.

(** X26: what a reset does at the control boundary.  It resets the agent
    once, releases nothing and ends by engaging the handbrake; it
    requests control once when the reply is 1, and a second time, for the
    handbrake action, when it is not. *)
Theorem reset_requests_control (request_replies : nat -> Z)
    (release_replies : nat -> option Z) (s : Control.Agent) :
  let first := request_replies (Control.request_calls s) in
  let second := request_replies (S (Control.request_calls s)) in
  exists s',
    Control.reset_controls request_replies release_replies s = (Ok tt, s')
    /\ Control.reset_agent_calls s' = S (Control.reset_agent_calls s)
    /\ Control.release_calls s' = Control.release_calls s
    /\ Control.controls s'
       = Control.controls s ++ [Action.new 0 0 0 1 true]
    /\ (if (first =? 1)%Z
        then Control.request_calls s' = S (Control.request_calls s)
             /\ Control.has_control s' = Some true
        else Control.request_calls s' = S (S (Control.request_calls s))
             /\ Control.has_control s' = Some (second =? 1)%Z).
Proof.
  cbv zeta. unfold Control.reset_controls. run_control.
  destruct (request_replies (Control.request_calls s) =? 1)%Z; simpl;
    (eexists; split; [reflexivity|]; by repeat split).
Qed.

(** ** Closing the simulator *)

Section ClosingSim.

Variable poll_is_none : nat -> bool.

(** The wait loop entered with [i] tries made: it sleeps half a second
    for each poll that finds the process running, [k] of them, until a
    poll finds it gone or five tries are made. *)
Lemma close_sim_wait_run (fuel : nat) :
  forall (i : nat) (s : Sim.Process),
    (i <= 5)%nat ->
    (5 - i <= fuel)%nat ->
    exists k s',
      Sim.close_sim_wait poll_is_none fuel i s = (Ok (Some (i + k)%nat), s')
      /\ (i + k <= 5)%nat
      /\ Sim.slept s' = Sim.slept s ++ replicate k 0.5
      /\ (forall j, (j < k)%nat ->
            poll_is_none (Sim.poll_calls s + j)%nat = true)
      /\ ((i + k < 5)%nat -> poll_is_none (Sim.poll_calls s + k)%nat = false)
      /\ Sim.poll_calls s' = (Sim.poll_calls s + S k)%nat
      /\ Sim.kill_calls s' = Sim.kill_calls s
      /\ Sim.terminate_calls s' = Sim.terminate_calls s.
Proof.
  induction fuel as [|fuel IH]; intros i s Hi Hfuel.
  - assert (i = 5)%nat as -> by lia.
    exists 0%nat. eexists. simpl.
    unfold mbind, M_bind, Sim.sim_process_poll, mret, M_ret. simpl.
    rewrite andb_false_r. split; [reflexivity|]. simpl.
    rewrite app_nil_r, Nat.add_0_r.
    split; [lia|]. split; [done|]. split; [intros; lia|].
    split; [lia|]. split; [lia|]. by split.
  - cbn [Sim.close_sim_wait].
    unfold mbind at 1, M_bind at 1, Sim.sim_process_poll at 1.
    destruct (poll_is_none (Sim.poll_calls s)) eqn:Hpoll;
      [destruct (i <? Sim.max_tries)%nat eqn:Htries|]; cbn [andb].
    + apply Nat.ltb_lt in Htries. unfold Sim.max_tries in Htries.
      unfold mbind at 1, M_bind at 1, Sim.time_sleep at 1, modify at 1.
      remember (Sim.set_slept _ _) as s1 eqn:Hs1.
      assert (Hslept : Sim.slept s1 = Sim.slept s ++ [0.5])
        by (by subst s1).
      assert (Hpolls : Sim.poll_calls s1 = S (Sim.poll_calls s))
        by (by subst s1).
      assert (Hkill : Sim.kill_calls s1 = Sim.kill_calls s)
        by (by subst s1).
      assert (Hterm : Sim.terminate_calls s1 = Sim.terminate_calls s)
        by (by subst s1).
      clear Hs1.
      destruct (IH (i + 1)%nat s1 ltac:(lia) ltac:(lia))
        as (k & s' & Hrun & Hk & Hs & Hrunning & Hgone & Hp & Hkl & Ht).
      exists (S k), s'. rewrite Hrun.
      split; [do 3 f_equal; lia|]. split; [lia|].
      split; [by rewrite Hs, Hslept, <- app_assoc|].
      split.
      { intros [|j] Hj; [by rewrite Nat.add_0_r|].
        specialize (Hrunning j ltac:(lia)).
        rewrite Hpolls in Hrunning.
        by replace (Sim.poll_calls s + S j)%nat
          with (S (Sim.poll_calls s) + j)%nat by lia. }
      split.
      { intro Hlt. specialize (Hgone ltac:(lia)).
        rewrite Hpolls in Hgone.
        by replace (Sim.poll_calls s + S k)%nat
          with (S (Sim.poll_calls s) + k)%nat by lia. }
      rewrite Hp, Hpolls, Hkl, Hkill, Ht, Hterm.
      split; [lia|]. by split.
    + apply Nat.ltb_ge in Htries. unfold Sim.max_tries in Htries.
      exists 0%nat. eexists. unfold mret, M_ret.
      split; [by rewrite Nat.add_0_r|]. simpl.
      rewrite app_nil_r.
      split; [lia|]. split; [done|]. split; [intros; lia|].
      split; [lia|]. split; [lia|]. by split.
    + exists 0%nat. eexists. unfold mret, M_ret.
      split; [by rewrite Nat.add_0_r|]. simpl.
      rewrite app_nil_r, !Nat.add_0_r.
      split; [lia|]. split; [done|]. split; [intros; lia|].
      split; [done|]. split; [lia|]. by split.
Qed.

End ClosingSim.

(** X27: [close_sim] waits at most five times.  With a process to close
    it kills it, then sleeps half a second after each poll that finds it
    running, at most five times; it polls once more than it sleeps, and
    it calls [terminate] exactly when the first five polls found the
    process running. *)
Theorem close_sim_waits (poll_is_none : nat -> bool) (fuel : nat)
    (s : Sim.Process) :
  Sim.sim_process s = true ->
  (5 <= fuel)%nat ->
  exists k s',
    Sim.close_sim poll_is_none fuel s = (Ok (Some tt), s')
    /\ (k <= 5)%nat
    /\ Sim.slept s' = Sim.slept s ++ replicate k 0.5
    /\ (forall j, (j < k)%nat -> poll_is_none (Sim.poll_calls s + j)%nat = true)
    /\ ((k < 5)%nat -> poll_is_none (Sim.poll_calls s + k)%nat = false)
    /\ Sim.poll_calls s' = (Sim.poll_calls s + S k)%nat
    /\ Sim.kill_calls s' = S (Sim.kill_calls s)
    /\ Sim.terminate_calls s'
       = (Sim.terminate_calls s + if (k =? 5)%nat then 1 else 0)%nat.
Proof.
  intros Hthere Hfuel. unfold Sim.close_sim.
  unfold mbind at 1, M_bind at 1, gets at 1. rewrite Hthere.
  unfold mbind at 1, M_bind at 1, Sim.sim_process_kill at 1, modify at 1.
  remember (Sim.set_kill_calls _ _) as s1 eqn:Hs1.
  assert (Hslept : Sim.slept s1 = Sim.slept s) by (by subst s1).
  assert (Hpolls : Sim.poll_calls s1 = Sim.poll_calls s) by (by subst s1).
  assert (Hkill : Sim.kill_calls s1 = S (Sim.kill_calls s))
    by (by subst s1).
  assert (Hterm : Sim.terminate_calls s1 = Sim.terminate_calls s)
    by (by subst s1).
  clear Hs1.
  destruct (close_sim_wait_run poll_is_none fuel 0 s1 ltac:(lia) ltac:(lia))
    as (k & s2 & Hrun & Hk & Hs & Hrunning & Hgone & Hp & Hkl & Ht).
  simpl in Hrun, Hk, Hgone.
  unfold mbind at 1, M_bind at 1. rewrite Hrun.
  exists k.
  destruct (k =? Sim.max_tries)%nat eqn:Hmax.
  - eexists. unfold when, mbind, M_bind, Sim.sim_process_terminate, modify,
      mret, M_ret.
    split; [reflexivity|]. simpl.
    rewrite Hs, Hslept, Hp, Hpolls, Hkl, Hkill, Ht, Hterm.
    split; [lia|]. split; [done|].
    split; [intros j Hj; rewrite <- Hpolls; by apply Hrunning|].
    split; [intro Hlt; rewrite <- Hpolls; by apply Hgone|].
    split; [done|]. split; [done|].
    unfold Sim.max_tries in Hmax. rewrite Hmax. lia.
  - exists s2. unfold when, mbind, M_bind, mret, M_ret.
    split; [reflexivity|].
    rewrite Hs, Hslept, Hp, Hpolls, Hkl, Hkill, Ht, Hterm.
    split; [lia|]. split; [done|].
    split; [intros j Hj; rewrite <- Hpolls; by apply Hrunning|].
    split; [intro Hlt; rewrite <- Hpolls; by apply Hgone|].
    split; [done|]. split; [done|].
    unfold Sim.max_tries in Hmax. rewrite Hmax. lia.
Qed.

Lemma close_sim_waits_witness :
  let s := Sim.mkProcess true 0 0 0 [] in
  exists k s',
    Sim.close_sim (fun i => (i <? 2)%nat) 5 s = (Ok (Some tt), s')
    /\ (k <= 5)%nat
    /\ Sim.slept s' = Sim.slept s ++ replicate k 0.5
    /\ (forall j, (j < k)%nat ->
          (fun i => (i <? 2)%nat) (Sim.poll_calls s + j)%nat = true)
    /\ ((k < 5)%nat ->
        (fun i => (i <? 2)%nat) (Sim.poll_calls s + k)%nat = false)
    /\ Sim.poll_calls s' = (Sim.poll_calls s + S k)%nat
    /\ Sim.kill_calls s' = S (Sim.kill_calls s)
    /\ Sim.terminate_calls s'
       = (Sim.terminate_calls s + if (k =? 5)%nat then 1 else 0)%nat.
Proof.
  cbv zeta.
  apply (close_sim_waits (fun i => (i <? 2)%nat) 5
           (Sim.mkProcess true 0 0 0 [])).
  - reflexivity.
  - lia.
Defined.
